(** * hidclient: event translation and session handling

    A shallow embedding of [parse_events] and of the session part of
    [main] from [hidclient.c] (the neo-layout variant of the Bluetooth HID
    keyboard and mouse emulation), with the properties of its
    specification that concern the event translator, the remap layers,
    the pressed-key array, the mute toggle and the session teardown.

    Conventions.  C integers are modelled as [Z]; the conversions to
    [char] and [unsigned char] are written out ([to_schar], [to_uchar];
    [char] is signed, as on the amd64 target the source names).  The
    globals of the program are the fields of [state]; [trace] and [proc]
    are instrumentation recording the observable effects (reports
    assembled, [send] and [system] calls, descriptors closed) and whether
    the process is still alive.  The local buffer [hidrep] of
    [parse_events] is not initialised by the C code: the model takes its
    initial content as an argument. *)

From stdpp Require Import base numbers list strings.

Local Open Scope Z_scope.

(** ** Constants of [linux/input-event-codes.h] used by the source *)

Definition EV_SYN : Z := 0x00.
Definition EV_KEY : Z := 0x01.
Definition EV_REL : Z := 0x02.
Definition EV_ABS : Z := 0x03.
Definition EV_MSC : Z := 0x04.
Definition EV_LED : Z := 0x11.
Definition EV_SND : Z := 0x12.
Definition EV_REP : Z := 0x14.
Definition EV_FF : Z := 0x15.
Definition EV_PWR : Z := 0x16.
Definition EV_FF_STATUS : Z := 0x17.

Definition ABS_X : Z := 0x00.
Definition ABS_Y : Z := 0x01.
Definition ABS_Z : Z := 0x02.
Definition BTN_LEFT : Z := 0x110.
Definition BTN_RIGHT : Z := 0x111.
Definition BTN_MIDDLE : Z := 0x112.
Definition REL_WHEEL : Z := 0x08.

Definition KEY_ESC : Z := 1.
Definition KEY_1 : Z := 2.
Definition KEY_2 : Z := 3.
Definition KEY_3 : Z := 4.
Definition KEY_4 : Z := 5.
Definition KEY_5 : Z := 6.
Definition KEY_6 : Z := 7.
Definition KEY_7 : Z := 8.
Definition KEY_8 : Z := 9.
Definition KEY_9 : Z := 10.
Definition KEY_0 : Z := 11.
Definition KEY_MINUS : Z := 12.
Definition KEY_EQUAL : Z := 13.
Definition KEY_BACKSPACE : Z := 14.
Definition KEY_TAB : Z := 15.
Definition KEY_Q : Z := 16.
Definition KEY_W : Z := 17.
Definition KEY_E : Z := 18.
Definition KEY_R : Z := 19.
Definition KEY_T : Z := 20.
Definition KEY_Y : Z := 21.
Definition KEY_U : Z := 22.
Definition KEY_I : Z := 23.
Definition KEY_O : Z := 24.
Definition KEY_P : Z := 25.
Definition KEY_LEFTBRACE : Z := 26.
Definition KEY_RIGHTBRACE : Z := 27.
Definition KEY_ENTER : Z := 28.
Definition KEY_LEFTCTRL : Z := 29.
Definition KEY_A : Z := 30.
Definition KEY_S : Z := 31.
Definition KEY_D : Z := 32.
Definition KEY_F : Z := 33.
Definition KEY_G : Z := 34.
Definition KEY_H : Z := 35.
Definition KEY_J : Z := 36.
Definition KEY_K : Z := 37.
Definition KEY_L : Z := 38.
Definition KEY_SEMICOLON : Z := 39.
Definition KEY_APOSTROPHE : Z := 40.
Definition KEY_GRAVE : Z := 41.
Definition KEY_LEFTSHIFT : Z := 42.
Definition KEY_BACKSLASH : Z := 43.
Definition KEY_Z : Z := 44.
Definition KEY_X : Z := 45.
Definition KEY_C : Z := 46.
Definition KEY_V : Z := 47.
Definition KEY_B : Z := 48.
Definition KEY_N : Z := 49.
Definition KEY_M : Z := 50.
Definition KEY_COMMA : Z := 51.
Definition KEY_DOT : Z := 52.
Definition KEY_SLASH : Z := 53.
Definition KEY_RIGHTSHIFT : Z := 54.
Definition KEY_KPASTERISK : Z := 55.
Definition KEY_LEFTALT : Z := 56.
Definition KEY_SPACE : Z := 57.
Definition KEY_CAPSLOCK : Z := 58.
Definition KEY_F1 : Z := 59.
Definition KEY_F2 : Z := 60.
Definition KEY_F3 : Z := 61.
Definition KEY_F4 : Z := 62.
Definition KEY_F5 : Z := 63.
Definition KEY_F6 : Z := 64.
Definition KEY_F7 : Z := 65.
Definition KEY_F8 : Z := 66.
Definition KEY_F9 : Z := 67.
Definition KEY_F10 : Z := 68.
Definition KEY_NUMLOCK : Z := 69.
Definition KEY_SCROLLLOCK : Z := 70.
Definition KEY_KP7 : Z := 71.
Definition KEY_KP8 : Z := 72.
Definition KEY_KP9 : Z := 73.
Definition KEY_KPMINUS : Z := 74.
Definition KEY_KP4 : Z := 75.
Definition KEY_KP5 : Z := 76.
Definition KEY_KP6 : Z := 77.
Definition KEY_KPPLUS : Z := 78.
Definition KEY_KP1 : Z := 79.
Definition KEY_KP2 : Z := 80.
Definition KEY_KP3 : Z := 81.
Definition KEY_KP0 : Z := 82.
Definition KEY_KPDOT : Z := 83.
Definition KEY_102ND : Z := 86.
Definition KEY_F11 : Z := 87.
Definition KEY_F12 : Z := 88.
Definition KEY_KPENTER : Z := 96.
Definition KEY_RIGHTCTRL : Z := 97.
Definition KEY_KPSLASH : Z := 98.
Definition KEY_SYSRQ : Z := 99.
Definition KEY_RIGHTALT : Z := 100.
Definition KEY_HOME : Z := 102.
Definition KEY_UP : Z := 103.
Definition KEY_PAGEUP : Z := 104.
Definition KEY_LEFT : Z := 105.
Definition KEY_RIGHT : Z := 106.
Definition KEY_END : Z := 107.
Definition KEY_DOWN : Z := 108.
Definition KEY_PAGEDOWN : Z := 109.
Definition KEY_INSERT : Z := 110.
Definition KEY_DELETE : Z := 111.
Definition KEY_PAUSE : Z := 119.
Definition KEY_LEFTMETA : Z := 125.
Definition KEY_RIGHTMETA : Z := 126.

(** ** Constants and tables of [hidclient.c] *)

Definition REPORTID_MOUSE : Z := 1.
Definition REPORTID_KEYBD : Z := 2.

(** [sizeof(struct input_event)], the value [read] leaves in [j] when a
    whole record was read (24 on a 64-bit target, line 915). *)
Definition sizeof_input_event : Z := 24.

(** [chars[100][6][2]]: for each dense key index and layer the pair
    (modifier byte, key usage); usage 0 marks an unmapped entry. *)
Definition chars : list (list (Z * Z)) :=
  [
    [(0x00, 0x00); (0x00, 0x00); (0x00, 0x00); (0x00, 0x00); (0x00, 0x00); (0x00, 0x00)];  (* 0 *)
    [(0x00, 0x00); (0x00, 0x00); (0x00, 0x00); (0x00, 0x00); (0x00, 0x00); (0x00, 0x00)];  (* 1 *)
    [(0x00, 0x00); (0x00, 0x00); (0x00, 0x00); (0x00, 0x00); (0x00, 0x00); (0x00, 0x00)];  (* 2 *)
    [(0x00, 0x00); (0x00, 0x00); (0x00, 0x00); (0x00, 0x00); (0x00, 0x00); (0x00, 0x00)];  (* 3 *)
    [(0x00, 0x18); (0x02, 0x18); (0x06, 0x24); (0x00, 0x4a); (0x00, 0x00); (0x00, 0x00)];  (* 4 *)
    [(0x00, 0x1c); (0x02, 0x1c); (0x00, 0x00); (0x00, 0x00); (0x00, 0x00); (0x00, 0x00)];  (* 5 *)
    [(0x00, 0x34); (0x02, 0x34); (0x04, 0x24); (0x00, 0x49); (0x00, 0x00); (0x00, 0x00)];  (* 6 *)
    [(0x00, 0x04); (0x02, 0x04); (0x04, 0x25); (0x00, 0x51); (0x00, 0x00); (0x00, 0x00)];  (* 7 *)
    [(0x00, 0x0f); (0x02, 0x0f); (0x04, 0x22); (0x00, 0x52); (0x00, 0x00); (0x00, 0x00)];  (* 8 *)
    [(0x00, 0x08); (0x02, 0x08); (0x04, 0x26); (0x00, 0x4f); (0x00, 0x00); (0x00, 0x00)];  (* 9 *)
    [(0x00, 0x12); (0x02, 0x12); (0x02, 0x30); (0x00, 0x4d); (0x00, 0x00); (0x00, 0x00)];  (* 10 *)
    [(0x00, 0x16); (0x02, 0x16); (0x02, 0x2d); (0x04, 0x2d); (0x00, 0x00); (0x00, 0x00)];  (* 11 *)
    [(0x00, 0x0a); (0x02, 0x0a); (0x02, 0x35); (0x00, 0x25); (0x00, 0x00); (0x00, 0x00)];  (* 12 *)
    [(0x00, 0x11); (0x02, 0x11); (0x02, 0x25); (0x00, 0x21); (0x00, 0x00); (0x00, 0x00)];  (* 13 *)
    [(0x00, 0x15); (0x02, 0x15); (0x02, 0x26); (0x00, 0x22); (0x00, 0x00); (0x00, 0x00)];  (* 14 *)
    [(0x00, 0x17); (0x02, 0x17); (0x00, 0x38); (0x00, 0x23); (0x00, 0x00); (0x00, 0x00)];  (* 15 *)
    [(0x00, 0x10); (0x02, 0x10); (0x02, 0x22); (0x00, 0x1e); (0x00, 0x00); (0x00, 0x00)];  (* 16 *)
    [(0x00, 0x05); (0x02, 0x05); (0x00, 0x30); (0x02, 0x37); (0x00, 0x00); (0x00, 0x00)];  (* 17 *)
    [(0x00, 0x09); (0x02, 0x09); (0x02, 0x27); (0x00, 0x26); (0x00, 0x00); (0x00, 0x00)];  (* 18 *)
    [(0x00, 0x14); (0x02, 0x14); (0x02, 0x23); (0x00, 0x30); (0x00, 0x00); (0x00, 0x00)];  (* 19 *)
    [(0x00, 0x1b); (0x02, 0x1b); (0x04, 0x37); (0x00, 0x4b); (0x00, 0x00); (0x00, 0x00)];  (* 20 *)
    [(0x00, 0x06); (0x02, 0x06); (0x04, 0x23); (0x00, 0x4c); (0x00, 0x00); (0x00, 0x00)];  (* 21 *)
    [(0x00, 0x0c); (0x02, 0x0c); (0x02, 0x24); (0x00, 0x50); (0x00, 0x00); (0x00, 0x00)];  (* 22 *)
    [(0x00, 0x1a); (0x02, 0x1a); (0x00, 0x00); (0x00, 0x4e); (0x00, 0x00); (0x00, 0x00)];  (* 23 *)
    [(0x00, 0x0b); (0x02, 0x0b); (0x00, 0x35); (0x00, 0x24); (0x00, 0x00); (0x00, 0x00)];  (* 24 *)
    [(0x00, 0x13); (0x02, 0x13); (0x04, 0x11); (0x00, 0x28); (0x00, 0x00); (0x00, 0x00)];  (* 25 *)
    [(0x00, 0x19); (0x02, 0x19); (0x02, 0x38); (0x00, 0x2a); (0x00, 0x00); (0x00, 0x00)];  (* 26 *)
    [(0x00, 0x33); (0x02, 0x33); (0x02, 0x21); (0x00, 0x2b); (0x00, 0x00); (0x00, 0x00)];  (* 27 *)
    [(0x00, 0x0e); (0x02, 0x0e); (0x02, 0x1e); (0x04, 0x1e); (0x00, 0x00); (0x00, 0x00)];  (* 28 *)
    [(0x00, 0x2f); (0x02, 0x2f); (0x00, 0x31); (0x00, 0x00); (0x00, 0x00); (0x00, 0x00)];  (* 29 *)
    [(0x00, 0x1e); (0x06, 0x2f); (0x00, 0x00); (0x00, 0x00); (0x00, 0x00); (0x00, 0x00)];  (* 30 *)
    [(0x00, 0x1f); (0x02, 0x20); (0x00, 0x00); (0x00, 0x00); (0x00, 0x00); (0x00, 0x00)];  (* 31 *)
    [(0x00, 0x20); (0x04, 0x07); (0x00, 0x00); (0x00, 0x00); (0x00, 0x00); (0x00, 0x00)];  (* 32 *)
    [(0x00, 0x21); (0x06, 0x14); (0x06, 0x11); (0x00, 0x00); (0x00, 0x00); (0x00, 0x00)];  (* 33 *)
    [(0x00, 0x22); (0x04, 0x14); (0x06, 0x05); (0x06, 0x26); (0x00, 0x00); (0x00, 0x00)];  (* 34 *)
    [(0x00, 0x23); (0x02, 0x21); (0x04, 0x21); (0x06, 0x21); (0x00, 0x00); (0x00, 0x00)];  (* 35 *)
    [(0x00, 0x24); (0x04, 0x08); (0x04, 0x1d); (0x00, 0x00); (0x00, 0x00); (0x00, 0x00)];  (* 36 *)
    [(0x00, 0x25); (0x06, 0x1a); (0x04, 0x16); (0x00, 0x2b); (0x00, 0x00); (0x00, 0x00)];  (* 37 *)
    [(0x00, 0x26); (0x04, 0x1f); (0x04, 0x31); (0x02, 0x24); (0x00, 0x00); (0x00, 0x00)];  (* 38 *)
    [(0x00, 0x27); (0x06, 0x1f); (0x00, 0x00); (0x02, 0x30); (0x00, 0x00); (0x00, 0x00)];  (* 39 *)
    [(0x00, 0x28); (0x02, 0x28); (0x00, 0x28); (0x04, 0x28); (0x00, 0x28); (0x00, 0x28)];  (* 40 *)
    [(0x00, 0x29); (0x00, 0x29); (0x00, 0x29); (0x00, 0x29); (0x00, 0x29); (0x00, 0x29)];  (* 41 *)
    [(0x00, 0x2a); (0x00, 0x2a); (0x00, 0x2a); (0x00, 0x2a); (0x00, 0x2a); (0x00, 0x2a)];  (* 42 *)
    [(0x00, 0x2b); (0x00, 0x00); (0x00, 0x00); (0x00, 0x00); (0x00, 0x00); (0x00, 0x00)];  (* 43 *)
    [(0x00, 0x2c); (0x02, 0x2c); (0x00, 0x2c); (0x04, 0x27); (0x00, 0x00); (0x00, 0x00)];  (* 44 *)
    [(0x00, 0x38); (0x06, 0x38); (0x00, 0x00); (0x00, 0x38); (0x00, 0x00); (0x00, 0x00)];  (* 45 *)
    [(0x02, 0x2e); (0x02, 0x00); (0x00, 0x00); (0x00, 0x00); (0x00, 0x00); (0x00, 0x00)];  (* 46 *)
    [(0x00, 0x2d); (0x00, 0x00); (0x00, 0x00); (0x04, 0x38); (0x00, 0x00); (0x00, 0x00)];  (* 47 *)
    [(0x00, 0x2e); (0x00, 0x00); (0x00, 0x00); (0x00, 0x00); (0x00, 0x00); (0x00, 0x00)];  (* 48 *)
    [(0x00, 0x00); (0x00, 0x00); (0x00, 0x00); (0x00, 0x00); (0x00, 0x00); (0x00, 0x00)];  (* 49 *)
    [(0x00, 0x00); (0x00, 0x00); (0x00, 0x00); (0x00, 0x00); (0x00, 0x00); (0x00, 0x00)];  (* 50 *)
    [(0x00, 0x07); (0x02, 0x07); (0x02, 0x37); (0x00, 0x36); (0x00, 0x00); (0x00, 0x00)];  (* 51 *)
    [(0x00, 0x1d); (0x02, 0x1d); (0x04, 0x0f); (0x00, 0x37); (0x00, 0x00); (0x00, 0x00)];  (* 52 *)
    [(0x06, 0x23); (0x00, 0x00); (0x00, 0x00); (0x00, 0x00); (0x00, 0x00); (0x00, 0x00)];  (* 53 *)
    [(0x00, 0x36); (0x04, 0x38); (0x02, 0x1f); (0x00, 0x1f); (0x00, 0x00); (0x00, 0x00)];  (* 54 *)
    [(0x00, 0x37); (0x04, 0x2f); (0x02, 0x31); (0x00, 0x20); (0x00, 0x00); (0x00, 0x00)];  (* 55 *)
    [(0x00, 0x0d); (0x02, 0x0d); (0x02, 0x36); (0x02, 0x36); (0x00, 0x00); (0x00, 0x00)];  (* 56 *)
    [(0x00, 0x00); (0x00, 0x00); (0x00, 0x00); (0x00, 0x00); (0x00, 0x00); (0x00, 0x00)];  (* 57 *)
    [(0x00, 0x3a); (0x00, 0x3a); (0x00, 0x3a); (0x00, 0x3a); (0x00, 0x3a); (0x00, 0x3a)];  (* 58 *)
    [(0x00, 0x3b); (0x00, 0x3b); (0x00, 0x3b); (0x00, 0x3b); (0x00, 0x3b); (0x00, 0x3b)];  (* 59 *)
    [(0x00, 0x3c); (0x00, 0x3c); (0x00, 0x3c); (0x00, 0x3c); (0x00, 0x3c); (0x00, 0x3c)];  (* 60 *)
    [(0x00, 0x3d); (0x00, 0x3d); (0x00, 0x3d); (0x00, 0x3d); (0x00, 0x3d); (0x00, 0x3d)];  (* 61 *)
    [(0x00, 0x3e); (0x00, 0x3e); (0x00, 0x3e); (0x00, 0x3e); (0x00, 0x3e); (0x00, 0x3e)];  (* 62 *)
    [(0x00, 0x3f); (0x00, 0x3f); (0x00, 0x3f); (0x00, 0x3f); (0x00, 0x3f); (0x00, 0x3f)];  (* 63 *)
    [(0x00, 0x40); (0x00, 0x40); (0x00, 0x40); (0x00, 0x40); (0x00, 0x40); (0x00, 0x40)];  (* 64 *)
    [(0x00, 0x41); (0x00, 0x41); (0x00, 0x41); (0x00, 0x41); (0x00, 0x41); (0x00, 0x41)];  (* 65 *)
    [(0x00, 0x42); (0x00, 0x42); (0x00, 0x42); (0x00, 0x42); (0x00, 0x42); (0x00, 0x42)];  (* 66 *)
    [(0x00, 0x43); (0x00, 0x43); (0x00, 0x43); (0x00, 0x43); (0x00, 0x43); (0x00, 0x43)];  (* 67 *)
    [(0x00, 0x44); (0x00, 0x44); (0x00, 0x44); (0x00, 0x44); (0x00, 0x44); (0x00, 0x44)];  (* 68 *)
    [(0x00, 0x45); (0x00, 0x45); (0x00, 0x45); (0x00, 0x45); (0x00, 0x45); (0x00, 0x45)];  (* 69 *)
    [(0x00, 0x46); (0x00, 0x46); (0x00, 0x46); (0x00, 0x46); (0x00, 0x46); (0x00, 0x46)];  (* 70 *)
    [(0x00, 0x47); (0x00, 0x47); (0x00, 0x47); (0x00, 0x47); (0x00, 0x47); (0x00, 0x47)];  (* 71 *)
    [(0x00, 0x48); (0x00, 0x48); (0x00, 0x48); (0x00, 0x48); (0x00, 0x48); (0x00, 0x48)];  (* 72 *)
    [(0x00, 0x49); (0x00, 0x49); (0x00, 0x49); (0x00, 0x49); (0x00, 0x49); (0x00, 0x49)];  (* 73 *)
    [(0x00, 0x4a); (0x00, 0x4a); (0x00, 0x4a); (0x00, 0x4a); (0x00, 0x4a); (0x00, 0x4a)];  (* 74 *)
    [(0x00, 0x4b); (0x00, 0x4b); (0x00, 0x4b); (0x00, 0x4b); (0x00, 0x4b); (0x00, 0x4b)];  (* 75 *)
    [(0x00, 0x4c); (0x00, 0x4c); (0x00, 0x4c); (0x00, 0x4c); (0x00, 0x4c); (0x00, 0x4c)];  (* 76 *)
    [(0x00, 0x4d); (0x00, 0x4d); (0x00, 0x4d); (0x00, 0x4d); (0x00, 0x4d); (0x00, 0x4d)];  (* 77 *)
    [(0x00, 0x4e); (0x00, 0x4e); (0x00, 0x4e); (0x00, 0x4e); (0x00, 0x4e); (0x00, 0x4e)];  (* 78 *)
    [(0x00, 0x4f); (0x00, 0x4f); (0x00, 0x4f); (0x00, 0x4f); (0x00, 0x4f); (0x00, 0x4f)];  (* 79 *)
    [(0x00, 0x50); (0x00, 0x50); (0x00, 0x50); (0x00, 0x50); (0x00, 0x50); (0x00, 0x50)];  (* 80 *)
    [(0x00, 0x51); (0x00, 0x51); (0x00, 0x51); (0x00, 0x51); (0x00, 0x51); (0x00, 0x51)];  (* 81 *)
    [(0x00, 0x52); (0x00, 0x52); (0x00, 0x52); (0x00, 0x52); (0x00, 0x52); (0x00, 0x52)];  (* 82 *)
    [(0x00, 0x2b); (0x00, 0x00); (0x00, 0x00); (0x00, 0x00); (0x00, 0x00); (0x00, 0x00)];  (* 83 *)
    [(0x02, 0x24); (0x00, 0x00); (0x00, 0x00); (0x00, 0x00); (0x00, 0x00); (0x00, 0x00)];  (* 84 *)
    [(0x02, 0x30); (0x00, 0x00); (0x00, 0x00); (0x00, 0x00); (0x00, 0x00); (0x00, 0x00)];  (* 85 *)
    [(0x00, 0x38); (0x00, 0x00); (0x00, 0x00); (0x00, 0x00); (0x00, 0x00); (0x00, 0x00)];  (* 86 *)
    [(0x00, 0x30); (0x00, 0x00); (0x00, 0x00); (0x00, 0x00); (0x00, 0x00); (0x00, 0x00)];  (* 87 *)
    [(0x00, 0x28); (0x00, 0x00); (0x00, 0x00); (0x00, 0x00); (0x00, 0x00); (0x00, 0x00)];  (* 88 *)
    [(0x00, 0x1e); (0x00, 0x00); (0x00, 0x00); (0x00, 0x00); (0x00, 0x00); (0x00, 0x00)];  (* 89 *)
    [(0x00, 0x1f); (0x00, 0x00); (0x00, 0x00); (0x00, 0x00); (0x00, 0x00); (0x00, 0x00)];  (* 90 *)
    [(0x00, 0x20); (0x00, 0x00); (0x00, 0x00); (0x00, 0x00); (0x00, 0x00); (0x00, 0x00)];  (* 91 *)
    [(0x00, 0x21); (0x00, 0x00); (0x00, 0x00); (0x00, 0x00); (0x00, 0x00); (0x00, 0x00)];  (* 92 *)
    [(0x00, 0x22); (0x00, 0x00); (0x00, 0x00); (0x00, 0x00); (0x00, 0x00); (0x00, 0x00)];  (* 93 *)
    [(0x00, 0x23); (0x00, 0x00); (0x00, 0x00); (0x00, 0x00); (0x00, 0x00); (0x00, 0x00)];  (* 94 *)
    [(0x00, 0x24); (0x00, 0x00); (0x00, 0x00); (0x00, 0x00); (0x00, 0x00); (0x00, 0x00)];  (* 95 *)
    [(0x00, 0x25); (0x00, 0x00); (0x00, 0x00); (0x00, 0x00); (0x00, 0x00); (0x00, 0x00)];  (* 96 *)
    [(0x00, 0x26); (0x00, 0x00); (0x00, 0x00); (0x00, 0x00); (0x00, 0x00); (0x00, 0x00)];  (* 97 *)
    [(0x00, 0x27); (0x00, 0x00); (0x00, 0x00); (0x00, 0x00); (0x00, 0x00); (0x00, 0x00)];  (* 98 *)
    [(0x00, 0x36); (0x00, 0x00); (0x00, 0x00); (0x00, 0x00); (0x00, 0x00); (0x00, 0x00)]   (* 99 *)
  ].

Definition chars_at (u layer : Z) : Z * Z :=
  default (0, 0) (default [] (chars !! Z.to_nat u) !! Z.to_nat layer).

(** The ladder of case labels of the inner [switch] (lines 1077-1172),
    top to bottom.  Control falls through from the matching label to the
    end, so each entry carries the increment its statement applies to
    [u]; [None] stands for a [++u] that has no label of its own. *)
Definition key_ladder : list (option Z * Z) :=
  [
    (Some KEY_KPDOT, 1); (Some KEY_KP0, 1); (Some KEY_KP9, 1); (Some KEY_KP8, 1);
    (Some KEY_KP7, 1); (Some KEY_KP6, 1); (Some KEY_KP5, 1); (Some KEY_KP4, 1);
    (Some KEY_KP3, 1); (Some KEY_KP2, 1); (Some KEY_KP1, 1); (Some KEY_KPENTER, 1);
    (Some KEY_KPPLUS, 1); (Some KEY_KPMINUS, 1); (Some KEY_KPASTERISK, 1); (Some KEY_KPSLASH, 1);
    (Some KEY_NUMLOCK, 1); (Some KEY_UP, 1); (Some KEY_DOWN, 1); (Some KEY_LEFT, 1);
    (Some KEY_RIGHT, 1); (Some KEY_PAGEDOWN, 1); (Some KEY_END, 1); (Some KEY_DELETE, 1);
    (Some KEY_PAGEUP, 1); (Some KEY_HOME, 1); (Some KEY_INSERT, 1); (Some KEY_PAUSE, 1);
    (Some KEY_SCROLLLOCK, 1); (None, 1); (Some KEY_F12, 1); (Some KEY_F11, 1);
    (Some KEY_F10, 1); (Some KEY_F9, 1); (Some KEY_F8, 1); (Some KEY_F7, 1);
    (Some KEY_F6, 1); (Some KEY_F5, 1); (Some KEY_F4, 1); (Some KEY_F3, 1);
    (Some KEY_F2, 1); (Some KEY_F1, 1); (None, 1); (Some KEY_SLASH, 1);
    (Some KEY_DOT, 1); (Some KEY_COMMA, 1); (Some KEY_GRAVE, 1); (Some KEY_APOSTROPHE, 1);
    (Some KEY_SEMICOLON, 1); (None, 1); (None, 1); (Some KEY_RIGHTBRACE, 1);
    (Some KEY_LEFTBRACE, 1); (Some KEY_EQUAL, 1); (Some KEY_MINUS, 1); (Some KEY_SPACE, 1);
    (Some KEY_TAB, 1); (Some KEY_BACKSPACE, 1); (Some KEY_ESC, 1); (Some KEY_ENTER, 1);
    (Some KEY_0, 1); (Some KEY_9, 1); (Some KEY_8, 1); (Some KEY_7, 1);
    (Some KEY_6, 1); (Some KEY_5, 1); (Some KEY_4, 1); (Some KEY_3, 1);
    (Some KEY_2, 1); (Some KEY_1, 1); (Some KEY_Z, 1); (Some KEY_Y, 1);
    (Some KEY_X, 1); (Some KEY_W, 1); (Some KEY_V, 1); (Some KEY_U, 1);
    (Some KEY_T, 1); (Some KEY_S, 1); (Some KEY_R, 1); (Some KEY_Q, 1);
    (Some KEY_P, 1); (Some KEY_O, 1); (Some KEY_N, 1); (Some KEY_M, 1);
    (Some KEY_L, 1); (Some KEY_K, 1); (Some KEY_J, 1); (Some KEY_I, 1);
    (Some KEY_H, 1); (Some KEY_G, 1); (Some KEY_F, 1); (Some KEY_E, 1);
    (Some KEY_D, 1); (Some KEY_C, 1); (Some KEY_B, 1); (Some KEY_A, 3)
  ].

(** ** Data model *)

(** [struct input_event] without its time stamp. *)
Record input_event := InputEvent { ev_type : Z; ev_code : Z; ev_value : Z }.

(** The five [send] call sites of [parse_events]. *)
Inductive site :=
| AtButton   (* line 956, mouse report of a button event *)
| AtFinal    (* line 980, all-keys-released report before [exit] *)
| AtBurst    (* line 1010, one report of the [pass] burst *)
| AtKeyb     (* line 1275, keyboard report of the common path *)
| AtAxis.    (* line 1308, mouse report of a relative-axis event *)

Inductive descriptor := Sint | Sctl | Sockint | Sockctl.

(** Observable effects, oldest first in [trace]. *)
Inductive action :=
| Report (st : site) (pkt : list Z)          (* report assembled in [hidrep] *)
| Send (st : site) (pkt : list Z) (ret : Z)  (* [send], with its return value *)
| Toggle                                     (* [on = !on], line 1025 *)
| System (devid enabled : Z)                 (* [system("xinput set-int-prop ...")] *)
| Close (d : descriptor)
| Notice                                     (* "Connection closed" *)
| Sleep (usec : Z)
| SdpUnregister
| CloseInputs                                (* [closeevents] or [closefifo] *)
| CleanupStdin.                              (* [cleanup_stdin] has returned *)

(** [Stuck]: the process is inside [cleanup_stdin], which has not
    returned. *)
Inductive status := Running | Exited (code : Z) | Crashed | Stuck.

Record state := State {
  prepareshutdown : Z;
  mousebuttons : Z;
  modifierkeys : Z;
  pressedkey : list Z;      (* [char pressedkey[8]] *)
  connectionok : Z;
  on : Z;
  stop_writing : Z;
  id : Z;
  result : bool;            (* [result != NULL] *)
  trace : list action;
  proc : status
}.

Definition set_prepareshutdown (v : Z) (s : state) : state :=
  State v (mousebuttons s) (modifierkeys s) (pressedkey s) (connectionok s)
        (on s) (stop_writing s) (id s) (result s) (trace s) (proc s).
Definition set_mousebuttons (v : Z) (s : state) : state :=
  State (prepareshutdown s) v (modifierkeys s) (pressedkey s) (connectionok s)
        (on s) (stop_writing s) (id s) (result s) (trace s) (proc s).
Definition set_modifierkeys (v : Z) (s : state) : state :=
  State (prepareshutdown s) (mousebuttons s) v (pressedkey s) (connectionok s)
        (on s) (stop_writing s) (id s) (result s) (trace s) (proc s).
Definition set_pressedkey (v : list Z) (s : state) : state :=
  State (prepareshutdown s) (mousebuttons s) (modifierkeys s) v (connectionok s)
        (on s) (stop_writing s) (id s) (result s) (trace s) (proc s).
Definition set_connectionok (v : Z) (s : state) : state :=
  State (prepareshutdown s) (mousebuttons s) (modifierkeys s) (pressedkey s) v
        (on s) (stop_writing s) (id s) (result s) (trace s) (proc s).
Definition set_on (v : Z) (s : state) : state :=
  State (prepareshutdown s) (mousebuttons s) (modifierkeys s) (pressedkey s)
        (connectionok s) v (stop_writing s) (id s) (result s) (trace s) (proc s).
Definition set_trace (v : list action) (s : state) : state :=
  State (prepareshutdown s) (mousebuttons s) (modifierkeys s) (pressedkey s)
        (connectionok s) (on s) (stop_writing s) (id s) (result s) v (proc s).
Definition set_proc (v : status) (s : state) : state :=
  State (prepareshutdown s) (mousebuttons s) (modifierkeys s) (pressedkey s)
        (connectionok s) (on s) (stop_writing s) (id s) (result s) (trace s) v.

Definition emit (a : action) (s : state) : state := set_trace (trace s ++ [a]) s.

Definition zeros8 : list Z := [0; 0; 0; 0; 0; 0; 0; 0].

(** The globals as their initialisers leave them (lines 212-226) and as
    the start of [main] adjusts them: the switch [-x] sets [stop_writing]
    and allocates [result] (lines 1377-1387), and only then may
    [initevents] store an X11 device number in [id] (line 701). *)
Definition init_state (x11 : bool) (id0 : Z) : state :=
  State 0 0 0 zeros8 0 0 (if x11 then 1 else 0) (if x11 then id0 else 0) x11
        [] Running.

(** ** C conversions, arrays and the report buffer *)

Definition to_uchar (z : Z) : Z := z mod 256.
Definition to_schar (z : Z) : Z := (z + 128) mod 256 - 128.

(** [pk[j]] for the 8-slot array. *)
Definition rd (pk : list Z) (j : nat) : Z := default 0 (pk !! j).

(** [hidrep]: only offsets 0..10 are ever used. *)
Definition buffer := nat -> Z.

Definition poke (b : buffer) (i : nat) (v : Z) : buffer :=
  fun k => if (k =? i)%nat then v else b k.

Fixpoint poke_bytes (b : buffer) (i : nat) (l : list Z) : buffer :=
  match l with
  | [] => b
  | x :: tl => poke_bytes (poke b i x) (S i) tl
  end.

Definition peek_bytes (b : buffer) (n : nat) : list Z := map b (seq 0 n).

(** The bytes [memcpy ( evkeyb->key, pressedkey, 8 )] copies. *)
Definition key_bytes (pk : list Z) : list Z :=
  map (fun i => to_uchar (rd pk i)) (seq 0 8).

(** [struct hidrep_keyb_t] written field by field (packed, 11 bytes). *)
Definition put_keyb (b : buffer) (modify : Z) (keys : list Z) : buffer :=
  poke (poke_bytes (poke (poke b 0 0xA1) 1 REPORTID_KEYBD) 3 keys) 2 (to_uchar modify).

(** [struct hidrep_mouse_t] written field by field (packed, 6 bytes). *)
Definition put_mouse (b : buffer) (button x y z : Z) : buffer :=
  poke (poke (poke (poke (poke (poke b 0 0xA1) 1 REPORTID_MOUSE)
    2 (to_uchar button)) 5 (to_uchar z)) 4 (to_uchar y)) 3 (to_uchar x).

Definition sizeof_keyb : nat := 11.
Definition sizeof_mouse : nat := 6.

(** ** Translation tables as the [switch] computes them *)

Fixpoint ladder_sum (l : list (option Z * Z)) : Z :=
  match l with
  | [] => 0
  | (_, n) :: tl => n + ladder_sum tl
  end.

(** Entering the ladder at the label [code]: the increments from there to
    the end of the ladder are all applied. *)
Fixpoint fall_through (code : Z) (l : list (option Z * Z)) : option Z :=
  match l with
  | [] => None
  | (Some c, n) :: tl =>
      if code =? c then Some (n + ladder_sum tl) else fall_through code tl
  | (None, _) :: tl => fall_through code tl
  end.

(** [u] after the inner [switch]: it starts at 1 and stays 1 for every
    code that is not a label of the ladder ([default], and the cases that
    [break] before the ladder). *)
Definition key_index (code : Z) : Z :=
  match fall_through code key_ladder with
  | Some n => to_uchar (1 + n)
  | None => 1
  end.

(** [pressedmod] after the inner [switch] (lines 1042-1074). *)
Definition pressedmod_of (code : Z) : Z :=
  if code =? KEY_RIGHTMETA then 0x8080
  else if code =? KEY_RIGHTCTRL then 0x8010
  else if code =? KEY_LEFTMETA then 0x8008
  else if code =? KEY_LEFTALT then 0x8004
  else if code =? KEY_LEFTCTRL then 0x8001
  else if code =? KEY_LEFTSHIFT then 0x0002
  else if code =? KEY_RIGHTALT then 0x0040
  else if code =? KEY_RIGHTSHIFT then 0x0020
  else if code =? KEY_CAPSLOCK then 0x0100
  else if code =? KEY_BACKSLASH then 0x0200
  else if code =? KEY_102ND then 0x0400
  else 0.

(** Lines 1179-1183. *)
Definition update_modifiers (mk pressedmod value : Z) : Z :=
  let mk := Z.land mk (0xffff - pressedmod) in
  if value >=? 1 then Z.lor mk pressedmod else mk.

(** Lines 1192-1200. *)
Definition layermod_of (mk : Z) : Z :=
  let layermod := 0 in
  let layermod := if Z.land mk 0x0022 =? 0 then layermod else Z.lor layermod 0x01 in
  let layermod := if Z.land mk 0x0300 =? 0 then layermod else Z.lor layermod 0x02 in
  let layermod := if Z.land mk 0x0440 =? 0 then layermod else Z.lor layermod 0x04 in
  layermod.

(** Lines 1202-1216: five tests in sequence, a later one overwrites. *)
Definition layer_of_layermod (layermod : Z) : Z :=
  let layer := 0 in
  let layer := if Z.land layermod 0x01 =? 0x01 then 1 else layer in
  let layer := if Z.land layermod 0x02 =? 0x02 then 2 else layer in
  let layer := if Z.land layermod 0x04 =? 0x04 then 3 else layer in
  let layer := if Z.land layermod 0x03 =? 0x03 then 4 else layer in
  let layer := if Z.land layermod 0x06 =? 0x06 then 5 else layer in
  layer.

Definition neo_layer (mk : Z) : Z := layer_of_layermod (layermod_of mk).

(** ** The pressed-key array (lines 1228-1265) *)

(** Key down: [n] iterations of the [for] loop remain, starting at [j].
    The result carries the value [j] has when the loop is left. *)
Fixpoint key_down (n j : nat) (printchar : Z) (pk : list Z) : list Z * Z :=
  match n with
  | O => (pk, Z.of_nat j)
  | S n' =>
      if rd pk j =? 0 then (<[j := to_schar printchar]> pk, 9)
      else if rd pk j =? printchar then (pk, 9)
      else key_down n' (S j) printchar pk
  end.

(** [while ( j < 7 ) { pressedkey[j] = pressedkey[j+1]; ++j; }] with [n]
    iterations to go. *)
Fixpoint shift_left (n j : nat) (pk : list Z) : list Z :=
  match n with
  | O => pk
  | S n' => shift_left n' (S j) (<[j := rd pk (S j)]> pk)
  end.

(** Key up: the first matching slot is closed; the inner loop leaves
    [j = 7], so the [for] loop ends right after it. *)
Fixpoint key_up (n j : nat) (printchar : Z) (pk : list Z) : list Z * Z :=
  match n with
  | O => (pk, Z.of_nat j)
  | S n' =>
      if rd pk j =? printchar
      then (<[7%nat := 0]> (shift_left (7 - j) j pk), 8)
      else key_up n' (S j) printchar pk
  end.

Definition update_keys (value printchar j : Z) (pk : list Z) : list Z * Z :=
  if value =? 1 then key_down 8 0 printchar pk
  else if value =? 0 then key_up 8 0 printchar pk
  else (pk, j).

(** What has left through [send] so far: every call, and the packets of
    the calls that did not fail. *)
Fixpoint attempts (t : list action) : list (site * list Z * Z) :=
  match t with
  | [] => []
  | Send st pkt r :: tl => (st, pkt, r) :: attempts tl
  | _ :: tl => attempts tl
  end.

Fixpoint wire (t : list action) : list (list Z) :=
  match t with
  | [] => []
  | Send _ pkt r :: tl => if 1 >? r then wire tl else pkt :: wire tl
  | _ :: tl => wire tl
  end.

(** How a piece of [parse_events] is left. *)
Inductive flow :=
| Fall (j modify : Z)  (* [break]: control goes on, with these values of
                          the locals [j] and [mod] *)
| Ret (r : Z)       (* [return r] *)
| Halt.             (* the process has ended; [proc] says how *)

Definition running (s : state) : bool :=
  match proc s with Running => true | _ => false end.

(** One wake-up of [select] on the input devices: the uninitialised
    content of [hidrep] at the call of [parse_events], and the records
    read from the ready devices in device order (a device whose [read]
    fails or comes back short is skipped by [continue], lines 893-918,
    and contributes nothing). *)
Definition wakeup : Type := buffer * list input_event.

(** Where [main] stands in its loop. *)
Inductive phase :=
| Idle          (* lines 1459-1542: draining input, waiting for the two channels *)
| Negotiated    (* lines 1543-1565: both channels accepted, draining stale input *)
| Connected.    (* lines 1566-1594 *)

Inductive input :=
| Wake (w : wakeup)      (* [select] on the devices returns > 0 *)
| Quiet                  (* [select] on the devices returns 0 *)
| Accepted               (* control and interrupt connection both accepted *)
| ControlOnly            (* control accepted, no interrupt connection in 3 s *)
| Signal (signum : Z).

Definition SIGHUP : Z := 1.
Definition SIGINT : Z := 2.
Definition SIGTERM : Z := 15.

(** ** [cleanup_stdin], lines 746-770

    The function polls the standard input with [select] and, whenever
    input is reported, calls [read] until a call returns 0; then it
    polls again.  What the kernel answers is given as the list of the
    return values of these calls, in call order; [reading] says whether
    control is in the inner loop.  The result is [true] when the function
    returns, having closed descriptor 0, and [false] when the answers end
    while control is still in one of the loops: a [read] that blocks, or
    calls that go on without end. *)
Fixpoint cleanup_stdin (reading : bool) (answers : list Z) : bool :=
  match answers with
  | [] => false
  | r :: rest =>
      if reading
      then cleanup_stdin (negb (r =? 0)) rest   (* [while ( read ( 0, buf, 8 ) )] *)
      else if 0 <? r
           then cleanup_stdin true rest         (* [while ( 0 < select ( ... ) )] *)
           else true                            (* [close ( 0 ); return] *)
  end.

Section Translator.

(** [pass[ARRAY][2]] comes from pass.h, which is not among the sources:
    it is taken as given, as is the value each [send] call returns
    (numbered in call order), the [-s] switch, and what the kernel
    answers to the calls of [cleanup_stdin]. *)
Variable pass : list (Z * Z).
Variable sendres : nat -> Z.
Variable skipsdp : bool.
Variable stdin : list Z.

Definition send (st : site) (pkt : list Z) (s : state) : state * Z :=
  let r := sendres (length (attempts (trace s))) in
  (emit (Send st pkt r) s, r).

(** *** Mouse buttons, lines 938-963 *)
Definition mouse_button (hidrep : buffer) (s : state) (ev : input_event)
  : buffer * state * flow :=
  let c := Z.shiftl 1 (Z.land (ev_code ev) 0x03) in
  let mb := Z.land (mousebuttons s) (0x07 - c) in
  let mb := if ev_value ev =? 1 then Z.lor mb c else mb in
  let s := set_mousebuttons mb s in
  let hidrep := put_mouse hidrep (Z.land mb 0x07) 0 0 0 in
  let pkt := peek_bytes hidrep sizeof_mouse in
  let s := emit (Report AtButton pkt) s in
  if connectionok s =? 0 then (hidrep, s, Fall sizeof_input_event 0)
  else
    let '(s, j) := send AtButton pkt s in
    if 1 >? j then (hidrep, s, Ret (-1)) else (hidrep, s, Fall j 0).

(** *** The burst of [pass], lines 998-1020

    The loop assigns the local [mod], which the common path reads
    afterwards; [modify0] is its value before the loop. *)
Fixpoint burst (l : list (Z * Z)) (hidrep : buffer) (j modify0 : Z) (s : state)
  : buffer * state * flow :=
  match l with
  | [] => (hidrep, s, Fall j modify0)
  | (modify, key) :: rest =>
      let s := set_pressedkey (<[0%nat := to_schar key]> (pressedkey s)) s in
      let hidrep := put_keyb hidrep modify (key_bytes (pressedkey s)) in
      let pkt := peek_bytes hidrep sizeof_keyb in
      let s := emit (Report AtBurst pkt) s in
      if connectionok s =? 0 then (hidrep, s, Fall j modify)
      else
        let '(s, j) := if on s =? 0 then (s, j) else send AtBurst pkt s in
        if 1 >? j then (hidrep, s, Ret (-1)) else burst rest hidrep j modify s
  end.

(** *** The reserved key, lines 965-1038 *)
Definition sysrq (hidrep : buffer) (s : state) (ev : input_event)
  : buffer * state * flow :=
  let j := sizeof_input_event in
  if ev_value ev =? 0 then
    if Z.land (modifierkeys s) 0x1 =? 0x1 then
      (* left control held: last report, re-enable the X11 device, exit *)
      let '(hidrep, s) :=
        if connectionok s =? 0 then (hidrep, s)
        else
          let hidrep := put_keyb hidrep 0 zeros8 in
          let pkt := peek_bytes hidrep sizeof_keyb in
          (hidrep, fst (send AtFinal pkt (emit (Report AtFinal pkt) s))) in
      if result s
      then (hidrep, set_proc (Exited 0) (emit (System (id s) 1) s), Halt)
      else (hidrep, set_proc Crashed s, Halt)   (* [sprintf ( NULL, ... )] *)
    else if Z.land (modifierkeys s) 0x10 =? 0x10 then
      (* right control held: type the stored string *)
      match burst pass hidrep j 0 s with
      | (hidrep, s, Fall j modify) =>
          (hidrep, set_pressedkey (<[0%nat := 0]> (pressedkey s)) s, Fall j modify)
      | r => r
      end
    else
      let s := emit Toggle (set_on (if on s =? 0 then 1 else 0) s) in
      if stop_writing s =? 0 then (hidrep, s, Fall j 0)
      else if id s =? 0 then (hidrep, s, Fall j 0)
      else if result s
      then (hidrep, emit (System (id s) (if on s =? 0 then 1 else 0)) s, Fall j 0)
      else (hidrep, set_proc Crashed s, Halt)
  else (hidrep, s, Fall j 0).

(** *** The common keyboard path, lines 1179-1286

    It runs after the inner [switch] for every [EV_KEY] event that left
    the switch by [break] or through the ladder, with the [u] and
    [pressedmod] the switch has left and the [j] and [mod] ([modify0])
    the code before it has left. *)
Definition key_common (hidrep : buffer) (j modify0 : Z) (s : state)
    (u pressedmod value : Z) : buffer * state * flow :=
  let mk := update_modifiers (modifierkeys s) pressedmod value in
  let modify :=
    if Z.land pressedmod 0x8000 =? 0 then modify0 else to_uchar (to_schar mk) in
  let layer := neo_layer mk in
  let printchar := snd (chars_at u layer) in
  let modify := if printchar =? 0 then modify else fst (chars_at u layer) in
  let '(pk, j) := update_keys value printchar j (pressedkey s) in
  let s := set_pressedkey pk (set_modifierkeys mk s) in
  let hidrep := put_keyb hidrep modify (key_bytes pk) in
  let pkt := peek_bytes hidrep sizeof_keyb in
  let s := emit (Report AtKeyb pkt) s in
  if connectionok s =? 0 then (hidrep, s, Fall j modify)
  else
    let '(s, j) := if on s =? 0 then (s, j) else send AtKeyb pkt s in
    if 1 >? j then (hidrep, s, Ret (-1)) else (hidrep, s, Fall j modify).

Definition is_button (code : Z) : bool :=
  (code =? BTN_LEFT) || (code =? BTN_RIGHT) || (code =? BTN_MIDDLE).

(** *** [case EV_KEY], lines 927-1286 *)
Definition ev_key (hidrep : buffer) (s : state) (ev : input_event)
  : buffer * state * flow :=
  let code := ev_code ev in
  if is_button code then
    match mouse_button hidrep s ev with
    | (hidrep, s, Fall j modify) => key_common hidrep j modify s 1 0 (ev_value ev)
    | r => r
    end
  else if code =? KEY_SYSRQ then
    match sysrq hidrep s ev with
    | (hidrep, s, Fall j modify) => key_common hidrep j modify s 1 0 (ev_value ev)
    | r => r
    end
  else
    key_common hidrep sizeof_input_event 0 s
      (key_index code) (pressedmod_of code) (ev_value ev).

Definition is_axis (code : Z) : bool :=
  (code =? ABS_X) || (code =? ABS_Y) || (code =? ABS_Z) || (code =? REL_WHEEL).

(** *** [case EV_REL], lines 1288-1317 *)
Definition ev_rel (hidrep : buffer) (s : state) (ev : input_event)
  : buffer * state * flow :=
  let code := ev_code ev in
  let value := ev_value ev in
  if is_axis code then
    let hidrep :=
      put_mouse hidrep (Z.land (mousebuttons s) 0x07)
        (if code =? ABS_X then value else 0)
        (if code =? ABS_Y then value else 0)
        (if code >=? ABS_Z then value else 0) in
    let pkt := peek_bytes hidrep sizeof_mouse in
    let s := emit (Report AtAxis pkt) s in
    if connectionok s =? 0 then (hidrep, s, Fall sizeof_input_event 0)
    else
      let '(s, j) := send AtAxis pkt s in
      if 1 >? j then (hidrep, s, Ret (-1)) else (hidrep, s, Fall j 0)
  else (hidrep, s, Fall sizeof_input_event 0).

(** *** One record: the outer [switch], lines 923-1328 *)
Definition handle_event (hidrep : buffer) (s : state) (ev : input_event)
  : buffer * state * flow :=
  if ev_type ev =? EV_KEY then ev_key hidrep s ev
  else if ev_type ev =? EV_REL then ev_rel hidrep s ev
  else (hidrep, s, Fall sizeof_input_event 0).

(** *** [parse_events], lines 870-1332 *)
Fixpoint parse_loop (evs : list input_event) (hidrep : buffer) (s : state)
  : state * Z :=
  match evs with
  | [] => (s, 0)
  | ev :: rest =>
      match handle_event hidrep s ev with
      | (hidrep, s, Fall _ _) => parse_loop rest hidrep s
      | (_, s, Ret r) => (s, r)
      | (_, s, Halt) => (s, 0)
      end
  end.

(** The second component is the return value; it means nothing once the
    process has ended inside the call. *)
Definition parse_events (w : wakeup) (s : state) : state * Z :=
  parse_loop (snd w) (fst w) s.

(** ** The session part of [main] *)

(** Lines 1566-1569. *)
Definition session_start (s : state) : state :=
  set_mousebuttons 0 (set_modifierkeys 0 (set_pressedkey zeros8 (set_connectionok 1 s))).

(** Lines 1595-1600. *)
Definition session_end (s : state) : state :=
  emit (Sleep 500000) (emit Notice (emit (Close Sctl) (emit (Close Sint)
    (set_connectionok 0 s)))).

(** Lines 1604-1618.  [main] returns 0 when [cleanup_stdin] returns;
    until then the process is inside it. *)
Definition shutdown (s : state) : state :=
  let s := emit (Close Sockctl) (emit (Close Sockint) s) in
  let s := if skipsdp then s else emit SdpUnregister s in
  let s := emit CloseInputs s in
  if cleanup_stdin false stdin
  then set_proc (Exited 0) (emit CleanupStdin s)
  else set_proc Stuck s.

(** The loop condition of line 1457. *)
Definition loop_top (s : state) : phase * state :=
  if prepareshutdown s =? 0 then (Idle, s) else (Idle, shutdown s).

(** Lines 1651-1675. *)
Definition onsignal (i : Z) (s : state) : state :=
  if i =? SIGINT then
    if connectionok s =? 0 then set_prepareshutdown 1 (set_prepareshutdown 2 s) else s
  else if (i =? SIGTERM) || (i =? SIGHUP) then set_prepareshutdown 1 s
  else s.

(** The two draining loops (lines 1463-1473 and 1551-1563): the events
    are parsed with no session to send them to. *)
Definition drain (w : wakeup) (s : state) : state :=
  let '(s, j) := parse_events w s in
  if running s then (if -1 >? j then set_prepareshutdown 1 s else s) else s.

(** The body of the inner loop of the connected phase, lines 1578-1589. *)
Definition pump (w : wakeup) (s : state) : state :=
  let '(s, j) := parse_events w s in
  if running s then
    if 0 >? j then
      let s := set_connectionok 0 s in
      if j <? -1
      then set_prepareshutdown 1 (emit (Close Sctl) (emit (Close Sint) s))
      else s
    else s
  else s.

(** One step of [main]'s loop on one input. *)
Definition main_step (ps : phase * state) (i : input) : phase * state :=
  let '(p, s) := ps in
  if running s then
    match p, i with
    | _, Signal n =>
        let s := onsignal n s in
        match p with Idle => loop_top s | _ => (p, s) end
    | Idle, Wake w =>
        let s := drain w s in
        if running s then loop_top s else (Idle, s)
    | Idle, Quiet => (Idle, s)
    | Idle, Accepted => (Negotiated, set_connectionok 0 s)
    | Idle, ControlOnly => loop_top (emit (Close Sctl) (set_connectionok 0 s))
    | Negotiated, Wake w => (Negotiated, drain w s)
    | Negotiated, Quiet =>
        if prepareshutdown s =? 0 then (Connected, session_start s)
        else (Idle, shutdown s)
    | Negotiated, _ => (Negotiated, s)
    | Connected, Wake w =>
        let s := pump w s in
        if running s then
          if connectionok s =? 0 then loop_top (session_end s) else (Connected, s)
        else (Connected, s)
    | Connected, _ => (Connected, s)
    end
  else (p, s).

Definition main_loop (ps : phase * state) (ins : list input) : phase * state :=
  fold_left main_step ins ps.

End Translator.

(** ** Vocabulary of the properties *)

(** What a step has added to the trace. *)
Definition new_actions (s s' : state) : list action :=
  drop (length (trace s)) (trace s').

(** The three groups of layer selectors tested at lines 1192-1200:
    the shift keys, the Mod3 keys (caps lock, backslash) and the Mod4
    keys (102nd key, right alt). *)
Definition group1 (mk : Z) : bool := negb (Z.land mk 0x0022 =? 0).
Definition group2 (mk : Z) : bool := negb (Z.land mk 0x0300 =? 0).
Definition group3 (mk : Z) : bool := negb (Z.land mk 0x0440 =? 0).

(** All layer-selector bits of [modifierkeys]. *)
Definition selector_bits : Z := 0x0762.

(** The layer for each combination of active groups, as the code
    resolves it. *)
Definition layer_table (g1 g2 g3 : bool) : Z :=
  match g1, g2, g3 with
  | false, false, false => 0
  | true, false, false => 1
  | false, true, false => 2
  | false, false, true => 3
  | true, true, false => 4
  | false, true, true => 5
  | true, true, true => 5
  | true, false, true => 3
  end.

(** The rule in the words of the specification: layer 4 for groups 1 and
    2, layer 5 for groups 1 and 3, these two before the single groups. *)
Definition spec_layer (g1 g2 g3 : bool) : Z :=
  if g1 && g2 then 4
  else if g1 && g3 then 5
  else if g1 && negb g2 && negb g3 then 1
  else if negb g1 && g2 && negb g3 then 2
  else if negb g1 && negb g2 && g3 then 3
  else 0.

(** ** Concrete inputs *)

(** A [hidrep] that happens to hold zeros, and a remote side that takes
    every packet. *)
Definition no_junk : buffer := fun _ => 0.

(** A standard input with nothing pending: the first [select] of
    [cleanup_stdin] returns 0. *)
Definition quiet_stdin : list Z := [0].
Definition all_sent : nat -> Z := fun _ => 11.

(** One key event reaching [parse_events] on its own. *)
Definition key (code value : Z) : input :=
  Wake (no_junk, [InputEvent EV_KEY code value]).

(** A session is established and stale input is found drained. *)
Definition connect : list input := [Accepted; Quiet].

(** The reserved key pressed and released with no control key held. *)
Definition unmute : list input := [key KEY_SYSRQ 1; key KEY_SYSRQ 0].

(** A key code of [linux/input-event-codes.h] that the source does not
    name. *)
Definition KEY_F13 : Z := 183.

(** A relative axis and a mouse button of [linux/input-event-codes.h]
    that the source does not name: the horizontal wheel and the side
    button. *)
Definition REL_HWHEEL : Z := 0x06.
Definition BTN_SIDE : Z := 0x113.

(** A session is established; then left alt is pressed and held, the
    reserved key is pressed and released, and the key A is pressed.
    [alt_held_press] is the part of the run before the release. *)
Definition alt_held_press : list input :=
  connect ++ [key KEY_LEFTALT 1; key KEY_SYSRQ 1].

Definition alt_held_release : list input :=
  alt_held_press ++ [key KEY_SYSRQ 0; key KEY_A 1].

(** The outcome the specification describes for the release of the
    reserved key with the primary modifier held: the session is closed
    and the process goes on. *)
Definition closing_as_specified (s' : state) : Prop :=
  proc s' = Running /\ connectionok s' = 0
  /\ In (Close Sint) (trace s') /\ In (Close Sctl) (trace s').

(** The outcome it describes when the second modifier is held as well:
    the process ends after the teardown of lines 1595-1618. *)
Definition teardown_as_specified (s' : state) : Prop :=
  proc s' = Exited 0
  /\ In (Close Sint) (trace s') /\ In (Close Sctl) (trace s')
  /\ In SdpUnregister (trace s') /\ In CloseInputs (trace s').

Definition final_report : list Z := [0xA1; REPORTID_KEYBD; 0; 0; 0; 0; 0; 0; 0; 0; 0].

(** A connected, unmuted session with left control held. *)
Definition ctrl_held_state : state :=
  snd (main_loop [] all_sent false quiet_stdin (Idle, init_state false 0)
         (connect ++ unmute ++ [key KEY_LEFTCTRL 1])).

(** A connected session, started with [-x] for X11 device 7, with left
    control held; and the same with left alt held as well. *)
Definition ctrl_held_x11 : state :=
  snd (main_loop [] all_sent false quiet_stdin (Idle, init_state true 7)
         (connect ++ [key KEY_LEFTCTRL 1; key KEY_SYSRQ 1])).

Definition ctrl_alt_held_x11 : state :=
  snd (main_loop [] all_sent false quiet_stdin (Idle, init_state true 7)
         (connect ++ [key KEY_LEFTCTRL 1; key KEY_LEFTALT 1; key KEY_SYSRQ 1])).

Definition sysrq_release : input_event := InputEvent EV_KEY KEY_SYSRQ 0.

(** The used slots of [pressedkey] come first: once a slot holds 0, all
    later slots hold 0. *)
Fixpoint compactb (pk : list Z) : bool :=
  match pk with
  | [] => true
  | x :: tl => if x =? 0 then forallb (Z.eqb 0) tl else compactb tl
  end.

(** The held modifiers as one byte, the value [(char) modifierkeys] of
    line 1187. *)
Definition held_modifier_byte (mk : Z) : Z := to_uchar mk.

(** A keyboard event on an unmapped entry as the specification describes
    it: the report carries the held modifiers and the pressed keys are
    left alone. *)
Definition unmapped_as_specified (s s' : state) : Prop :=
  exists pkt rest,
    new_actions s s' = Report AtKeyb pkt :: rest
    /\ pkt !! 2%nat = Some (held_modifier_byte (modifierkeys s'))
    /\ pressedkey s' = pressedkey s.

(** A connected, unmuted session with left control and caps lock held. *)
Definition ctrl_caps_state : state :=
  snd (main_loop [] all_sent false quiet_stdin (Idle, init_state false 0)
         (connect ++ unmute ++ [key KEY_LEFTCTRL 1; key KEY_CAPSLOCK 1])).

(** The events of the mouse part of the source: the three buttons of
    lines 938-940 and the four axis codes of lines 1291-1294. *)
Definition is_mouse_event (ev : input_event) : bool :=
  ((ev_type ev =? EV_KEY) && is_button (ev_code ev))
  || ((ev_type ev =? EV_REL) && is_axis (ev_code ev)).

(** The report id is the second byte of a report. *)
Definition report_id (pkt : list Z) : Z := default 0 (pkt !! 1%nat).

(** The reports of one kind among the actions of a step. *)
Fixpoint reports_with_id (rid : Z) (t : list action) : list (list Z) :=
  match t with
  | [] => []
  | Report _ pkt :: tl =>
      if report_id pkt =? rid then pkt :: reports_with_id rid tl
      else reports_with_id rid tl
  | _ :: tl => reports_with_id rid tl
  end.

(** The button mask after an event: a button event clears the bit of its
    button and sets it again on a press; any other event leaves it. *)
Definition buttons_after (mb : Z) (ev : input_event) : Z :=
  if (ev_type ev =? EV_KEY) && is_button (ev_code ev) then
    let c := Z.shiftl 1 (Z.land (ev_code ev) 0x03) in
    let mb := Z.land mb (0x07 - c) in
    if ev_value ev =? 1 then Z.lor mb c else mb
  else mb.

(** The three axis values an event carries: its value on its own axis
    (the wheel counts as Z), 0 elsewhere, and 0 throughout for a button. *)
Definition axes_of (ev : input_event) : Z * Z * Z :=
  if ev_type ev =? EV_REL then
    (if ev_code ev =? ABS_X then ev_value ev else 0,
     if ev_code ev =? ABS_Y then ev_value ev else 0,
     if (ev_code ev =? ABS_Z) || (ev_code ev =? REL_WHEEL) then ev_value ev else 0)
  else (0, 0, 0).

(** The mouse report for a button mask and an event, byte by byte. *)
Definition mouse_packet (mb : Z) (ev : input_event) : list Z :=
  let '(x, y, z) := axes_of ev in
  [0xA1; REPORTID_MOUSE; to_uchar (Z.land mb 0x07); to_uchar x; to_uchar y; to_uchar z].

(** A connected session in which the mute toggle has never been touched,
    with the left button held and the pointer moved before. *)
Definition muted_mouse_state : state :=
  snd (main_loop [] all_sent false quiet_stdin (Idle, init_state false 0)
         (connect ++ [Wake (no_junk, [InputEvent EV_KEY BTN_LEFT 1]);
                      Wake (no_junk, [InputEvent EV_REL ABS_X 100])])).

(** A [send] whose return value the code tests, and which failed: every
    call site but the one before [exit]. *)
Definition checked_fail (a : action) : bool :=
  match a with
  | Send AtFinal _ _ => false
  | Send _ _ r => 1 >? r
  | _ => false
  end.

(** A [send] that failed, at any call site. *)
Definition failed_send (a : action) : bool :=
  match a with
  | Send _ _ r => 1 >? r
  | _ => false
  end.

(** The outcome the specification describes for a failed transmission:
    back to idle with both descriptors closed, the process alive. *)
Definition failure_as_specified (ps : phase * state) : Prop :=
  fst ps = Idle /\ connectionok (snd ps) = 0
  /\ In (Close Sint) (trace (snd ps)) /\ In (Close Sctl) (trace (snd ps))
  /\ proc (snd ps) = Running.

(** A remote side that takes nothing, and a connected session, started
    with [-x], with left control held and the reserved key down. *)
Definition link_down : nat -> Z := fun _ => -1.

Definition ctrl_held_link_down : state :=
  snd (main_loop [] link_down false quiet_stdin (Idle, init_state true 7)
         (connect ++ [key KEY_LEFTCTRL 1; key KEY_SYSRQ 1])).

(** A connected session in which the pointer is moved while the remote
    side takes nothing. *)
Definition fresh_session_link_down : state :=
  snd (main_loop [] link_down false quiet_stdin (Idle, init_state false 0) connect).

(** No tested [send] failed among these actions. *)
Definition quiet (acts : list action) : Prop := existsb checked_fail acts = false.

(** What every piece of [parse_events] guarantees about the way it is
    left: the session flags are not touched, [return] is always
    [return -1], and a tested [send] that failed is followed by that
    [return] at once. *)
Definition step_ok (s s' : state) (f : flow) : Prop :=
  connectionok s' = connectionok s /\ prepareshutdown s' = prepareshutdown s
  /\ exists acts, trace s' = trace s ++ acts
     /\ match f with
        | Fall j _ => quiet acts /\ proc s' = proc s /\ 1 <= j
        | Ret r => r = -1 /\ proc s' = proc s
        | Halt => quiet acts /\ running s' = false
        end.

Definition parse_ok (s s' : state) (r : Z) : Prop :=
  connectionok s' = connectionok s /\ prepareshutdown s' = prepareshutdown s
  /\ exists acts, trace s' = trace s ++ acts
     /\ ((quiet acts /\ r = 0) \/ (r = -1 /\ proc s' = proc s)).

(** The position of the mute toggle as a truth value: [if (on)]. *)
Definition onb (s : state) : bool := negb (on s =? 0).

(** The [send] calls that line 1009 and line 1274 put under [if (on)]. *)
Definition gated (a : action) : bool :=
  match a with
  | Send AtKeyb _ _ | Send AtBurst _ _ => true
  | _ => false
  end.

(** The position of the toggle after the actions [t], from position [b]. *)
Fixpoint toggled (b : bool) (t : list action) : bool :=
  match t with
  | [] => b
  | Toggle :: tl => toggled (negb b) tl
  | _ :: tl => toggled b tl
  end.

(** Every gated [send] of [t] finds the toggle on, that is, comes after
    an odd number of [Toggle] actions when [b] is [false]. *)
Fixpoint gated_ok (b : bool) (t : list action) : bool :=
  match t with
  | [] => true
  | Toggle :: tl => gated_ok (negb b) tl
  | a :: tl => (if gated a then b else true) && gated_ok b tl
  end.

(** The release of the reserved key that flips the toggle: neither
    control key is held. *)
Definition toggle_release (s : state) (ev : input_event) : bool :=
  (ev_type ev =? EV_KEY) && (ev_code ev =? KEY_SYSRQ) && (ev_value ev =? 0)
  && negb (Z.land (modifierkeys s) 0x1 =? 0x1)
  && negb (Z.land (modifierkeys s) 0x10 =? 0x10).

(** What a piece of [parse_events] does to the toggle and to the gated
    sends; [flip] says whether it executes line 1025. *)
Definition mute_piece (s s' : state) (flip : bool) : Prop :=
  exists acts, trace s' = trace s ++ acts
    /\ gated_ok (onb s) acts = true
    /\ (forall b, toggled b acts = xorb b flip)
    /\ on s' = (if flip then (if on s =? 0 then 1 else 0) else on s).

(** The same for a stretch of the run. *)
Definition mute_step (s s' : state) : Prop :=
  exists acts, trace s' = trace s ++ acts
    /\ gated_ok (onb s) acts = true
    /\ onb s' = toggled (onb s) acts
    /\ (on s = 0 \/ on s = 1 -> on s' = 0 \/ on s' = 1).

(** The invariant of a whole run. *)
Definition mute_inv (s : state) : Prop :=
  gated_ok false (trace s) = true
  /\ on s = (if toggled false (trace s) then 1 else 0).

(** A connected session that has not been unmuted, with left shift held. *)
Definition muted_shift_state : state :=
  snd (main_loop [] all_sent false quiet_stdin (Idle, init_state false 0)
         (connect ++ [key KEY_LEFTSHIFT 1])).

(** What of a state bears on the reports that leave: the globals the
    translator reads, the [send] calls made so far, and whether the
    process is alive.  The X11 settings, the other actions of the trace
    and the way the process ended are left out. *)
Definition observable (s : state)
  : Z * Z * Z * list Z * Z * Z * list (site * list Z * Z) * bool :=
  (prepareshutdown s, mousebuttons s, modifierkeys s, pressedkey s,
   connectionok s, on s, attempts (trace s), running s).

(** [stop_writing] is only set together with the allocation of [result]
    (lines 1377-1387). *)
Definition config_ok (s : state) : Prop := stop_writing s <> 0 -> result s = true.

Definition sim (s1 s2 : state) : Prop :=
  observable s1 = observable s2 /\ config_ok s1 /\ config_ok s2.

(** Two inputs that differ at most in the stale content of [hidrep]. *)
Definition same_input (i1 i2 : input) : Prop :=
  match i1, i2 with
  | Wake w1, Wake w2 => snd w1 = snd w2
  | Quiet, Quiet => True
  | Accepted, Accepted => True
  | ControlOnly, ControlOnly => True
  | Signal n1, Signal n2 => n1 = n2
  | _, _ => False
  end.

(** The packets that went through, read off the [send] calls. *)
Fixpoint delivered (l : list (site * list Z * Z)) : list (list Z) :=
  match l with
  | [] => []
  | (_, pkt, r) :: tl => if 1 >? r then delivered tl else pkt :: delivered tl
  end.

(** Two runs of the same event sequence: one started with [-x] on X11
    device 7 and [0xEE] left on the stack, the other without. *)
Definition stale : buffer := fun _ => 0xEE.

Definition typing_events : list input_event :=
  [InputEvent EV_KEY KEY_LEFTSHIFT 1; InputEvent EV_KEY KEY_A 1;
   InputEvent EV_REL ABS_Y (-3); InputEvent EV_KEY KEY_A 0].

Definition run_one : list input :=
  connect ++ [Wake (stale, [sysrq_release])]
          ++ map (fun e => Wake (stale, [e])) typing_events.

Definition run_two : list input :=
  connect ++ [Wake (no_junk, [sysrq_release])]
          ++ map (fun e => Wake (no_junk, [e])) typing_events.

(** A remote side that takes every packet but the one of the [n]-th
    [send] call. *)
Definition fails_at (n : nat) : nat -> Z :=
  fun k => if (k =? n)%nat then -1 else 11.

(** The keys A and 1 are held, then right control, and the reserved key
    is pressed and released. *)
Definition hold_a_1_type_pass : list input :=
  connect ++ unmute
  ++ [key KEY_A 1; key KEY_1 1; key KEY_RIGHTCTRL 1; key KEY_SYSRQ 1; key KEY_SYSRQ 0].

(** The pressed keys the array stands for: its non-zero entries, in slot
    order. *)
Definition used (pk : list Z) : list Z := filter (fun x => x <> 0) pk.

(** The array as the specification describes it: 8 slots, the used ones
    first, no usage twice. *)
Definition pressedkey_ok (pk : list Z) : Prop :=
  length pk = 8%nat /\ compactb pk = true /\ NoDup (used pk).

(** The two loops over the array, read as list functions. *)
Fixpoint insert_key (p : Z) (pk : list Z) : list Z :=
  match pk with
  | [] => []
  | x :: tl =>
      if x =? 0 then to_schar p :: tl
      else if x =? p then x :: tl
      else x :: insert_key p tl
  end.

Fixpoint remove_key (p : Z) (pk : list Z) : list Z :=
  match pk with
  | [] => []
  | x :: tl => if x =? p then tl ++ [0] else x :: remove_key p tl
  end.

(** A [send] of the burst that failed: the one way [parse_events] leaves
    [pressedkey] with the key of [pass] in slot 0. *)
Definition burst_fail (a : action) : bool :=
  match a with
  | Send AtBurst _ r => 1 >? r
  | _ => false
  end.

(** A stretch of the run keeps the array in shape unless a [send] of the
    burst fails in it. *)
Definition keys_step (s s' : state) : Prop :=
  exists acts, trace s' = trace s ++ acts
    /\ (existsb burst_fail acts = false ->
        pressedkey_ok (pressedkey s) -> pressedkey_ok (pressedkey s')).

(** ** Vocabulary and inputs of the further properties *)

(** A connected, unmuted session with no key held. *)
Definition typing_state : state :=
  snd (main_loop [] all_sent false quiet_stdin (Idle, init_state false 0) (connect ++ unmute)).

(** The same with the key A held, and with all eight slots taken (the
    keys A, S, D, F, G, H, J and K). *)
Definition a_held_state : state :=
  snd (main_loop [] all_sent false quiet_stdin (Idle, init_state false 0)
         (connect ++ unmute ++ [key KEY_A 1])).

Definition eight_held_state : state :=
  snd (main_loop [] all_sent false quiet_stdin (Idle, init_state false 0)
         (connect ++ unmute
          ++ [key KEY_A 1; key KEY_S 1; key KEY_D 1; key KEY_F 1;
              key KEY_G 1; key KEY_H 1; key KEY_J 1; key KEY_K 1])).

(** A value a [char] can hold. *)
Definition schar_ok (x : Z) : Prop := -128 <= x <= 127.

(** The globals the translator writes hold values of their C types
    ([char mousebuttons], [int modifierkeys], [char pressedkey[8]]). *)
Definition regs_ok (s : state) : Prop :=
  0 <= mousebuttons s <= 7
  /\ 0 <= modifierkeys s <= 0xffff
  /\ length (pressedkey s) = 8%nat
  /\ Forall schar_ok (pressedkey s).

(** An array of 8 values of type [char]. *)
Definition chars_ok (pk : list Z) : Prop := length pk = 8%nat /\ Forall schar_ok pk.

(** The case labels of the ladder. *)
Definition ladder_labels : list Z := omap fst key_ladder.

(** A value between 0 and 255. *)
Definition is_byte (z : Z) : bool := (0 <=? z) && (z <? 256).

(** A packet of the two report structures: bytes only, the frame byte
    0xA1 first, then report id 1 with four more bytes of which the first
    (the buttons) is at most 7, or report id 2 with nine more bytes. *)
Definition wf_packet (pkt : list Z) : bool :=
  forallb is_byte pkt
  && match pkt with
     | h :: rid :: rest =>
         (h =? 0xA1)
         && (((rid =? REPORTID_MOUSE) && (length rest =? 4)%nat
              && (default 0 (head rest) <=? 7))
             || ((rid =? REPORTID_KEYBD) && (length rest =? 9)%nat))
     | _ => false
     end.

(** The actions [parse_events] can take: it assembles and sends reports,
    flips the toggle and calls [xinput]; it closes nothing. *)
Definition translator_action (a : action) : bool :=
  match a with
  | Report _ pkt | Send _ pkt _ => wf_packet pkt
  | Toggle | System _ _ => true
  | _ => false
  end.

(** What a piece of [parse_events] does on the wire: only translator
    actions with well-formed packets, no [send] without a connection, and
    [return -1] only after a tested [send] that failed. *)
Definition wire_piece (s s' : state) (f : flow) : Prop :=
  connectionok s' = connectionok s
  /\ exists acts, trace s' = trace s ++ acts
     /\ forallb translator_action acts = true
     /\ (connectionok s = 0 -> attempts acts = [])
     /\ match f with
        | Ret _ => existsb checked_fail acts = true
        | _ => True
        end.

(** The same for a whole call, with its return value. *)
Definition wire_run (s s' : state) (r : Z) : Prop :=
  connectionok s' = connectionok s
  /\ exists acts, trace s' = trace s ++ acts
     /\ forallb translator_action acts = true
     /\ (connectionok s = 0 -> attempts acts = [])
     /\ (r = -1 -> existsb checked_fail acts = true).

(** Every report of an action is well formed. *)
Definition wf_sent (a : action) : bool :=
  match a with
  | Report _ pkt | Send _ pkt _ => wf_packet pkt
  | _ => true
  end.

(** The value of [connectionok] in each phase of [main]'s loop. *)
Definition session_flag (p : phase) : Z :=
  match p with Connected => 1 | _ => 0 end.

(** A stretch of the run, for the invariants of [main]'s loop. *)
Definition run_piece (s s' : state) : Prop :=
  (regs_ok s -> regs_ok s')
  /\ (prepareshutdown s = 0 \/ prepareshutdown s = 1 ->
      prepareshutdown s' = 0 \/ prepareshutdown s' = 1)
  /\ exists acts, trace s' = trace s ++ acts
       /\ forallb wf_sent acts = true
       /\ (connectionok s = 0 -> attempts acts = []).

(** The teardown at the end of [main], lines 1604-1616. *)
Definition teardown_actions (skipsdp : bool) (stdin : list Z) : list action :=
  [Close Sockint; Close Sockctl]
  ++ (if skipsdp then [] else [SdpUnregister])
  ++ [CloseInputs]
  ++ (if cleanup_stdin false stdin then [CleanupStdin] else []).

(** An input that is a signal. *)
Definition is_signal (i : input) : bool :=
  match i with Signal _ => true | _ => false end.

(** The actions of the teardown at the end of [main]. *)
Definition teardown_action (a : action) : bool :=
  match a with
  | Close Sockint | Close Sockctl | SdpUnregister | CloseInputs | CleanupStdin => true
  | _ => false
  end.

(** No shutdown is requested and none has been carried out. *)
Definition unrequested (s : state) : Prop :=
  prepareshutdown s = 0 /\ existsb teardown_action (trace s) = false.

(** The report of the burst for one pair of [pass], with the array [pk]
    held when the burst starts: the key of the pair is written over
    slot 0. *)
Definition burst_packet (pk : list Z) (e : Z * Z) : list Z :=
  0xA1 :: REPORTID_KEYBD :: to_uchar (fst e)
    :: key_bytes (<[0%nat := to_schar (snd e)]> pk).

(** The local [mod] after the burst: the modifier of the last pair. *)
Definition last_modifier (m : Z) (l : list (Z * Z)) : Z :=
  match last l with Some e => fst e | None => m end.

(** The [send] calls of a burst that goes through, the first of them
    being call number [n0]. *)
Definition burst_sends (sendres : nat -> Z) (n0 : nat) (pk : list Z)
    (l : list (Z * Z)) : list (site * list Z * Z) :=
  imap (fun i e => (AtBurst, burst_packet pk e, sendres (n0 + i)%nat)) l.

(** The string "Hi" as pairs of modifier and usage, and a connected,
    unmuted session in which the keys A and 1 and right control are held
    and the reserved key is down. *)
Definition greeting : list (Z * Z) := [(0x02, 0x0B); (0x00, 0x0C)].

Definition burst_ready_state : state :=
  snd (main_loop greeting all_sent false quiet_stdin (Idle, init_state false 0)
         (removelast hold_a_1_type_pass)).

(** ** The command line of [main], lines 1352-1398 *)

(** [argv[i] + 2]: the argument without its first two characters. *)
Definition skip2 (a : string) : string :=
  match a with
  | String.String _ (String.String _ r) => r
  | _ => String.EmptyString
  end.

(** What the loop over [argv] sets (lines 1346-1350 and the globals
    [debugevents], [stop_writing] and [result]). *)
Record options := Options {
  opt_skipsdp : bool;
  opt_onlyoneevdev : Z;
  opt_mutex11 : bool;
  opt_fifoname : option string;
  opt_debugevents : Z;
  opt_stop_writing : Z;
  opt_result : bool
}.

(** How the loop over [argv] ends: it runs through, with the options set
    and the number of [malloc] calls made, or it leaves [main] with
    [showhelp] and status 0, with the status of [list_input_devices], or
    with an error status. *)
Inductive startup :=
| Proceed (o : options) (mallocs : nat)
| ShowHelp
| ListDevices
| Abort (code : Z).

(** The initial values, lines 1346-1350 and 220-225. *)
Definition default_options : options := Options false (-1) false None 0 0 false.

(** The loop over [argv].  [atoi] is the C library's; [malloc_ok n] says
    whether the [n]-th [malloc ( 512 )] succeeds. *)
Section CommandLine.

Variable atoi : string -> Z.
Variable malloc_ok : nat -> bool.

Definition is_help (a : string) : bool :=
  String.eqb a "-h"%string || String.eqb a "-?"%string || String.eqb a "--help"%string.

Fixpoint parse_args (args : list string) (o : options) (mallocs : nat) : startup :=
  match args with
  | [] => Proceed o mallocs
  | a :: rest =>
      if is_help a then ShowHelp
      else if String.eqb a "-s"%string || String.eqb a "--skipsdp"%string then
        parse_args rest
          (Options true (opt_onlyoneevdev o) (opt_mutex11 o) (opt_fifoname o)
                   (opt_debugevents o) (opt_stop_writing o) (opt_result o)) mallocs
      else if String.prefix "-e"%string a then
        parse_args rest
          (Options (opt_skipsdp o) (atoi (skip2 a)) (opt_mutex11 o) (opt_fifoname o)
                   (opt_debugevents o) (opt_stop_writing o) (opt_result o)) mallocs
      else if String.eqb a "-l"%string then ListDevices
      else if String.eqb a "-d"%string then
        parse_args rest
          (Options (opt_skipsdp o) (opt_onlyoneevdev o) (opt_mutex11 o) (opt_fifoname o)
                   0xffff (opt_stop_writing o) (opt_result o)) mallocs
      else if String.eqb a "-x"%string then
        if malloc_ok mallocs then
          parse_args rest
            (Options (opt_skipsdp o) (opt_onlyoneevdev o) true (opt_fifoname o)
                     (opt_debugevents o) 1 true) (S mallocs)
        else Abort 1
      else if String.prefix "-f"%string a then
        parse_args rest
          (Options (opt_skipsdp o) (opt_onlyoneevdev o) (opt_mutex11 o) (Some (skip2 a))
                   (opt_debugevents o) (opt_stop_writing o) (opt_result o)) mallocs
      else Abort 1
  end.

End CommandLine.

(** The last argument of a list that satisfies [f]. *)
Fixpoint last_with (f : string -> bool) (l : list string) : option string :=
  match l with
  | [] => None
  | a :: rest =>
      match last_with f rest with
      | Some b => Some b
      | None => if f a then Some a else None
      end
  end.

(** The tests of the loop, by option. *)
Definition is_skipsdp (a : string) : bool :=
  String.eqb a "-s"%string || String.eqb a "--skipsdp"%string.

Definition is_x (a : string) : bool := String.eqb a "-x"%string.
Definition is_d (a : string) : bool := String.eqb a "-d"%string.
Definition is_e (a : string) : bool := String.prefix "-e"%string a.
Definition is_f (a : string) : bool := String.prefix "-f"%string a.

(** An argument at which the loop leaves [main]: one that asks for help,
    [-l], or one the loop does not know. *)
Definition is_terminal (a : string) : bool :=
  is_help a
  || negb (is_skipsdp a || String.prefix "-e"%string a || String.eqb a "-d"%string
           || String.eqb a "-x"%string || String.prefix "-f"%string a).

(** How one argument is classified. *)
Definition class_of (a : string) : bool * bool * bool * bool * bool * bool :=
  (is_skipsdp a, is_e a, is_d a, is_x a, is_f a, is_terminal a).

(** ** The tables of input devices, lines 603-790 *)

Definition MAXEVDEVS : nat := 16.

(** [eventdevs] and [x11handles]. *)
Record devices := Devices { eventdevs : list Z; x11handles : list Z }.

(** Static storage starts out as zeros (lines 213-214). *)
Definition devices_init : devices :=
  Devices (replicate MAXEVDEVS 0) (replicate MAXEVDEVS 0).

(** What the operating system is asked to do when the inputs are closed. *)
Inductive syscall :=
| SysClose (fd : Z)
| SysXinputEnable (devid : Z).

Section Devices.

(** [open ( "/dev/input/event<j>", O_RDONLY )], and the X11 device number
    the search of lines 677-698 finds for device [j] in the output of
    [xinput] (-1 when there is none). *)
Variable open_dev : Z -> Z.
Variable x11_id : Z -> Z.

(** The second loop of [initevents], lines 667-711, with [n] rounds to
    go; [scan] is [( mutex11 > 0 ) && ( xinlist != NULL )]. *)
Fixpoint initevents_loop (useonlyone : Z) (scan : bool) (n : nat) (j : Z)
    (i : nat) (evs : list Z) (id0 : Z) : nat * list Z * Z :=
  match n with
  | O => (i, evs, id0)
  | S n' =>
      if (useonlyone >=? 0) && negb (useonlyone =? j)
      then initevents_loop useonlyone scan n' (j + 1) i evs id0
      else
        let evs := <[i := open_dev j]> evs in
        if 0 <=? rd evs i then
          let id0 :=
            if scan then (if x11_id j >=? 0 then to_uchar (x11_id j) else id0)
            else id0 in
          initevents_loop useonlyone scan n' (j + 1) (S i) evs id0
        else initevents_loop useonlyone scan n' (j + 1) i evs id0
  end.

(** [initevents], lines 636-714.  [buffer_ok] says whether [malloc]
    gave the 4096 bytes, [listed] whether [xinput] gave any output;
    [popen] itself is taken to succeed.  The result is the return value,
    the two tables and [id]. *)
Definition initevents (useonlyone : Z) (mutex11 : Z) (buffer_ok listed : bool)
    (d : devices) (id0 : Z) : Z * devices * Z :=
  if negb (mutex11 =? 0) && negb buffer_ok then (0, d, id0)
  else
    let scan := negb (mutex11 =? 0) && listed && (mutex11 >? 0) in
    let '(i, evs, id1) :=
      initevents_loop useonlyone scan MAXEVDEVS 0 0 (replicate MAXEVDEVS (-1)) id0 in
    (Z.of_nat i, Devices evs (replicate MAXEVDEVS (-1)), id1).

End Devices.

(** [closeevents], lines 716-737. *)
Fixpoint closeevents_loop (evs x11 : list Z) : list syscall :=
  match evs, x11 with
  | e :: evs', x :: x11' =>
      (if e >=? 0
       then SysClose e :: (if x >=? 0 then [SysXinputEnable x] else [])
       else [])
      ++ closeevents_loop evs' x11'
  | _, _ => []
  end.

Definition closeevents (d : devices) : list syscall :=
  closeevents_loop (eventdevs d) (x11handles d).

(** [closefifo], lines 739-744. *)
Definition closefifo (d : devices) : list syscall :=
  if rd (eventdevs d) 0 >=? 0 then [SysClose (rd (eventdevs d) 0)] else [].

(** [initfifo], lines 603-628: [named] says whether the file name is not
    [NULL], [st] what [stat] finds ([None] when it fails, else whether
    the file is a fifo), [made] whether [mkfifo] succeeds, [fd] what
    [open] returns. *)
Definition initfifo (named : bool) (st : option bool) (made : bool) (fd : Z)
    (d : devices) : Z * devices :=
  let go := (if 0 >? fd then 0 else 1,
             Devices (<[0%nat := fd]> (eventdevs d)) (x11handles d)) in
  if negb named then (0, d)
  else
    match st with
    | Some isfifo => if isfifo then go else (0, d)
    | None => if made then go else (0, d)
    end.

(** [add_filedescriptors], lines 772-790: the descriptors put into the
    set, in table order, and the largest of them (-1 when there is
    none). *)
Fixpoint add_fds_loop (evs : list Z) (fds : list Z) (j : Z) : list Z * Z :=
  match evs with
  | [] => (fds, j)
  | e :: rest =>
      if e >=? 0
      then add_fds_loop rest (fds ++ [e]) (if e >? j then e else j)
      else add_fds_loop rest fds j
  end.

Definition add_filedescriptors (d : devices) : list Z * Z :=
  add_fds_loop (eventdevs d) [] (-1).

(** The device numbers [initevents] tries from [j] on in [n] rounds, and
    the descriptors it gets for them. *)
Definition tried (useonlyone : Z) (j : Z) (n : nat) : list Z :=
  filter (fun k => useonlyone < 0 \/ useonlyone = k) (seqZ j (Z.of_nat n)).

Definition opened (open_dev : Z -> Z) (useonlyone : Z) (j : Z) (n : nat) : list Z :=
  filter (fun fd => 0 <= fd) (open_dev <$> tried useonlyone j n).

(** A reading of decimal digits to stand for [atoi] on such strings. *)
Definition digit_of (c : Ascii.ascii) : option Z :=
  let n := Z.of_N (Ascii.N_of_ascii c) in
  if (48 <=? n) && (n <=? 57) then Some (n - 48) else None.

Fixpoint decimal_from (acc : Z) (a : string) : Z :=
  match a with
  | String.String c r =>
      match digit_of c with
      | Some d => decimal_from (10 * acc + d) r
      | None => acc
      end
  | String.EmptyString => acc
  end.

Definition decimal : string -> Z := decimal_from 0.

(** ** The X11 device, lines 984-990 and 1025-1036 *)

(** Whether the X11 device is enabled after the [xinput] calls of [t],
    when [b] says whether it was before: the last call decides. *)
Fixpoint x11_enabled (b : bool) (t : list action) : bool :=
  match t with
  | [] => b
  | System _ e :: tl => x11_enabled (negb (e =? 0)) tl
  | _ :: tl => x11_enabled b tl
  end.

(** A call of [xinput]. *)
Definition is_xinput (a : action) : bool :=
  match a with System _ _ => true | _ => false end.

(** What the command line and [initevents] have fixed. *)
Definition config (s : state) : Z * Z * bool := (stop_writing s, id s, result s).

(** The program was started with [-x] and has found its X11 device. *)
Definition x11_active (s : state) : Prop :=
  stop_writing s <> 0 /\ id s <> 0 /\ result s = true.

(** What a piece of [parse_events] does to the X11 device: the device
    follows the toggle, and is enabled when the process exits there. *)
Definition x11_piece (s s' : state) (f : flow) : Prop :=
  config s' = config s
  /\ exists acts, trace s' = trace s ++ acts
     /\ existsb teardown_action acts = false
     /\ (result s = false -> existsb is_xinput acts = false)
     /\ match f with
        | Halt => (result s = true ->
                   proc s' = Exited 0 /\ forall b, x11_enabled b acts = true)
                  /\ (result s = false -> proc s' = Crashed)
        | _ => proc s' = proc s
               /\ (x11_active s ->
                   x11_enabled (on s =? 0) acts = (on s' =? 0))
        end.

(** The device follows the toggle while the process runs and after the
    teardown of [main]; it is enabled after the exit of the reserved
    key. *)
Definition x11_inv (s : state) : Prop :=
  if running s
  then existsb teardown_action (trace s) = false
       /\ x11_enabled true (trace s) = (on s =? 0)
  else if existsb teardown_action (trace s)
       then x11_enabled true (trace s) = (on s =? 0)
       else x11_enabled true (trace s) = true.

(** A stretch of the run, for the X11 device. *)
Definition x11_seg (s s' : state) : Prop :=
  config s' = config s
  /\ (exists acts, trace s' = trace s ++ acts
        /\ (result s = false -> existsb is_xinput acts = false))
  /\ (x11_active s -> x11_inv s -> x11_inv s').

(** A run with [-x] in which the toggle is flipped to unmuted and a
    termination signal then ends the program. *)
Definition unmute_then_sigterm : list input := unmute ++ [Signal SIGTERM].


(** * Properties *)

(** ** Bytes and the report buffer *)

Lemma to_uchar_range z : 0 <= to_uchar z < 256.
Proof. unfold to_uchar. apply Z.mod_pos_bound. lia. Qed.

Lemma to_uchar_small z : 0 <= z < 256 -> to_uchar z = z.
Proof. intros H. unfold to_uchar. apply Z.mod_small. lia. Qed.

Lemma to_schar_small z : -128 <= z <= 127 -> to_schar z = z.
Proof. intros H. unfold to_schar. rewrite Z.mod_small; lia. Qed.

Lemma to_schar_to_uchar z : to_schar (to_uchar z) = to_schar z.
Proof.
  unfold to_schar, to_uchar.
  rewrite Zplus_mod_idemp_l. reflexivity.
Qed.

Lemma to_uchar_to_schar z : to_uchar (to_schar z) = to_uchar z.
Proof.
  unfold to_schar, to_uchar.
  rewrite Zminus_mod_idemp_l.
  replace (z + 128 - 128) with z by lia. reflexivity.
Qed.

Lemma key_bytes_length pk : length (key_bytes pk) = 8%nat.
Proof. reflexivity. Qed.

(** Every byte of a keyboard report is written before it is sent:
    nothing of the old content of [hidrep] is in the packet. *)
Lemma peek_put_keyb b modify pk :
  peek_bytes (put_keyb b modify (key_bytes pk)) sizeof_keyb
  = 0xA1 :: REPORTID_KEYBD :: to_uchar modify :: key_bytes pk.
Proof. reflexivity. Qed.

Lemma peek_put_keyb_zeros b :
  peek_bytes (put_keyb b 0 zeros8) sizeof_keyb
  = [0xA1; REPORTID_KEYBD; 0; 0; 0; 0; 0; 0; 0; 0; 0].
Proof. reflexivity. Qed.

Lemma peek_put_mouse b button x y z :
  peek_bytes (put_mouse b button x y z) sizeof_mouse
  = [0xA1; REPORTID_MOUSE; to_uchar button; to_uchar x; to_uchar y; to_uchar z].
Proof. reflexivity. Qed.

(** ** Layer resolution *)

Lemma land_mask_sub mk mask sub :
  Z.land mask sub = sub -> Z.land mk mask = 0 -> Z.land mk sub = 0.
Proof.
  intros Hsub Hz. rewrite <- Hsub, Z.land_assoc, Hz. reflexivity.
Qed.

Lemma neo_layer_table mk :
  neo_layer mk = layer_table (group1 mk) (group2 mk) (group3 mk).
Proof.
  unfold neo_layer, layermod_of, group1, group2, group3.
  destruct (Z.land mk 0x0022 =? 0), (Z.land mk 0x0300 =? 0),
    (Z.land mk 0x0440 =? 0); reflexivity.
Qed.

(** ** Reading the trace *)

Lemma new_actions_app s s' acts :
  trace s' = trace s ++ acts -> new_actions s s' = acts.
Proof.
  intros H. unfold new_actions. rewrite H. apply drop_app_length.
Qed.

Lemma new_actions_nil s : new_actions s s = [].
Proof. apply new_actions_app. symmetry. apply app_nil_r. Qed.

(** Unfolds the state updates met in a goal and groups the actions a
    step has appended. *)
Ltac trace_norm :=
  cbn [trace emit set_trace set_proc set_on set_connectionok set_pressedkey
       set_modifierkeys set_mousebuttons set_prepareshutdown
       prepareshutdown mousebuttons modifierkeys pressedkey connectionok on
       stop_writing id result proc fst snd send] in *;
  rewrite <- ?app_assoc in *;
  cbn [app] in *.

(** The report the common keyboard path assembles. *)
Lemma key_common_report sendres hidrep j m s u pressedmod value :
  let mk := update_modifiers (modifierkeys s) pressedmod value in
  let entry := chars_at u (neo_layer mk) in
  let modify :=
    if snd entry =? 0
    then (if Z.land pressedmod 0x8000 =? 0 then m else to_uchar (to_schar mk))
    else fst entry in
  let pk := fst (update_keys value (snd entry) j (pressedkey s)) in
  let s' := snd (fst (key_common sendres hidrep j m s u pressedmod value)) in
  head (new_actions s s')
  = Some (Report AtKeyb (0xA1 :: REPORTID_KEYBD :: to_uchar modify :: key_bytes pk))
  /\ modifierkeys s' = mk /\ pressedkey s' = pk.
Proof.
  intros mk entry modify pk. subst pk. unfold key_common.
  fold mk. fold entry.
  destruct (update_keys value (snd entry) j (pressedkey s)) as [pk j'].
  rewrite peek_put_keyb.
  trace_norm.
  destruct (connectionok s =? 0).
  - trace_norm. split; [|split]; try reflexivity.
    erewrite new_actions_app by (trace_norm; reflexivity). reflexivity.
  - destruct (on s =? 0).
    + destruct (1 >? j'); trace_norm; (split; [|split]); try reflexivity;
        (erewrite new_actions_app by (trace_norm; reflexivity)); reflexivity.
    + trace_norm.
      destruct (1 >? _); trace_norm; (split; [|split]); try reflexivity;
        (erewrite new_actions_app by (trace_norm; reflexivity)); reflexivity.
Qed.

(** C2, as amended.  The layer that indexes [chars] is a function of
    [modifierkeys] alone: it is read off the three selector groups by
    [layer_table], that is layer 0 with no group active, layer 1, 2 or 3
    with exactly that group active, layer 4 with groups 1 and 2 (and not
    3), layer 5 whenever groups 2 and 3 are both active, and layer 3 with
    groups 1 and 3 only; a state with no selector bit set resolves to
    layer 0; and the report of the common keyboard path is taken from
    [chars] at that layer of the updated modifier state, for every key
    index. *)
Theorem C2_layer_resolution :
  (forall mk, neo_layer mk = layer_table (group1 mk) (group2 mk) (group3 mk))
  /\ (forall mk, neo_layer (Z.land mk (0xffff - selector_bits)) = 0)
  /\ (forall sendres hidrep j m s u pressedmod value,
        let mk := update_modifiers (modifierkeys s) pressedmod value in
        let entry := chars_at u (neo_layer mk) in
        let modify :=
          if snd entry =? 0
          then (if Z.land pressedmod 0x8000 =? 0 then m else to_uchar (to_schar mk))
          else fst entry in
        let pk := fst (update_keys value (snd entry) j (pressedkey s)) in
        head (new_actions s
                (snd (fst (key_common sendres hidrep j m s u pressedmod value))))
        = Some (Report AtKeyb
                  (0xA1 :: REPORTID_KEYBD :: to_uchar modify :: key_bytes pk))).
Proof.
  split; [exact neo_layer_table|split].
  - intros mk. rewrite neo_layer_table.
    unfold group1, group2, group3.
    rewrite !(land_mask_sub (Z.land mk (0xffff - selector_bits)) selector_bits);
      try reflexivity;
      rewrite <- Z.land_assoc; apply Z.land_0_r.
  - intros. apply key_common_report.
Qed.

(** The rule as the specification words it fails where groups 1 and 3
    are active without group 2 (left shift with right alt): the code
    resolves layer 3, the specification asks for layer 5. *)
Lemma C2_counterexample :
  group1 0x0042 = true /\ group2 0x0042 = false /\ group3 0x0042 = true
  /\ neo_layer 0x0042 = 3
  /\ neo_layer 0x0042 <> spec_layer (group1 0x0042) (group2 0x0042) (group3 0x0042).
Proof. repeat split; try reflexivity. vm_compute. discriminate. Qed.

Lemma attempts_app t t' : attempts (t ++ t') = attempts t ++ attempts t'.
Proof.
  induction t as [|a t IH]; [reflexivity|].
  destruct a; cbn [app attempts]; rewrite ?IH; reflexivity.
Qed.

Lemma wire_app t t' : wire (t ++ t') = wire t ++ wire t'.
Proof.
  induction t as [|a t IH]; [reflexivity|].
  destruct a; cbn [app wire]; rewrite ?IH; try reflexivity.
  destruct (1 >? ret); reflexivity.
Qed.

(** ** Codes the ladder does not know *)

Lemma fall_through_bound code l n :
  Forall (fun e => 0 < snd e) l ->
  fall_through code l = Some n -> 0 < n <= ladder_sum l.
Proof.
  induction 1 as [|[lbl k] l Hk Hl IH]; [discriminate|].
  assert (Hs : 0 <= ladder_sum l).
  { clear -Hl. induction Hl as [|[? ?] ? ? ? ?]; cbn [ladder_sum snd] in *; lia. }
  cbn [snd] in Hk. cbn [fall_through ladder_sum]. destruct lbl as [c|].
  - destruct (code =? c); [intros [= <-]; lia|].
    intros H. apply IH in H. lia.
  - intros H. apply IH in H. lia.
Qed.

(** The index the ladder computes stays within [chars]: it is 1 or lies
    between 4 and 99. *)
Lemma key_index_range code : key_index code = 1 \/ 4 <= key_index code <= 99.
Proof.
  unfold key_index. destruct (fall_through code key_ladder) as [n|] eqn:E; [|left; reflexivity].
  right.
  assert (Hpos : Forall (fun e : option Z * Z => 0 < snd e) key_ladder).
  { apply Forall_forall. intros e He.
    assert (Hb : forallb (fun e : option Z * Z => 0 <? snd e) key_ladder = true)
      by (vm_compute; reflexivity).
    rewrite forallb_forall in Hb. apply list_elem_of_In in He.
    apply Z.ltb_lt. apply Hb. exact He. }
  assert (Hlow : 3 <= n).
  { assert (Hsplit : key_ladder = removelast key_ladder ++ [(Some KEY_A, 3)])
      by (vm_compute; reflexivity).
    assert (Hgen : forall l, Forall (fun e : option Z * Z => 0 < snd e) l ->
              fall_through code (l ++ [(Some KEY_A, 3)]) = Some n -> 3 <= n).
    { clear. induction 1 as [|[lbl k] l Hk Hl IH].
      - cbn [app fall_through ladder_sum]. destruct (code =? KEY_A); [|discriminate].
        intros [= <-]. lia.
      - cbn [snd] in Hk. cbn [app fall_through]. destruct lbl as [c|].
        + destruct (code =? c); [|exact IH]. intros [= <-].
          assert (3 <= ladder_sum (l ++ [(Some KEY_A, 3)])).
          { clear -Hl. induction Hl as [|[? ?] ? ? ? ?];
              cbn [app ladder_sum snd] in *; lia. }
          lia.
        + exact IH. }
    rewrite Hsplit in E. apply Hgen in E; [exact E|].
    rewrite Hsplit in Hpos. apply Forall_app in Hpos. apply Hpos. }
  destruct (fall_through_bound code key_ladder n Hpos E) as [_ Hup].
  change (ladder_sum key_ladder) with 98 in Hup.
  unfold to_uchar. rewrite Z.mod_small by lia. lia.
Qed.

(** Index 1 of [chars], where [u] stays for such codes, is unmapped on
    every layer. *)
Lemma chars_at_1 mk : chars_at 1 (neo_layer mk) = (0, 0).
Proof.
  rewrite neo_layer_table.
  destruct (group1 mk), (group2 mk), (group3 mk); reflexivity.
Qed.

Lemma handle_event_unknown pass sendres hidrep s code value :
  fall_through code key_ladder = None ->
  pressedmod_of code = 0 ->
  is_button code = false ->
  code <> KEY_SYSRQ ->
  handle_event pass sendres hidrep s (InputEvent EV_KEY code value)
  = key_common sendres hidrep sizeof_input_event 0 s 1 0 value.
Proof.
  intros Hlad Hpm Hbtn Hsys.
  unfold handle_event, ev_key. cbn [ev_type ev_code ev_value].
  rewrite Z.eqb_refl, Hbtn.
  destruct (code =? KEY_SYSRQ) eqn:E; [apply Z.eqb_eq in E; contradiction|].
  unfold key_index. rewrite Hlad, Hpm. reflexivity.
Qed.

(** C3, what the code does.  A key event whose code is no label of the
    inner [switch] is not dropped: it runs the common keyboard path with
    [u = 1] and assembles a keyboard report with modifier byte 0 and the
    pressed-key array, and that report is sent when a session is
    connected and not muted. *)
Theorem C3_unknown_key_reported pass sendres hidrep s code value :
  fall_through code key_ladder = None ->
  pressedmod_of code = 0 ->
  is_button code = false ->
  code <> KEY_SYSRQ ->
  let s' := snd (fst (handle_event pass sendres hidrep s (InputEvent EV_KEY code value))) in
  let pkt := 0xA1 :: REPORTID_KEYBD :: 0 :: key_bytes (pressedkey s') in
  head (new_actions s s') = Some (Report AtKeyb pkt)
  /\ (connectionok s <> 0 -> on s <> 0 ->
      new_actions s s'
      = [Report AtKeyb pkt; Send AtKeyb pkt (sendres (length (attempts (trace s))))]).
Proof.
  intros Hlad Hpm Hbtn Hsys s' pkt. subst pkt s'.
  rewrite handle_event_unknown by assumption.
  pose proof (key_common_report sendres hidrep sizeof_input_event 0 s 1 0 value) as H.
  cbv zeta in H. rewrite chars_at_1 in H. cbn [fst snd] in H.
  change (0 =? 0) with true in H. cbn iota in H.
  change (Z.land 0 0x8000 =? 0) with true in H. cbn iota in H.
  destruct H as (Hhead & Hmk & Hpk).
  split.
  - rewrite Hhead, Hpk. reflexivity.
  - intros Hc Ho. rewrite Hpk. clear Hhead Hmk Hpk.
    unfold key_common. rewrite chars_at_1. cbn [fst snd].
    destruct (update_keys value 0 sizeof_input_event (pressedkey s)) as [pk j'].
    rewrite peek_put_keyb. trace_norm.
    apply Z.eqb_neq in Hc, Ho. rewrite Hc, Ho. trace_norm.
    rewrite attempts_app, length_app. cbn [attempts length].
    rewrite Nat.add_0_r.
    destruct (1 >? _); trace_norm;
      (erewrite new_actions_app by (trace_norm; reflexivity)); reflexivity.
Qed.

Lemma C3_witness :
  fall_through KEY_F13 key_ladder = None
  /\ new_actions ctrl_held_state
       (snd (fst (handle_event [] all_sent no_junk ctrl_held_state
                    (InputEvent EV_KEY KEY_F13 1))))
     = [Report AtKeyb final_report; Send AtKeyb final_report 11].
Proof.
  split; [reflexivity|].
  apply (C3_unknown_key_reported [] all_sent no_junk ctrl_held_state KEY_F13 1);
    try reflexivity; vm_compute; discriminate.
Defined.

(** ** The reserved key with left control held *)

Lemma handle_event_sysrq pass sendres hidrep s value :
  handle_event pass sendres hidrep s (InputEvent EV_KEY KEY_SYSRQ value)
  = match sysrq pass sendres hidrep s (InputEvent EV_KEY KEY_SYSRQ value) with
    | (hidrep, s, Fall j modify) => key_common sendres hidrep j modify s 1 0 value
    | r => r
    end.
Proof. reflexivity. Qed.

(** C4, as amended.  When the reserved key is released while left
    control is held (and [result] is allocated, as [-x] leaves it), the
    all-keys-released report is handed to [send] if a session is
    connected, whatever the mute toggle says and whatever [send] returns,
    the X11 device is re-enabled, and the process exits there and then
    with status 0: no other modifier is consulted, the shutdown flag is
    not touched, and neither the session teardown nor the teardown at the
    end of [main] is run, in whichever phase [main] stands. *)
Theorem C4_terminate_exits pass sendres skipsdp stdin hidrep p s :
  running s = true ->
  Z.land (modifierkeys s) 0x1 = 0x1 ->
  result s = true ->
  main_step pass sendres skipsdp stdin (p, s) (Wake (hidrep, [sysrq_release]))
  = (p, set_proc (Exited 0)
          (emit (System (id s) 1)
             (if connectionok s =? 0 then s
              else emit (Send AtFinal final_report
                           (sendres (length (attempts (trace s)))))
                     (emit (Report AtFinal final_report) s)))).
Proof.
  intros Hrun Hctl Hres.
  assert (Hpe : parse_events pass sendres (hidrep, [sysrq_release]) s
    = (set_proc (Exited 0)
          (emit (System (id s) 1)
             (if connectionok s =? 0 then s
              else emit (Send AtFinal final_report
                           (sendres (length (attempts (trace s)))))
                     (emit (Report AtFinal final_report) s))), 0)).
  { unfold parse_events, parse_loop. cbn [fst snd]. unfold sysrq_release.
    rewrite handle_event_sysrq. unfold sysrq. cbn [ev_value].
    change (0 =? 0) with true. cbn iota.
    rewrite Hctl. change (1 =? 1) with true. cbn iota.
    destruct (connectionok s =? 0).
    - rewrite Hres. reflexivity.
    - rewrite peek_put_keyb_zeros. trace_norm. rewrite Hres.
      rewrite attempts_app, length_app. cbn [attempts length].
      rewrite Nat.add_0_r. reflexivity. }
  unfold main_step. rewrite Hrun.
  destruct p; unfold drain, pump; rewrite Hpe; reflexivity.
Qed.

Lemma C4_witness :
  main_step [] all_sent false quiet_stdin (Connected, ctrl_held_x11) (Wake (no_junk, [sysrq_release]))
  = (Connected,
     set_proc (Exited 0)
       (emit (System 7 1)
          (emit (Send AtFinal final_report 11)
             (emit (Report AtFinal final_report) ctrl_held_x11)))).
Proof.
  apply (C4_terminate_exits [] all_sent false quiet_stdin no_junk Connected ctrl_held_x11);
    reflexivity.
Defined.

(** The outcome the specification describes is not the one the code
    produces: with left control alone the session is not closed and the
    process does not go on, and with left alt held as well the process
    ends without any of the teardown. *)
Lemma C4_counterexample :
  ~ closing_as_specified
      (snd (main_step [] all_sent false quiet_stdin (Connected, ctrl_held_x11)
              (Wake (no_junk, [sysrq_release]))))
  /\ ~ teardown_as_specified
      (snd (main_step [] all_sent false quiet_stdin (Connected, ctrl_alt_held_x11)
              (Wake (no_junk, [sysrq_release])))).
Proof.
  split.
  - intros [H _]. vm_compute in H. discriminate H.
  - intros (_ & H & _). vm_compute in H.
    repeat (destruct H as [H|H]; [discriminate H|]). exact H.
Qed.

(** ** The pressed-key array under an unmapped entry *)

Lemma rd_nil j : rd [] j = 0.
Proof. destruct j; reflexivity. Qed.

Lemma rd_cons_S x pk j : rd (x :: pk) (S j) = rd pk j.
Proof. reflexivity. Qed.

Lemma insert_rd pk j : <[j := rd pk j]> pk = pk.
Proof.
  unfold rd. destruct (pk !! j) as [v|] eqn:E; cbn [default].
  - apply list_insert_id. exact E.
  - apply list_insert_ge. apply lookup_ge_None. exact E.
Qed.

Lemma rd_all_zero pk j : forallb (Z.eqb 0) pk = true -> rd pk j = 0.
Proof.
  revert j. induction pk as [|x pk IH]; intros j H; [apply rd_nil|].
  cbn [forallb] in H. apply andb_true_iff in H as [Hx H].
  apply Z.eqb_eq in Hx. destruct j; [symmetry; exact Hx|].
  rewrite rd_cons_S. apply IH. exact H.
Qed.

Lemma compactb_spec pk :
  compactb pk = true ->
  forall i j : nat, (i <= j)%nat -> rd pk i = 0 -> rd pk j = 0.
Proof.
  induction pk as [|x pk IH]; intros Hc i j Hij Hi; [apply rd_nil|].
  cbn [compactb] in Hc. destruct (x =? 0) eqn:Ex.
  - apply Z.eqb_eq in Ex. destruct j; [exact Ex|].
    rewrite rd_cons_S. apply rd_all_zero. exact Hc.
  - apply Z.eqb_neq in Ex. destruct i; [contradiction|].
    destruct j; [lia|]. rewrite rd_cons_S in *.
    apply (IH Hc i j); [lia|exact Hi].
Qed.

(** Key down with usage 0 writes a 0 over a 0. *)
Lemma key_down_zero n j pk : fst (key_down n j 0 pk) = pk.
Proof.
  revert j. induction n as [|n IH]; intros j; [reflexivity|].
  cbn [key_down]. destruct (rd pk j =? 0) eqn:E.
  - apply Z.eqb_eq in E. cbn [fst].
    change (to_schar 0) with 0. rewrite <- E at 1. apply insert_rd.
  - apply IH.
Qed.

Lemma shift_left_zeros n j pk :
  (forall k : nat, (j <= k)%nat -> rd pk k = 0) -> shift_left n j pk = pk.
Proof.
  revert j pk. induction n as [|n IH]; intros j pk H; [reflexivity|].
  cbn [shift_left].
  assert (E : <[j := rd pk (S j)]> pk = pk).
  { rewrite (H (S j)) by lia. rewrite <- (H j) at 1 by lia. apply insert_rd. }
  rewrite E. apply IH. intros k Hk. apply H. lia.
Qed.

(** Key up with usage 0 closes the first free slot, which changes
    nothing when only free slots follow it. *)
Lemma key_up_zero n j pk :
  (j + n = 8)%nat ->
  (forall i k : nat, (i <= k)%nat -> rd pk i = 0 -> rd pk k = 0) ->
  fst (key_up n j 0 pk) = pk.
Proof.
  revert j. induction n as [|n IH]; intros j Hn Hc; [reflexivity|].
  cbn [key_up]. destruct (rd pk j =? 0) eqn:E.
  - apply Z.eqb_eq in E. cbn [fst].
    rewrite shift_left_zeros by (intros k Hk; apply (Hc j k); assumption).
    rewrite <- (Hc j 7%nat) at 1 by (try lia; exact E). apply insert_rd.
  - apply IH; [lia|exact Hc].
Qed.

Lemma update_keys_zero value j pk :
  compactb pk = true -> fst (update_keys value 0 j pk) = pk.
Proof.
  intros Hc. unfold update_keys.
  destruct (value =? 1); [apply key_down_zero|].
  destruct (value =? 0); [|reflexivity].
  apply key_up_zero; [reflexivity|]. apply compactb_spec. exact Hc.
Qed.

Lemma handle_event_key pass sendres hidrep s code value :
  is_button code = false ->
  code <> KEY_SYSRQ ->
  handle_event pass sendres hidrep s (InputEvent EV_KEY code value)
  = key_common sendres hidrep sizeof_input_event 0 s
      (key_index code) (pressedmod_of code) value.
Proof.
  intros Hbtn Hsys.
  unfold handle_event, ev_key. cbn [ev_type ev_code ev_value].
  rewrite Z.eqb_refl, Hbtn.
  destruct (code =? KEY_SYSRQ) eqn:E; [apply Z.eqb_eq in E; contradiction|].
  reflexivity.
Qed.

(** C5, as amended.  For a key event (not a mouse button, not the
    reserved key) whose entry in [chars] at the key's index and the
    resolved layer is unmapped, the keyboard report carries as modifier
    byte the low byte of the updated [modifierkeys] when the key of the
    event is itself one of the five keys marked 0x8000 (left and right
    control, left alt, left and right meta), and 0 for every other key;
    [modifierkeys] is updated all the same, and [pressedkey] is left as
    it was whenever its used slots come first. *)
Theorem C5_unmapped_entry pass sendres hidrep s code value :
  is_button code = false ->
  code <> KEY_SYSRQ ->
  let mk := update_modifiers (modifierkeys s) (pressedmod_of code) value in
  snd (chars_at (key_index code) (neo_layer mk)) = 0 ->
  let s' := snd (fst (handle_event pass sendres hidrep s (InputEvent EV_KEY code value))) in
  let modify :=
    if Z.land (pressedmod_of code) 0x8000 =? 0 then 0 else held_modifier_byte mk in
  head (new_actions s s')
  = Some (Report AtKeyb (0xA1 :: REPORTID_KEYBD :: modify :: key_bytes (pressedkey s')))
  /\ modifierkeys s' = mk
  /\ (compactb (pressedkey s) = true -> pressedkey s' = pressedkey s).
Proof.
  intros Hbtn Hsys mk Hun s' modify. subst s' modify.
  rewrite handle_event_key by assumption.
  pose proof (key_common_report sendres hidrep sizeof_input_event 0 s
                (key_index code) (pressedmod_of code) value) as H.
  cbv zeta in H. fold mk in H. rewrite Hun in H.
  change (0 =? 0) with true in H. cbn iota in H.
  destruct H as (Hhead & Hmk & Hpk).
  split; [|split].
  - rewrite Hhead, Hpk.
    destruct (Z.land (pressedmod_of code) 0x8000 =? 0); [reflexivity|].
    unfold held_modifier_byte. rewrite to_uchar_to_schar.
    rewrite (to_uchar_small (to_uchar mk)) by apply to_uchar_range.
    reflexivity.
  - exact Hmk.
  - intros Hc. rewrite Hpk. apply update_keys_zero. exact Hc.
Qed.

Lemma C5_witness :
  let s := ctrl_caps_state in
  let s' := snd (fst (handle_event [] all_sent no_junk s (InputEvent EV_KEY KEY_B 1))) in
  chars_at (key_index KEY_B) (neo_layer (modifierkeys s')) = (0, 0)
  /\ head (new_actions s s') = Some (Report AtKeyb final_report)
  /\ modifierkeys s' = 0x8101
  /\ (compactb (pressedkey s) = true -> pressedkey s' = pressedkey s).
Proof.
  split; [reflexivity|].
  apply (C5_unmapped_entry [] all_sent no_junk ctrl_caps_state KEY_B 1);
    try reflexivity; vm_compute; discriminate.
Defined.

(** With left control and caps lock held, the key B is unmapped on the
    resolved layer; its report carries modifier byte 0 although left
    control is held, so the event is not as the specification says. *)
Lemma C5_counterexample :
  let s := ctrl_caps_state in
  let s' := snd (fst (handle_event [] all_sent no_junk s (InputEvent EV_KEY KEY_B 1))) in
  snd (chars_at (key_index KEY_B) (neo_layer (modifierkeys s'))) = 0
  /\ held_modifier_byte (modifierkeys s') = 1
  /\ ~ unmapped_as_specified s s'.
Proof.
  split; [reflexivity|]. split; [reflexivity|].
  intros (pkt & rest & H1 & H2 & _).
  vm_compute in H1. injection H1 as <- _.
  vm_compute in H2. discriminate H2.
Qed.

(** ** Mouse events *)

Lemma is_axis_cases code :
  is_axis code = true ->
  code = ABS_X \/ code = ABS_Y \/ code = ABS_Z \/ code = REL_WHEEL.
Proof.
  unfold is_axis. intros H.
  repeat (apply orb_true_iff in H as [H|H]); apply Z.eqb_eq in H; auto.
Qed.

Lemma is_button_cases code :
  is_button code = true ->
  code = BTN_LEFT \/ code = BTN_RIGHT \/ code = BTN_MIDDLE.
Proof.
  unfold is_button. intros H.
  repeat (apply orb_true_iff in H as [H|H]); apply Z.eqb_eq in H; auto.
Qed.

Lemma is_mouse_event_cases ev :
  is_mouse_event ev = true ->
  (ev_type ev = EV_KEY /\ is_button (ev_code ev) = true)
  \/ (ev_type ev = EV_REL /\ is_axis (ev_code ev) = true).
Proof.
  unfold is_mouse_event. intros H.
  apply orb_true_iff in H as [H|H]; apply andb_true_iff in H as [H1 H2];
    apply Z.eqb_eq in H1; auto.
Qed.

Ltac mouse_shape st :=
  trace_norm; (split; [reflexivity|]); eexists st, _; (split; [auto|]);
  split;
  [ erewrite new_actions_app by (trace_norm; reflexivity); reflexivity
  | split; [reflexivity | first [reflexivity | intros; congruence]] ].

(** The actions of a mouse event: its report, the [send] of that report
    when connected, and after a button that went through, the keyboard
    report of the common path, which is sent only when not muted. *)
Lemma mouse_event_actions pass sendres hidrep s ev :
  is_mouse_event ev = true ->
  let s' := snd (fst (handle_event pass sendres hidrep s ev)) in
  let pkt := mouse_packet (buttons_after (mousebuttons s) ev) ev in
  let r := sendres (length (attempts (trace s))) in
  mousebuttons s' = buttons_after (mousebuttons s) ev
  /\ exists st rest,
       (st = AtButton \/ st = AtAxis)
       /\ new_actions s s'
          = Report st pkt :: (if connectionok s =? 0 then rest else Send st pkt r :: rest)
       /\ reports_with_id REPORTID_MOUSE rest = []
       /\ (on s = 0 -> attempts rest = []).
Proof.
  intros Hm s' pkt r. subst s' pkt r.
  destruct ev as [ty code value].
  apply is_mouse_event_cases in Hm as [[Hty Hc]|[Hty Hc]]; cbn [ev_type ev_code] in *; subst ty.
  - (* a button *)
    unfold handle_event, ev_key, mouse_button, mouse_packet, buttons_after, axes_of.
    cbn [ev_type ev_code ev_value]. change (EV_KEY =? EV_KEY) with true.
    change (EV_KEY =? EV_REL) with false. rewrite Hc. cbn [andb].
    set (mb := if value =? 1 then _ else _).
    rewrite peek_put_mouse. trace_norm.
    destruct (connectionok s =? 0) eqn:Hcon.
    + unfold key_common. trace_norm.
      destruct (update_keys _ _ _ _) as [pk j']. rewrite peek_put_keyb.
      trace_norm. rewrite Hcon. mouse_shape AtButton.
    + trace_norm. rewrite attempts_app, length_app. cbn [attempts length].
      rewrite Nat.add_0_r.
      destruct (1 >? sendres (length (attempts (trace s)))) eqn:Hr.
      * mouse_shape AtButton.
      * unfold key_common. trace_norm.
        destruct (update_keys _ _ _ _) as [pk j']. rewrite peek_put_keyb.
        trace_norm. rewrite Hcon. trace_norm.
        destruct (on s =? 0) eqn:Hon.
        -- destruct (1 >? j'); mouse_shape AtButton.
        -- apply Z.eqb_neq in Hon. trace_norm.
           rewrite attempts_app, length_app. cbn [attempts length].
           destruct (1 >? sendres (length (attempts (trace s)) + 1)%nat);
             mouse_shape AtButton.
  - (* an axis *)
    unfold handle_event, ev_rel, mouse_packet, buttons_after, axes_of.
    cbn [ev_type ev_code ev_value]. change (EV_REL =? EV_KEY) with false.
    change (EV_REL =? EV_REL) with true. rewrite Hc. cbn [andb].
    rewrite peek_put_mouse. trace_norm.
    assert (Hz : (code >=? ABS_Z) = ((code =? ABS_Z) || (code =? REL_WHEEL))).
    { destruct (is_axis_cases code Hc) as [E | [E | [E | E] ] ];
        rewrite E; reflexivity. }
    rewrite Hz.
    destruct (connectionok s =? 0) eqn:Hcon.
    + mouse_shape AtAxis.
    + trace_norm. rewrite attempts_app, length_app. cbn [attempts length].
      rewrite Nat.add_0_r.
      destruct (1 >? _); mouse_shape AtAxis.
Qed.

Lemma report_id_mouse_packet mb ev : report_id (mouse_packet mb ev) = REPORTID_MOUSE.
Proof. unfold mouse_packet. destruct (axes_of ev) as [[x y] z]. reflexivity. Qed.

(** C7, as amended.  A mouse event (one of the three buttons left,
    right and middle, or one of the axes X, Y, Z and wheel) assembles
    exactly one mouse report.  The report is
    built from the state after the update: its button byte is the button
    mask, which a button event changes in the one bit of its button and
    which otherwise persists; its axis bytes are the value of this event
    on the axis of this event and 0 on the others, whatever earlier
    events carried.  An axis byte is the value as a signed byte, equal to
    the value itself between -128 and 127. *)
Theorem C7_mouse_report pass sendres hidrep s ev :
  is_mouse_event ev = true ->
  let s' := snd (fst (handle_event pass sendres hidrep s ev)) in
  mousebuttons s' = buttons_after (mousebuttons s) ev
  /\ reports_with_id REPORTID_MOUSE (new_actions s s')
     = [mouse_packet (mousebuttons s') ev]
  /\ (forall z, -128 <= z <= 127 -> to_schar (to_uchar z) = z).
Proof.
  intros Hm s'.
  destruct (mouse_event_actions pass sendres hidrep s ev Hm)
    as (Hmb & st & rest & _ & Hnew & Hrest & _).
  fold s' in Hmb, Hnew. split; [exact Hmb|]. split.
  - rewrite Hnew, Hmb. cbn [reports_with_id].
    rewrite report_id_mouse_packet, Z.eqb_refl.
    destruct (connectionok s =? 0); cbn [reports_with_id]; rewrite Hrest; reflexivity.
  - intros z Hz. rewrite to_schar_to_uchar. apply to_schar_small. exact Hz.
Qed.

Lemma C7_witness :
  let s := muted_mouse_state in
  let ev := InputEvent EV_REL REL_WHEEL (-1) in
  let s' := snd (fst (handle_event [] all_sent no_junk s ev)) in
  mousebuttons s' = 1
  /\ reports_with_id REPORTID_MOUSE (new_actions s s') = [[0xA1; 1; 1; 0; 0; 255]]
  /\ (forall z, -128 <= z <= 127 -> to_schar (to_uchar z) = z).
Proof.
  apply (C7_mouse_report [] all_sent no_junk muted_mouse_state
           (InputEvent EV_REL REL_WHEEL (-1))).
  reflexivity.
Defined.

(** Not every mouse button or relative-axis event yields a mouse report.
    The horizontal wheel is a relative axis for which the [switch] of
    lines 1289-1316 has no case: nothing is assembled.  The side button
    is not among the case labels of lines 938-940: the event runs through
    the default case into the common keyboard path, which assembles a
    keyboard report and no mouse report, and the button mask is left as
    it was. *)
Lemma C7_counterexample :
  let s := muted_mouse_state in
  let wheel := snd (fst (handle_event [] all_sent no_junk s
                           (InputEvent EV_REL REL_HWHEEL 1))) in
  let side := snd (fst (handle_event [] all_sent no_junk s
                          (InputEvent EV_KEY BTN_SIDE 1))) in
  new_actions s wheel = []
  /\ reports_with_id REPORTID_MOUSE (new_actions s side) = []
  /\ new_actions s side = [Report AtKeyb final_report]
  /\ mousebuttons side = mousebuttons s.
Proof. vm_compute. repeat split. Qed.

(** C10, as amended.  While a session is connected, the report of
    every mouse event (one of the three buttons left, right and middle,
    or one of the axes X, Y, Z and wheel) is handed to [send], and it is the first thing sent for the event,
    whatever the mute toggle says; with the toggle in the muted state it
    is the only thing sent, the keyboard report that follows a button
    being held back. *)
Theorem C10_mouse_ignores_mute pass sendres hidrep s ev :
  is_mouse_event ev = true ->
  connectionok s <> 0 ->
  let s' := snd (fst (handle_event pass sendres hidrep s ev)) in
  let pkt := mouse_packet (mousebuttons s') ev in
  let r := sendres (length (attempts (trace s))) in
  exists st rest,
    (st = AtButton \/ st = AtAxis)
    /\ attempts (new_actions s s') = (st, pkt, r) :: rest
    /\ (on s = 0 -> rest = []).
Proof.
  intros Hm Hcon s' pkt r. subst pkt r.
  destruct (mouse_event_actions pass sendres hidrep s ev Hm)
    as (Hmb & st & rest & Hst & Hnew & _ & Hmute).
  fold s' in Hmb, Hnew.
  apply Z.eqb_neq in Hcon. rewrite Hcon in Hnew.
  exists st, (attempts rest). split; [exact Hst|]. split.
  - rewrite Hnew, Hmb. reflexivity.
  - exact Hmute.
Qed.

Lemma C10_witness :
  let s := muted_mouse_state in
  let ev := InputEvent EV_KEY BTN_RIGHT 1 in
  let s' := snd (fst (handle_event [] all_sent no_junk s ev)) in
  on s = 0
  /\ exists st rest,
       (st = AtButton \/ st = AtAxis)
       /\ attempts (new_actions s s') = (st, [0xA1; 1; 3; 0; 0; 0], 11) :: rest
       /\ (on s = 0 -> rest = []).
Proof.
  split; [reflexivity|].
  apply (C10_mouse_ignores_mute [] all_sent no_junk muted_mouse_state
           (InputEvent EV_KEY BTN_RIGHT 1)).
  - reflexivity.
  - vm_compute. discriminate.
Defined.

(** Not for every mouse button or axis event is a [send] attempted while
    connected: in a connected session with the toggle in the muted
    position, the side button (which takes the default case into the
    keyboard path, whose [send] is under [if (on)]) and the horizontal
    wheel (for which there is no case) make no [send] call. *)
Lemma C10_counterexample :
  let s := muted_mouse_state in
  connectionok s = 1
  /\ on s = 0
  /\ attempts (new_actions s (snd (fst (handle_event [] all_sent no_junk s
                                          (InputEvent EV_KEY BTN_SIDE 1))))) = []
  /\ attempts (new_actions s (snd (fst (handle_event [] all_sent no_junk s
                                          (InputEvent EV_REL REL_HWHEEL 1))))) = [].
Proof. vm_compute. repeat split. Qed.

(** ** How [parse_events] is left *)

Lemma quiet_app a b : quiet a -> quiet b -> quiet (a ++ b).
Proof.
  unfold quiet. intros Ha Hb. rewrite existsb_app, Ha, Hb. reflexivity.
Qed.

Lemma step_ok_trans s s1 s2 j m f :
  step_ok s s1 (Fall j m) -> step_ok s1 s2 f -> step_ok s s2 f.
Proof.
  intros (Hc1 & Hp1 & a1 & Ht1 & Hq1 & Hr1 & _) (Hc2 & Hp2 & a2 & Ht2 & H2).
  split; [congruence|]. split; [congruence|].
  exists (a1 ++ a2). split; [rewrite Ht2, Ht1, app_assoc; reflexivity|].
  destruct f.
  - destruct H2 as (Hq2 & Hr2 & Hj2).
    split; [apply quiet_app; assumption|]. split; [congruence|assumption].
  - destruct H2 as [Hq2 Hr2]. split; [assumption|congruence].
  - destruct H2 as [Hq2 Hr2]. split; [apply quiet_app; assumption|assumption].
Qed.

Lemma step_ok_fall_j s s' j m : step_ok s s' (Fall j m) -> 1 <= j.
Proof. intros (_ & _ & acts & _ & _ & _ & H). exact H. Qed.

Lemma gtb_false_le r : (1 >? r) = false -> 1 <= r.
Proof. rewrite Z.gtb_ltb. apply Z.ltb_ge. Qed.

(** The value of [j] after the loops over [pressedkey]: 8 or 9. *)
Lemma key_down_j n i p l :
  1 <= Z.of_nat i + Z.of_nat n -> 1 <= snd (key_down n i p l).
Proof.
  revert i. induction n as [|n IH]; intros i Hle; cbn [key_down].
  - cbn [snd]. lia.
  - destruct (rd l i =? 0); [cbn [snd]; lia|].
    destruct (rd l i =? p); [cbn [snd]; lia|]. apply IH. lia.
Qed.

Lemma key_up_j n i p l :
  1 <= Z.of_nat i + Z.of_nat n -> 1 <= snd (key_up n i p l).
Proof.
  revert i. induction n as [|n IH]; intros i Hle; cbn [key_up].
  - cbn [snd]. lia.
  - destruct (rd l i =? p); [cbn [snd]; lia|]. apply IH. lia.
Qed.

Lemma update_keys_j value p j pk : 1 <= j -> 1 <= snd (update_keys value p j pk).
Proof.
  intros Hj. unfold update_keys.
  destruct (value =? 1); [apply key_down_j; lia|].
  destruct (value =? 0); [apply key_up_j; lia|exact Hj].
Qed.

(** Closes a goal [step_ok] once the state updates are unfolded. *)
Ltac close_quiet :=
  unfold quiet; cbn [existsb checked_fail orb];
  repeat match goal with H : (1 >? _) = false |- _ => rewrite H end;
  reflexivity.

Ltac close_step :=
  unfold step_ok; trace_norm; split; [reflexivity|]; split; [reflexivity|];
  eexists; split; [first [reflexivity | symmetry; apply app_nil_r]|];
  first
    [ split; [reflexivity|reflexivity]
    | split; [close_quiet|reflexivity]
    | split; [close_quiet|];
      split; [reflexivity|];
      first [ eassumption | apply gtb_false_le; eassumption
            | unfold sizeof_input_event; lia
            | match goal with
              | H : step_ok _ _ (Fall ?j _) |- 1 <= ?j =>
                  destruct H as (_ & _ & ? & _ & _ & _ & ?); assumption
              end ] ].

Lemma mouse_button_ok sendres hidrep s ev h' s' f :
  mouse_button sendres hidrep s ev = (h', s', f) -> step_ok s s' f.
Proof.
  unfold mouse_button. trace_norm.
  destruct (connectionok s =? 0).
  - intros [= <- <- <-]. close_step.
  - match goal with
    | |- context [1 >? ?r] => destruct (1 >? r) eqn:Hr
    end; intros [= <- <- <-]; close_step.
Qed.

Lemma key_common_ok sendres hidrep j m s u pressedmod value h' s' f :
  1 <= j ->
  key_common sendres hidrep j m s u pressedmod value = (h', s', f) -> step_ok s s' f.
Proof.
  intros Hj. unfold key_common.
  pose proof (update_keys_j value (snd (chars_at u (neo_layer
    (update_modifiers (modifierkeys s) pressedmod value)))) j (pressedkey s) Hj) as Hj'.
  destruct (update_keys _ _ _ _) as [pk j']. cbn [snd] in Hj'. trace_norm.
  assert (Hg : (1 >? j') = false) by (rewrite Z.gtb_ltb; apply Z.ltb_ge; exact Hj').
  destruct (connectionok s =? 0).
  - intros [= <- <- <-]. close_step.
  - destruct (on s =? 0).
    + rewrite Hg. intros [= <- <- <-]. close_step.
    + trace_norm.
      match goal with
      | |- context [1 >? ?r] => destruct (1 >? r) eqn:Hr
      end; intros [= <- <- <-]; close_step.
Qed.

Lemma burst_ok sendres l : forall hidrep j m s h' s' f,
  1 <= j ->
  burst sendres l hidrep j m s = (h', s', f) -> step_ok s s' f.
Proof.
  induction l as [|[modify k] rest IH]; intros hidrep j m s h' s' f Hj; cbn [burst].
  - intros [= <- <- <-]. unfold step_ok.
    split; [reflexivity|]. split; [reflexivity|]. exists [].
    split; [symmetry; apply app_nil_r|]. repeat split. exact Hj.
  - trace_norm. destruct (connectionok s =? 0) eqn:Hcon.
    + intros [= <- <- <-]. close_step.
    + destruct (on s =? 0) eqn:Hon.
      * assert (Hg : (1 >? j) = false) by (rewrite Z.gtb_ltb; apply Z.ltb_ge; exact Hj).
        rewrite Hg. intros H. apply IH in H; [|exact Hj].
        eapply (step_ok_trans _ _ _ _ 0); [|exact H]. close_step.
      * trace_norm.
        match goal with
        | |- context [1 >? ?r] => destruct (1 >? r) eqn:Hr
        end.
        -- intros [= <- <- <-]. close_step.
        -- intros H. apply IH in H; [|apply gtb_false_le; exact Hr].
           eapply (step_ok_trans _ _ _ _ 0); [|exact H]. close_step.
Qed.

Lemma sysrq_ok pass sendres hidrep s ev h' s' f :
  sysrq pass sendres hidrep s ev = (h', s', f) -> step_ok s s' f.
Proof.
  unfold sysrq. destruct (ev_value ev =? 0); [|intros [= <- <- <-]; close_step].
  destruct (Z.land (modifierkeys s) 1 =? 1).
  - destruct (connectionok s =? 0); trace_norm;
      destruct (result s); intros [= <- <- <-]; close_step.
  - destruct (Z.land (modifierkeys s) 16 =? 16).
    + destruct (burst sendres pass hidrep sizeof_input_event 0 s) as [[h1 s1] f1] eqn:Hb.
      apply burst_ok in Hb; [|unfold sizeof_input_event; lia].
      destruct f1; intros [= <- <- <-]; [|exact Hb|exact Hb].
      eapply step_ok_trans; [exact Hb|]. close_step.
    + trace_norm. destruct (stop_writing s =? 0); [intros [= <- <- <-]; close_step|].
      destruct (id s =? 0); [intros [= <- <- <-]; close_step|].
      destruct (result s); intros [= <- <- <-]; close_step.
Qed.

Lemma ev_key_ok pass sendres hidrep s ev h' s' f :
  ev_key pass sendres hidrep s ev = (h', s', f) -> step_ok s s' f.
Proof.
  unfold ev_key. destruct (is_button (ev_code ev)).
  - destruct (mouse_button sendres hidrep s ev) as [[h1 s1] f1] eqn:Hb.
    apply mouse_button_ok in Hb.
    destruct f1; [|intros [= <- <- <-]; exact Hb..].
    intros H. apply key_common_ok in H; [|apply (step_ok_fall_j _ _ _ _ Hb)].
    eapply step_ok_trans; eassumption.
  - destruct (ev_code ev =? KEY_SYSRQ).
    + destruct (sysrq pass sendres hidrep s ev) as [[h1 s1] f1] eqn:Hb.
      apply sysrq_ok in Hb.
      destruct f1; [|intros [= <- <- <-]; exact Hb..].
      intros H. apply key_common_ok in H; [|apply (step_ok_fall_j _ _ _ _ Hb)].
      eapply step_ok_trans; eassumption.
    + apply key_common_ok. unfold sizeof_input_event. lia.
Qed.

Lemma ev_rel_ok sendres hidrep s ev h' s' f :
  ev_rel sendres hidrep s ev = (h', s', f) -> step_ok s s' f.
Proof.
  unfold ev_rel. destruct (is_axis (ev_code ev)); [|intros [= <- <- <-]; close_step].
  trace_norm. destruct (connectionok s =? 0); [intros [= <- <- <-]; close_step|].
  match goal with
  | |- context [1 >? ?r] => destruct (1 >? r) eqn:Hr
  end; intros [= <- <- <-]; close_step.
Qed.

Lemma handle_event_ok pass sendres hidrep s ev h' s' f :
  handle_event pass sendres hidrep s ev = (h', s', f) -> step_ok s s' f.
Proof.
  unfold handle_event. destruct (ev_type ev =? EV_KEY); [apply ev_key_ok|].
  destruct (ev_type ev =? EV_REL); [apply ev_rel_ok|].
  intros [= <- <- <-]. close_step.
Qed.

Lemma parse_loop_ok pass sendres evs : forall hidrep s s' r,
  parse_loop pass sendres evs hidrep s = (s', r) -> parse_ok s s' r.
Proof.
  induction evs as [|ev evs IH]; intros hidrep s s' r; cbn [parse_loop].
  - intros [= <- <-]. unfold parse_ok.
    split; [reflexivity|]. split; [reflexivity|]. exists [].
    split; [symmetry; apply app_nil_r|]. left. split; reflexivity.
  - destruct (handle_event pass sendres hidrep s ev) as [[h1 s1] f1] eqn:Hh.
    apply handle_event_ok in Hh.
    destruct Hh as (Hc1 & Hp1 & a1 & Ht1 & H1).
    destruct f1.
    + intros H. apply IH in H. destruct H as (Hc2 & Hp2 & a2 & Ht2 & H2).
      destruct H1 as (Hq1 & Hr1 & _).
      split; [congruence|]. split; [congruence|]. exists (a1 ++ a2).
      split; [rewrite Ht2, Ht1, app_assoc; reflexivity|].
      destruct H2 as [[Hq2 ->]|[-> Hr2]].
      * left. split; [apply quiet_app; assumption|reflexivity].
      * right. split; [reflexivity|congruence].
    + intros [= <- <-]. destruct H1 as [-> Hr1].
      split; [assumption|]. split; [assumption|]. exists a1.
      split; [assumption|]. right. split; [reflexivity|assumption].
    + intros [= <- <-]. destruct H1 as [Hq1 _].
      split; [assumption|]. split; [assumption|]. exists a1.
      split; [assumption|]. left. split; [assumption|reflexivity].
Qed.

(** C6, as amended.  In the connected phase, whenever a [send] whose
    return value the code tests (the mouse reports, the keyboard report
    of the common path, the reports of the burst) returns less than 1
    and no shutdown request is pending, that same pass of the loop takes
    the session to idle: [connectionok] is 0, the interrupt and the
    control descriptor are closed, the closing notice is given, and the
    process is still running with the shutdown flag clear.  The report
    sent before [exit] is left out: its [send] is not tested. *)
Theorem C6_failed_send_closes pass sendres skipsdp stdin w s :
  running s = true ->
  connectionok s <> 0 ->
  prepareshutdown s = 0 ->
  let s1 := fst (parse_events pass sendres w s) in
  let ps' := main_step pass sendres skipsdp stdin (Connected, s) (Wake w) in
  existsb checked_fail (new_actions s s1) = true ->
  fst ps' = Idle
  /\ connectionok (snd ps') = 0
  /\ proc (snd ps') = Running
  /\ prepareshutdown (snd ps') = 0
  /\ new_actions s1 (snd ps') = [Close Sint; Close Sctl; Notice; Sleep 500000].
Proof.
  intros Hrun Hcon Hprep s1 ps' Hfail. subst s1 ps'.
  unfold main_step, pump. rewrite Hrun.
  destruct (parse_events pass sendres w s) as [s1 r] eqn:Hpe.
  cbn [fst] in Hfail.
  unfold parse_events in Hpe. apply parse_loop_ok in Hpe.
  destruct Hpe as (Hc1 & Hp1 & acts & Ht & H).
  rewrite (new_actions_app _ _ _ Ht) in Hfail.
  destruct H as [[Hq _]|[-> Hr]]; [unfold quiet in Hq; congruence|].
  assert (Hrun1 : running s1 = true) by (unfold running in *; rewrite Hr; exact Hrun).
  rewrite Hrun1. change (0 >? -1) with true. cbn iota.
  change (-1 <? -1) with false. cbn iota.
  unfold running in Hrun1 |- *. trace_norm.
  destruct (proc s1) eqn:Hproc; try discriminate.
  change (0 =? 0) with true. cbn iota.
  unfold loop_top, session_end. trace_norm. rewrite Hp1, Hprep.
  change (0 =? 0) with true. cbn iota. trace_norm.
  split; [reflexivity|]. split; [reflexivity|]. split; [exact Hproc|].
  split; [congruence|].
  erewrite new_actions_app by (trace_norm; reflexivity). reflexivity.
Qed.

Lemma C6_witness :
  let w := (no_junk, [InputEvent EV_REL ABS_X 5]) in
  let s := fresh_session_link_down in
  let ps' := main_step [] link_down false quiet_stdin (Connected, s) (Wake w) in
  existsb checked_fail (new_actions s (fst (parse_events [] link_down w s))) = true
  /\ fst ps' = Idle
  /\ connectionok (snd ps') = 0
  /\ proc (snd ps') = Running
  /\ prepareshutdown (snd ps') = 0
  /\ new_actions (fst (parse_events [] link_down w s)) (snd ps')
     = [Close Sint; Close Sctl; Notice; Sleep 500000].
Proof.
  split; [reflexivity|].
  apply (C6_failed_send_closes [] link_down false quiet_stdin
           (no_junk, [InputEvent EV_REL ABS_X 5]) fresh_session_link_down).
  - reflexivity.
  - vm_compute. discriminate.
  - reflexivity.
  - reflexivity.
Defined.

(** A transmission that fails while connected and does not lead back to
    idle: the report sent on the release of the reserved key with left
    control held.  Its [send] returns -1, and the process exits. *)
Lemma C6_counterexample :
  let s := ctrl_held_link_down in
  let ps' := main_step [] link_down false quiet_stdin (Connected, s)
               (Wake (no_junk, [sysrq_release])) in
  connectionok s = 1
  /\ existsb failed_send (new_actions s (snd ps')) = true
  /\ proc (snd ps') = Exited 0
  /\ ~ failure_as_specified ps'.
Proof.
  split; [reflexivity|]. split; [reflexivity|]. split; [reflexivity|].
  intros (_ & _ & _ & _ & H). vm_compute in H. discriminate H.
Qed.

(** ** The mute toggle *)

Lemma toggled_app b t t' : toggled b (t ++ t') = toggled (toggled b t) t'.
Proof.
  revert b. induction t as [|a t IH]; intros b; [reflexivity|].
  destruct a; cbn [app toggled]; apply IH.
Qed.

Lemma gated_ok_app b t t' :
  gated_ok b (t ++ t') = gated_ok b t && gated_ok (toggled b t) t'.
Proof.
  revert b. induction t as [|a t IH]; intros b; [reflexivity|].
  destruct a; cbn [app toggled gated_ok]; rewrite IH;
    try reflexivity; rewrite andb_assoc; reflexivity.
Qed.

Lemma mute_step_refl s : mute_step s s.
Proof.
  exists []. split; [symmetry; apply app_nil_r|]. repeat split. tauto.
Qed.

Lemma mute_step_trans s s1 s2 : mute_step s s1 -> mute_step s1 s2 -> mute_step s s2.
Proof.
  intros (a1 & Ht1 & Hg1 & Ho1 & Hb1) (a2 & Ht2 & Hg2 & Ho2 & Hb2).
  exists (a1 ++ a2). split; [rewrite Ht2, Ht1, app_assoc; reflexivity|].
  split; [rewrite gated_ok_app, Hg1, <- Ho1, Hg2; reflexivity|].
  split; [rewrite toggled_app, <- Ho1; exact Ho2|]. tauto.
Qed.

Lemma mute_inv_step s s' : mute_inv s -> mute_step s s' -> mute_inv s'.
Proof.
  intros [Hg Ho] (acts & Ht & Hga & Hoa & Hb).
  assert (Hon : onb s = toggled false (trace s)).
  { unfold onb. rewrite Ho. destruct (toggled false (trace s)); reflexivity. }
  assert (H01 : on s = 0 \/ on s = 1).
  { rewrite Ho. destruct (toggled false (trace s)); auto. }
  split.
  - rewrite Ht, gated_ok_app, Hg, <- Hon, Hga. reflexivity.
  - rewrite Ht, toggled_app, <- Hon, <- Hoa. unfold onb.
    destruct (Hb H01) as [E|E]; rewrite E; reflexivity.
Qed.

Lemma mute_piece_step s s' flip : mute_piece s s' flip -> mute_step s s'.
Proof.
  intros (acts & Ht & Hg & Hf & Ho). exists acts.
  split; [exact Ht|]. split; [exact Hg|]. split.
  - rewrite Hf. unfold onb. rewrite Ho.
    destruct flip; [|rewrite xorb_false_r; reflexivity].
    destruct (on s =? 0); reflexivity.
  - intros H. rewrite Ho. destruct flip; [|exact H].
    destruct (on s =? 0); auto.
Qed.

Lemma mute_piece_refl s : mute_piece s s false.
Proof.
  exists []. split; [symmetry; apply app_nil_r|]. repeat split.
  intros b. symmetry. apply xorb_false_r.
Qed.

Lemma mute_piece_then s s1 s2 flip :
  mute_piece s s1 flip -> mute_piece s1 s2 false -> mute_piece s s2 flip.
Proof.
  intros (a1 & Ht1 & Hg1 & Hf1 & Ho1) (a2 & Ht2 & Hg2 & Hf2 & Ho2).
  exists (a1 ++ a2). split; [rewrite Ht2, Ht1, app_assoc; reflexivity|].
  assert (Hon : onb s1 = toggled (onb s) a1).
  { rewrite Hf1. unfold onb. rewrite Ho1. destruct flip.
    - destruct (on s =? 0); reflexivity.
    - rewrite xorb_false_r. reflexivity. }
  split; [rewrite gated_ok_app, Hg1, <- Hon, Hg2; reflexivity|].
  split; [intros b; rewrite toggled_app, Hf1, Hf2, xorb_false_r; reflexivity|].
  rewrite Ho2. exact Ho1.
Qed.

Lemma mute_piece_after s s1 s2 flip :
  mute_piece s s1 false -> mute_piece s1 s2 flip -> mute_piece s s2 flip.
Proof.
  intros (a1 & Ht1 & Hg1 & Hf1 & Ho1) (a2 & Ht2 & Hg2 & Hf2 & Ho2).
  exists (a1 ++ a2). split; [rewrite Ht2, Ht1, app_assoc; reflexivity|].
  assert (Hon : onb s1 = toggled (onb s) a1).
  { rewrite Hf1, xorb_false_r. unfold onb. rewrite Ho1. reflexivity. }
  split; [rewrite gated_ok_app, Hg1, <- Hon, Hg2; reflexivity|].
  split; [intros b; rewrite toggled_app, Hf1, Hf2, xorb_false_r; reflexivity|].
  rewrite Ho2, Ho1. reflexivity.
Qed.

(** Closes a goal [mute_piece] once the state updates are unfolded. *)
Ltac close_mute :=
  unfold mute_piece, onb; trace_norm;
  eexists; split; [first [reflexivity | symmetry; apply app_nil_r]|];
  cbn [gated_ok gated toggled andb];
  repeat match goal with H : (on _ =? 0) = _ |- _ => rewrite H end;
  cbn [negb andb];
  split; [reflexivity|];
  split; [intros [|]; reflexivity|reflexivity].

Lemma mouse_button_mute sendres hidrep s ev h' s' f :
  mouse_button sendres hidrep s ev = (h', s', f) -> mute_piece s s' false.
Proof.
  unfold mouse_button. trace_norm.
  destruct (connectionok s =? 0).
  - intros [= <- <- <-]. close_mute.
  - match goal with
    | |- context [1 >? ?r] => destruct (1 >? r)
    end; intros [= <- <- <-]; close_mute.
Qed.

Lemma key_common_mute sendres hidrep j m s u pressedmod value h' s' f :
  key_common sendres hidrep j m s u pressedmod value = (h', s', f) ->
  mute_piece s s' false.
Proof.
  unfold key_common. destruct (update_keys _ _ _ _) as [pk j']. trace_norm.
  destruct (connectionok s =? 0).
  - intros [= <- <- <-]. close_mute.
  - destruct (on s =? 0) eqn:Hon.
    + destruct (1 >? j'); intros [= <- <- <-]; close_mute.
    + trace_norm.
      match goal with
      | |- context [1 >? ?r] => destruct (1 >? r)
      end; intros [= <- <- <-]; close_mute.
Qed.

Lemma burst_mute sendres l : forall hidrep j m s h' s' f,
  burst sendres l hidrep j m s = (h', s', f) -> mute_piece s s' false.
Proof.
  induction l as [|[modify k] rest IH]; intros hidrep j m s h' s' f; cbn [burst].
  - intros [= <- <- <-]. apply mute_piece_refl.
  - trace_norm. destruct (connectionok s =? 0).
    + intros [= <- <- <-]. close_mute.
    + destruct (on s =? 0) eqn:Hon.
      * destruct (1 >? j); [intros [= <- <- <-]; close_mute|].
        intros H. apply IH in H.
        eapply mute_piece_then; [|exact H]. close_mute.
      * trace_norm.
        match goal with
        | |- context [1 >? ?r] => destruct (1 >? r)
        end.
        -- intros [= <- <- <-]. close_mute.
        -- intros H. apply IH in H.
           eapply mute_piece_then; [|exact H]. close_mute.
Qed.

Lemma sysrq_mute pass sendres hidrep s ev h' s' f :
  ev_type ev = EV_KEY ->
  ev_code ev = KEY_SYSRQ ->
  sysrq pass sendres hidrep s ev = (h', s', f) ->
  mute_piece s s' (toggle_release s ev).
Proof.
  intros Hty Hcode. unfold sysrq, toggle_release. rewrite Hty, Hcode.
  change (EV_KEY =? EV_KEY) with true. change (KEY_SYSRQ =? KEY_SYSRQ) with true.
  cbn [andb].
  destruct (ev_value ev =? 0); [|intros [= <- <- <-]; close_mute].
  destruct (Z.land (modifierkeys s) 1 =? 1).
  - destruct (connectionok s =? 0); trace_norm;
      destruct (result s); intros [= <- <- <-]; close_mute.
  - destruct (Z.land (modifierkeys s) 16 =? 16).
    + destruct (burst sendres pass hidrep sizeof_input_event 0 s) as [[h1 s1] f1] eqn:Hb.
      apply burst_mute in Hb. cbn [negb andb].
      destruct f1; intros [= <- <- <-]; [|exact Hb|exact Hb].
      eapply mute_piece_then; [exact Hb|]. close_mute.
    + cbn [negb andb]. trace_norm.
      destruct (stop_writing s =? 0); [intros [= <- <- <-]; close_mute|].
      destruct (id s =? 0); [intros [= <- <- <-]; close_mute|].
      destruct (result s); intros [= <- <- <-]; close_mute.
Qed.

Lemma toggle_release_not_sysrq s ev :
  (ev_code ev =? KEY_SYSRQ) = false -> toggle_release s ev = false.
Proof.
  intros H. unfold toggle_release. rewrite H, andb_false_r. reflexivity.
Qed.

Lemma toggle_release_not_key s ev :
  (ev_type ev =? EV_KEY) = false -> toggle_release s ev = false.
Proof. intros H. unfold toggle_release. rewrite H. reflexivity. Qed.

Lemma button_not_sysrq code : is_button code = true -> (code =? KEY_SYSRQ) = false.
Proof.
  intros H. destruct (is_button_cases code H) as [E | [E | E] ];
    rewrite E; reflexivity.
Qed.

Lemma ev_key_mute pass sendres hidrep s ev h' s' f :
  ev_type ev = EV_KEY ->
  ev_key pass sendres hidrep s ev = (h', s', f) ->
  mute_piece s s' (toggle_release s ev).
Proof.
  intros Hty. unfold ev_key. destruct (is_button (ev_code ev)) eqn:Hbtn.
  - rewrite toggle_release_not_sysrq by (apply button_not_sysrq; exact Hbtn).
    destruct (mouse_button sendres hidrep s ev) as [[h1 s1] f1] eqn:Hb.
    apply mouse_button_mute in Hb.
    destruct f1; [|intros [= <- <- <-]; exact Hb..].
    intros H. apply key_common_mute in H.
    eapply mute_piece_then; eassumption.
  - destruct (ev_code ev =? KEY_SYSRQ) eqn:Hsys.
    + apply Z.eqb_eq in Hsys.
      destruct (sysrq pass sendres hidrep s ev) as [[h1 s1] f1] eqn:Hb.
      apply sysrq_mute in Hb; [|assumption..].
      destruct f1; [|intros [= <- <- <-]; exact Hb..].
      intros H. apply key_common_mute in H.
      eapply mute_piece_then; eassumption.
    + rewrite toggle_release_not_sysrq by exact Hsys. apply key_common_mute.
Qed.

Lemma ev_rel_mute sendres hidrep s ev h' s' f :
  ev_rel sendres hidrep s ev = (h', s', f) -> mute_piece s s' false.
Proof.
  unfold ev_rel. destruct (is_axis (ev_code ev)); [|intros [= <- <- <-]; close_mute].
  trace_norm. destruct (connectionok s =? 0); [intros [= <- <- <-]; close_mute|].
  match goal with
  | |- context [1 >? ?r] => destruct (1 >? r)
  end; intros [= <- <- <-]; close_mute.
Qed.

Lemma handle_event_mute pass sendres hidrep s ev h' s' f :
  handle_event pass sendres hidrep s ev = (h', s', f) ->
  mute_piece s s' (toggle_release s ev).
Proof.
  unfold handle_event. destruct (ev_type ev =? EV_KEY) eqn:Hty.
  - apply Z.eqb_eq in Hty. apply ev_key_mute. exact Hty.
  - rewrite toggle_release_not_key by exact Hty.
    destruct (ev_type ev =? EV_REL); [apply ev_rel_mute|].
    intros [= <- <- <-]. apply mute_piece_refl.
Qed.

Lemma parse_loop_mute pass sendres evs : forall hidrep s s' r,
  parse_loop pass sendres evs hidrep s = (s', r) -> mute_step s s'.
Proof.
  induction evs as [|ev evs IH]; intros hidrep s s' r; cbn [parse_loop].
  - intros [= <- <-]. apply mute_step_refl.
  - destruct (handle_event pass sendres hidrep s ev) as [[h1 s1] f1] eqn:Hh.
    apply handle_event_mute, mute_piece_step in Hh.
    destruct f1; [|intros [= <- <-]; exact Hh..].
    intros H. apply IH in H. eapply mute_step_trans; eassumption.
Qed.

(** State updates that leave the toggle alone and send nothing that is
    gated. *)
Lemma mute_step_plain s s' acts :
  trace s' = trace s ++ acts ->
  on s' = on s ->
  (forall b, gated_ok b acts = true /\ toggled b acts = b) ->
  mute_step s s'.
Proof.
  intros Ht Ho H. exists acts. split; [exact Ht|].
  destruct (H (onb s)) as [Hg Hb].
  split; [exact Hg|]. split; [unfold onb in *; rewrite Ho, Hb; reflexivity|].
  rewrite Ho. tauto.
Qed.

Ltac plain_step :=
  eapply mute_step_plain;
  [ trace_norm; first [reflexivity | symmetry; apply app_nil_r]
  | reflexivity
  | intros [|]; split; reflexivity ].

Lemma drain_mute pass sendres w s : mute_step s (drain pass sendres w s).
Proof.
  unfold drain. destruct (parse_events pass sendres w s) as [s1 r] eqn:Hpe.
  apply parse_loop_mute in Hpe.
  destruct (running s1); [|exact Hpe].
  destruct (-1 >? r); [|exact Hpe].
  eapply mute_step_trans; [exact Hpe|]. plain_step.
Qed.

Lemma pump_mute pass sendres w s : mute_step s (pump pass sendres w s).
Proof.
  unfold pump. destruct (parse_events pass sendres w s) as [s1 r] eqn:Hpe.
  apply parse_loop_mute in Hpe.
  destruct (running s1); [|exact Hpe].
  destruct (0 >? r); [|exact Hpe].
  eapply mute_step_trans; [exact Hpe|].
  destruct (r <? -1); plain_step.
Qed.

Lemma shutdown_mute skipsdp stdin s : mute_step s (shutdown skipsdp stdin s).
Proof. unfold shutdown. destruct skipsdp, (cleanup_stdin false stdin); plain_step. Qed.

Lemma loop_top_mute skipsdp stdin s : mute_step s (snd (loop_top skipsdp stdin s)).
Proof.
  unfold loop_top. destruct (prepareshutdown s =? 0); cbn [snd].
  - apply mute_step_refl.
  - apply shutdown_mute.
Qed.

Lemma onsignal_mute i s : mute_step s (onsignal i s).
Proof.
  unfold onsignal. destruct (i =? SIGINT).
  - destruct (connectionok s =? 0); [plain_step|apply mute_step_refl].
  - destruct ((i =? SIGTERM) || (i =? SIGHUP)); [plain_step|apply mute_step_refl].
Qed.

Lemma main_step_mute pass sendres skipsdp stdin p s i :
  mute_step s (snd (main_step pass sendres skipsdp stdin (p, s) i)).
Proof.
  unfold main_step. destruct (running s); [|apply mute_step_refl].
  destruct i as [w| | | |n].
  - (* input events *)
    destruct p.
    + pose proof (drain_mute pass sendres w s) as Hd.
      destruct (running (drain pass sendres w s)); [|exact Hd].
      eapply mute_step_trans; [exact Hd|apply loop_top_mute].
    + apply drain_mute.
    + pose proof (pump_mute pass sendres w s) as Hp.
      destruct (running (pump pass sendres w s)); [|exact Hp].
      destruct (connectionok (pump pass sendres w s) =? 0); [|exact Hp].
      eapply mute_step_trans; [exact Hp|].
      eapply mute_step_trans; [|apply loop_top_mute].
      unfold session_end. plain_step.
  - destruct p; cbn [snd]; try apply mute_step_refl.
    destruct (prepareshutdown s =? 0); cbn [snd].
    + unfold session_start. plain_step.
    + apply shutdown_mute.
  - destruct p; cbn [snd]; try apply mute_step_refl. plain_step.
  - destruct p; cbn [snd]; try apply mute_step_refl.
    eapply mute_step_trans; [|apply loop_top_mute]. plain_step.
  - pose proof (onsignal_mute n s) as Hs.
    destruct p; cbn [snd]; try exact Hs.
    eapply mute_step_trans; [exact Hs|apply loop_top_mute].
Qed.

Lemma main_loop_mute pass sendres skipsdp stdin ins : forall p s,
  mute_inv s -> mute_inv (snd (main_loop pass sendres skipsdp stdin (p, s) ins)).
Proof.
  unfold main_loop.
  induction ins as [|i ins IH]; intros p s Hinv; [exact Hinv|].
  cbn [fold_left].
  pose proof (main_step_mute pass sendres skipsdp stdin p s i) as Hstep.
  destruct (main_step pass sendres skipsdp stdin (p, s) i) as [p1 s1].
  apply IH. eapply mute_inv_step; eassumption.
Qed.

Lemma init_state_mute_inv x11 id0 : mute_inv (init_state x11 id0).
Proof. split; reflexivity. Qed.

(** An ordinary key while the toggle is in the muted position: the state
    is updated and the report assembled as ever, and nothing is sent. *)
Lemma key_common_muted sendres hidrep m s u pressedmod value :
  on s = 0 ->
  let mk := update_modifiers (modifierkeys s) pressedmod value in
  let entry := chars_at u (neo_layer mk) in
  let modify :=
    if snd entry =? 0
    then (if Z.land pressedmod 0x8000 =? 0 then m else to_uchar (to_schar mk))
    else fst entry in
  let s' := snd (fst (key_common sendres hidrep sizeof_input_event m s u pressedmod value)) in
  modifierkeys s' = mk
  /\ pressedkey s' = fst (update_keys value (snd entry) sizeof_input_event (pressedkey s))
  /\ new_actions s s'
     = [Report AtKeyb (0xA1 :: REPORTID_KEYBD :: to_uchar modify :: key_bytes (pressedkey s'))].
Proof.
  intros Hon mk entry modify s'. subst s' modify. unfold key_common.
  fold mk. fold entry.
  pose proof (update_keys_j value (snd entry) sizeof_input_event (pressedkey s)) as Hj.
  destruct (update_keys value (snd entry) sizeof_input_event (pressedkey s)) as [pk j'].
  cbn [snd fst] in *.
  assert (Hg : (1 >? j') = false).
  { rewrite Z.gtb_ltb. apply Z.ltb_ge. apply Hj. unfold sizeof_input_event. lia. }
  rewrite peek_put_keyb. trace_norm. rewrite Hon. change (0 =? 0) with true.
  cbn iota. rewrite Hg.
  destruct (connectionok s =? 0); trace_norm;
    (split; [reflexivity|]); (split; [reflexivity|]);
    (erewrite new_actions_app by (trace_norm; reflexivity)); reflexivity.
Qed.

(** C9, as amended.  At program start the mute toggle is off ([on = 0]).  In every
    run of the program from its start, each [send] of an ordinary
    keyboard report (common path or burst) comes after an odd number of
    executions of the toggle statement of line 1025, and [on] is 1 or 0
    as that number is odd or even; the toggle statement is executed by
    exactly the events that release the reserved key while neither
    control key is held, whatever other modifier is held.  While the toggle is off, an ordinary key event
    still updates [modifierkeys] and [pressedkey] and assembles its
    report, and sends nothing, connected or not. *)
Theorem C9_muted_until_toggled :
  (forall x11 id0, on (init_state x11 id0) = 0)
  /\ (forall pass sendres skipsdp stdin x11 id0 ins,
        let s := snd (main_loop pass sendres skipsdp stdin (Idle, init_state x11 id0) ins) in
        gated_ok false (trace s) = true
        /\ on s = (if toggled false (trace s) then 1 else 0))
  /\ (forall pass sendres hidrep s ev b,
        toggled b (new_actions s (snd (fst (handle_event pass sendres hidrep s ev))))
        = xorb b (toggle_release s ev))
  /\ (forall pass sendres hidrep s code value,
        is_button code = false ->
        code <> KEY_SYSRQ ->
        on s = 0 ->
        let s' := snd (fst (handle_event pass sendres hidrep s
                              (InputEvent EV_KEY code value))) in
        let mk := update_modifiers (modifierkeys s) (pressedmod_of code) value in
        let entry := chars_at (key_index code) (neo_layer mk) in
        modifierkeys s' = mk
        /\ pressedkey s'
           = fst (update_keys value (snd entry) sizeof_input_event (pressedkey s))
        /\ exists modify,
             new_actions s s'
             = [Report AtKeyb
                  (0xA1 :: REPORTID_KEYBD :: modify :: key_bytes (pressedkey s'))]).
Proof.
  split; [reflexivity|]. split; [|split].
  - intros pass sendres skipsdp stdin x11 id0 ins.
    apply main_loop_mute, init_state_mute_inv.
  - intros pass sendres hidrep s ev b.
    destruct (handle_event pass sendres hidrep s ev) as [[h' s'] f] eqn:Hh.
    apply handle_event_mute in Hh. destruct Hh as (acts & Ht & _ & Hf & _).
    cbn [fst snd]. rewrite (new_actions_app _ _ _ Ht). apply Hf.
  - intros pass sendres hidrep s code value Hbtn Hsys Hon.
    rewrite handle_event_key by assumption.
    destruct (key_common_muted sendres hidrep 0 s (key_index code)
                (pressedmod_of code) value Hon) as (Hmk & Hpk & Hnew).
    cbv zeta. split; [exact Hmk|]. split; [exact Hpk|].
    eexists. exact Hnew.
Qed.

Lemma C9_witness :
  let s := muted_shift_state in
  let s' := snd (fst (handle_event [] all_sent no_junk s (InputEvent EV_KEY KEY_A 1))) in
  connectionok s = 1 /\ on s = 0
  /\ modifierkeys s' = 0x0002
  /\ pressedkey s' = [0x18; 0; 0; 0; 0; 0; 0; 0]
  /\ exists modify,
       new_actions s s'
       = [Report AtKeyb (0xA1 :: REPORTID_KEYBD :: modify :: key_bytes (pressedkey s'))].
Proof.
  split; [reflexivity|]. split; [reflexivity|].
  apply (proj2 (proj2 (proj2 C9_muted_until_toggled)) [] all_sent no_junk
           muted_shift_state KEY_A 1).
  - reflexivity.
  - vm_compute. discriminate.
  - reflexivity.
Defined.

(** The toggle does not ask for no modifier at all: lines 972 and 995
    test the two control keys only.  With left alt held, the one release
    of the reserved key in this run flips the toggle, and the keyboard
    reports of that release and of the key A that follows are sent. *)
Lemma C9_counterexample :
  let before := snd (main_loop [] all_sent false quiet_stdin
                       (Idle, init_state false 0) alt_held_press) in
  let after := snd (main_loop [] all_sent false quiet_stdin
                      (Idle, init_state false 0) alt_held_release) in
  modifierkeys before = 0x8004
  /\ on before = 0
  /\ attempts (trace before) = []
  /\ on after = 1
  /\ attempts (new_actions before after)
     = [(AtKeyb, final_report, 11);
        (AtKeyb, [0xA1; REPORTID_KEYBD; 0; 0x18; 0; 0; 0; 0; 0; 0; 0], 11)].
Proof. vm_compute. repeat split. Qed.

(** ** Two runs on the same events *)

Ltac sim_open H :=
  let Hobs := fresh "Hobs" in
  destruct H as (Hobs & ? & ?);
  unfold observable, running in Hobs;
  injection Hobs as Hps Hmb Hmk Hpk Hco Hon Hat Hrun.

Ltac sim_rewrite :=
  trace_norm;
  rewrite ?peek_put_keyb, ?peek_put_keyb_zeros, ?peek_put_mouse;
  rewrite ?attempts_app; cbn [attempts]; rewrite ?app_nil_r;
  repeat match goal with
         | H : prepareshutdown _ = prepareshutdown _ |- _ => rewrite !H
         | H : mousebuttons _ = mousebuttons _ |- _ => rewrite !H
         | H : modifierkeys _ = modifierkeys _ |- _ => rewrite !H
         | H : pressedkey _ = pressedkey _ |- _ => rewrite !H
         | H : connectionok _ = connectionok _ |- _ => rewrite !H
         | H : on _ = on _ |- _ => rewrite !H
         | H : attempts (trace _) = attempts (trace _) |- _ => rewrite !H
         end.

Ltac sim_close :=
  split; [|reflexivity];
  unfold sim, observable, config_ok, running in *; sim_rewrite;
  split; [|split; assumption];
  repeat match goal with
         | H : match proc _ with _ => _ end = match proc _ with _ => _ end |- _ =>
             rewrite !H
         end;
  reflexivity.

Lemma key_common_sim sendres h1 h2 j m s1 s2 u pressedmod value :
  sim s1 s2 ->
  sim (snd (fst (key_common sendres h1 j m s1 u pressedmod value)))
      (snd (fst (key_common sendres h2 j m s2 u pressedmod value)))
  /\ snd (key_common sendres h1 j m s1 u pressedmod value)
     = snd (key_common sendres h2 j m s2 u pressedmod value).
Proof.
  intros H. sim_open H. unfold key_common. sim_rewrite.
  destruct (update_keys _ _ _ _) as [pk j']. sim_rewrite.
  destruct (connectionok s2 =? 0); [cbn [fst snd]; sim_close|].
  destruct (on s2 =? 0).
  - destruct (1 >? j'); cbn [fst snd]; sim_close.
  - sim_rewrite.
    destruct (1 >? _); cbn [fst snd]; sim_close.
Qed.

(** The states two runs reach by the same updates stay related. *)
Ltac sim_states :=
  unfold sim, observable, config_ok, running in *; sim_rewrite;
  split; [|split; assumption];
  repeat match goal with
         | H : match proc _ with _ => _ end = match proc _ with _ => _ end |- _ =>
             rewrite !H
         end;
  reflexivity.

Lemma mouse_button_sim sendres h1 h2 s1 s2 ev :
  sim s1 s2 ->
  sim (snd (fst (mouse_button sendres h1 s1 ev)))
      (snd (fst (mouse_button sendres h2 s2 ev)))
  /\ snd (mouse_button sendres h1 s1 ev) = snd (mouse_button sendres h2 s2 ev).
Proof.
  intros H. sim_open H. unfold mouse_button. sim_rewrite.
  destruct (connectionok s2 =? 0); [cbn [fst snd]; sim_close|].
  destruct (1 >? _); cbn [fst snd]; sim_close.
Qed.

Lemma ev_rel_sim sendres h1 h2 s1 s2 ev :
  sim s1 s2 ->
  sim (snd (fst (ev_rel sendres h1 s1 ev))) (snd (fst (ev_rel sendres h2 s2 ev)))
  /\ snd (ev_rel sendres h1 s1 ev) = snd (ev_rel sendres h2 s2 ev).
Proof.
  intros H. unfold ev_rel.
  destruct (is_axis (ev_code ev)); [|cbn [fst snd]; split; [exact H|reflexivity]].
  sim_open H. sim_rewrite.
  destruct (connectionok s2 =? 0); [cbn [fst snd]; sim_close|].
  destruct (1 >? _); cbn [fst snd]; sim_close.
Qed.

Lemma burst_sim sendres l : forall h1 h2 j m s1 s2,
  sim s1 s2 ->
  sim (snd (fst (burst sendres l h1 j m s1))) (snd (fst (burst sendres l h2 j m s2)))
  /\ snd (burst sendres l h1 j m s1) = snd (burst sendres l h2 j m s2).
Proof.
  induction l as [|[modify k] rest IH]; intros h1 h2 j m s1 s2 H; cbn [burst].
  - cbn [fst snd]. split; [exact H|reflexivity].
  - assert (Hcon : connectionok s1 = connectionok s2) by (sim_open H; assumption).
    assert (Hon' : on s1 = on s2) by (sim_open H; assumption).
    assert (Hat' : attempts (trace s1) = attempts (trace s2)) by (sim_open H; assumption).
    assert (Hpk' : pressedkey s1 = pressedkey s2) by (sim_open H; assumption).
    trace_norm. rewrite !peek_put_keyb. rewrite Hcon, Hon', Hpk'.
    destruct (connectionok s2 =? 0).
    + cbn [fst snd]. split; [|reflexivity]. sim_open H. sim_states.
    + destruct (on s2 =? 0).
      * destruct (1 >? j).
        -- cbn [fst snd]. split; [|reflexivity]. sim_open H. sim_states.
        -- apply IH. sim_open H. sim_states.
      * trace_norm. rewrite !attempts_app. cbn [attempts].
        rewrite !app_nil_r, Hat'. destruct (1 >? _).
        -- cbn [fst snd]. split; [|reflexivity]. sim_open H. sim_states.
        -- apply IH. sim_open H. sim_states.
Qed.

Lemma config_ok_result s : config_ok s -> (stop_writing s =? 0) = false -> result s = true.
Proof. intros H E. apply H. apply Z.eqb_neq. exact E. Qed.

Lemma sysrq_sim pass sendres h1 h2 s1 s2 ev :
  sim s1 s2 ->
  sim (snd (fst (sysrq pass sendres h1 s1 ev))) (snd (fst (sysrq pass sendres h2 s2 ev)))
  /\ snd (sysrq pass sendres h1 s1 ev) = snd (sysrq pass sendres h2 s2 ev).
Proof.
  intros H. unfold sysrq.
  destruct (ev_value ev =? 0); [|cbn [fst snd]; split; [exact H|reflexivity]].
  assert (Hmk' : modifierkeys s1 = modifierkeys s2) by (sim_open H; assumption).
  rewrite Hmk'.
  destruct (Z.land (modifierkeys s2) 1 =? 1).
  - (* exit *)
    sim_open H. sim_rewrite.
    destruct (connectionok s2 =? 0); sim_rewrite;
      destruct (result s1), (result s2); cbn [fst snd]; sim_close.
  - destruct (Z.land (modifierkeys s2) 16 =? 16).
    + (* burst *)
      destruct (burst_sim sendres pass h1 h2 sizeof_input_event 0 s1 s2 H) as [Hs Hf].
      destruct (burst sendres pass h1 sizeof_input_event 0 s1) as [[h1' s1'] f1].
      destruct (burst sendres pass h2 sizeof_input_event 0 s2) as [[h2' s2'] f2].
      cbn [fst snd] in Hs, Hf. subst f2.
      destruct f1; cbn [fst snd]; (split; [|reflexivity]); try exact Hs.
      sim_open Hs. sim_states.
    + (* toggle *)
      pose proof H as H'. destruct H' as (_ & Hc1 & Hc2).
      sim_open H. sim_rewrite.
      destruct (stop_writing s1 =? 0) eqn:E1, (stop_writing s2 =? 0) eqn:E2;
        try rewrite (config_ok_result s1 Hc1 E1);
        try rewrite (config_ok_result s2 Hc2 E2);
        try destruct (id s1 =? 0); try destruct (id s2 =? 0);
        cbn [fst snd]; sim_close.
Qed.

Lemma ev_key_sim pass sendres h1 h2 s1 s2 ev :
  sim s1 s2 ->
  sim (snd (fst (ev_key pass sendres h1 s1 ev))) (snd (fst (ev_key pass sendres h2 s2 ev)))
  /\ snd (ev_key pass sendres h1 s1 ev) = snd (ev_key pass sendres h2 s2 ev).
Proof.
  intros H. unfold ev_key. destruct (is_button (ev_code ev)).
  - destruct (mouse_button_sim sendres h1 h2 s1 s2 ev H) as [Hs Hf].
    destruct (mouse_button sendres h1 s1 ev) as [[h1' s1'] f1].
    destruct (mouse_button sendres h2 s2 ev) as [[h2' s2'] f2].
    cbn [fst snd] in Hs, Hf. subst f2.
    destruct f1; [apply key_common_sim; exact Hs|split; [exact Hs|reflexivity]..].
  - destruct (ev_code ev =? KEY_SYSRQ).
    + destruct (sysrq_sim pass sendres h1 h2 s1 s2 ev H) as [Hs Hf].
      destruct (sysrq pass sendres h1 s1 ev) as [[h1' s1'] f1].
      destruct (sysrq pass sendres h2 s2 ev) as [[h2' s2'] f2].
      cbn [fst snd] in Hs, Hf. subst f2.
      destruct f1; [apply key_common_sim; exact Hs|split; [exact Hs|reflexivity]..].
    + apply key_common_sim. exact H.
Qed.

Lemma handle_event_sim pass sendres h1 h2 s1 s2 ev :
  sim s1 s2 ->
  sim (snd (fst (handle_event pass sendres h1 s1 ev)))
      (snd (fst (handle_event pass sendres h2 s2 ev)))
  /\ snd (handle_event pass sendres h1 s1 ev) = snd (handle_event pass sendres h2 s2 ev).
Proof.
  intros H. unfold handle_event.
  destruct (ev_type ev =? EV_KEY); [apply ev_key_sim; exact H|].
  destruct (ev_type ev =? EV_REL); [apply ev_rel_sim; exact H|].
  split; [exact H|reflexivity].
Qed.

Lemma parse_loop_sim pass sendres evs : forall h1 h2 s1 s2,
  sim s1 s2 ->
  sim (fst (parse_loop pass sendres evs h1 s1)) (fst (parse_loop pass sendres evs h2 s2))
  /\ snd (parse_loop pass sendres evs h1 s1) = snd (parse_loop pass sendres evs h2 s2).
Proof.
  induction evs as [|ev evs IH]; intros h1 h2 s1 s2 H; cbn [parse_loop].
  - split; [exact H|reflexivity].
  - destruct (handle_event_sim pass sendres h1 h2 s1 s2 ev H) as [Hs Hf].
    destruct (handle_event pass sendres h1 s1 ev) as [[h1' s1'] f1].
    destruct (handle_event pass sendres h2 s2 ev) as [[h2' s2'] f2].
    cbn [fst snd] in Hs, Hf. subst f2.
    destruct f1; [apply IH; exact Hs|split; [exact Hs|reflexivity]..].
Qed.

Lemma sim_running s1 s2 : sim s1 s2 -> running s1 = running s2.
Proof. intros (Hobs & _). unfold observable in Hobs. congruence. Qed.

Lemma sim_connectionok s1 s2 : sim s1 s2 -> connectionok s1 = connectionok s2.
Proof. intros (Hobs & _). unfold observable in Hobs. congruence. Qed.

Lemma sim_prepareshutdown s1 s2 : sim s1 s2 -> prepareshutdown s1 = prepareshutdown s2.
Proof. intros (Hobs & _). unfold observable in Hobs. congruence. Qed.

Lemma drain_sim pass sendres w1 w2 s1 s2 :
  snd w1 = snd w2 -> sim s1 s2 ->
  sim (drain pass sendres w1 s1) (drain pass sendres w2 s2).
Proof.
  intros Hw H. unfold drain, parse_events. rewrite Hw.
  destruct (parse_loop_sim pass sendres (snd w2) (fst w1) (fst w2) s1 s2 H) as [Hs Hr].
  destruct (parse_loop pass sendres (snd w2) (fst w1) s1) as [s1' r1].
  destruct (parse_loop pass sendres (snd w2) (fst w2) s2) as [s2' r2].
  cbn [fst snd] in Hs, Hr. subst r2.
  rewrite (sim_running _ _ Hs). destruct (running s2'); [|exact Hs].
  destruct (-1 >? r1); [|exact Hs]. sim_open Hs. sim_states.
Qed.

Lemma pump_sim pass sendres w1 w2 s1 s2 :
  snd w1 = snd w2 -> sim s1 s2 ->
  sim (pump pass sendres w1 s1) (pump pass sendres w2 s2).
Proof.
  intros Hw H. unfold pump, parse_events. rewrite Hw.
  destruct (parse_loop_sim pass sendres (snd w2) (fst w1) (fst w2) s1 s2 H) as [Hs Hr].
  destruct (parse_loop pass sendres (snd w2) (fst w1) s1) as [s1' r1].
  destruct (parse_loop pass sendres (snd w2) (fst w2) s2) as [s2' r2].
  cbn [fst snd] in Hs, Hr. subst r2.
  rewrite (sim_running _ _ Hs). destruct (running s2'); [|exact Hs].
  destruct (0 >? r1); [|exact Hs].
  destruct (r1 <? -1); sim_open Hs; sim_states.
Qed.

Lemma shutdown_sim skip1 skip2 stdin1 stdin2 s1 s2 :
  sim s1 s2 -> sim (shutdown skip1 stdin1 s1) (shutdown skip2 stdin2 s2).
Proof.
  intros H. unfold shutdown.
  destruct skip1, skip2, (cleanup_stdin false stdin1), (cleanup_stdin false stdin2);
    sim_open H; sim_states.
Qed.

Lemma loop_top_sim skip1 skip2 stdin1 stdin2 s1 s2 :
  sim s1 s2 ->
  fst (loop_top skip1 stdin1 s1) = fst (loop_top skip2 stdin2 s2)
  /\ sim (snd (loop_top skip1 stdin1 s1)) (snd (loop_top skip2 stdin2 s2)).
Proof.
  intros H. unfold loop_top. rewrite (sim_prepareshutdown _ _ H).
  destruct (prepareshutdown s2 =? 0); cbn [fst snd];
    (split; [reflexivity|]); [exact H|apply shutdown_sim; exact H].
Qed.

Lemma onsignal_sim i s1 s2 : sim s1 s2 -> sim (onsignal i s1) (onsignal i s2).
Proof.
  intros H. unfold onsignal. rewrite (sim_connectionok _ _ H).
  destruct (i =? SIGINT).
  - destruct (connectionok s2 =? 0); [sim_open H; sim_states|exact H].
  - destruct ((i =? SIGTERM) || (i =? SIGHUP)); [sim_open H; sim_states|exact H].
Qed.

Lemma session_end_sim s1 s2 : sim s1 s2 -> sim (session_end s1) (session_end s2).
Proof. intros H. unfold session_end. sim_open H. sim_states. Qed.

Lemma session_start_sim s1 s2 : sim s1 s2 -> sim (session_start s1) (session_start s2).
Proof. intros H. unfold session_start. sim_open H. sim_states. Qed.

Lemma main_step_sim pass sendres skip1 skip2 stdin1 stdin2 p s1 s2 i1 i2 :
  same_input i1 i2 -> sim s1 s2 ->
  fst (main_step pass sendres skip1 stdin1 (p, s1) i1)
  = fst (main_step pass sendres skip2 stdin2 (p, s2) i2)
  /\ sim (snd (main_step pass sendres skip1 stdin1 (p, s1) i1))
         (snd (main_step pass sendres skip2 stdin2 (p, s2) i2)).
Proof.
  intros Hi H. unfold main_step. rewrite (sim_running _ _ H).
  destruct (running s2); [|split; [reflexivity|exact H]].
  destruct i1 as [w1| | | |n1], i2 as [w2| | | |n2]; cbn [same_input] in Hi;
    try contradiction.
  - (* input events *)
    destruct p.
    + pose proof (drain_sim pass sendres w1 w2 s1 s2 Hi H) as Hd.
      rewrite (sim_running _ _ Hd).
      destruct (running (drain pass sendres w2 s2)); [|split; [reflexivity|exact Hd]].
      apply loop_top_sim. exact Hd.
    + split; [reflexivity|]. apply drain_sim; assumption.
    + pose proof (pump_sim pass sendres w1 w2 s1 s2 Hi H) as Hp.
      rewrite (sim_running _ _ Hp).
      destruct (running (pump pass sendres w2 s2)); [|split; [reflexivity|exact Hp]].
      rewrite (sim_connectionok _ _ Hp).
      destruct (connectionok (pump pass sendres w2 s2) =? 0);
        [|split; [reflexivity|exact Hp]].
      apply loop_top_sim, session_end_sim. exact Hp.
  - destruct p; cbn [fst snd]; try (split; [reflexivity|exact H]).
    rewrite (sim_prepareshutdown _ _ H).
    destruct (prepareshutdown s2 =? 0); cbn [fst snd]; (split; [reflexivity|]).
    + apply session_start_sim. exact H.
    + apply shutdown_sim. exact H.
  - destruct p; cbn [fst snd]; try (split; [reflexivity|exact H]).
    split; [reflexivity|]. sim_open H. sim_states.
  - destruct p; cbn [fst snd]; try (split; [reflexivity|exact H]).
    apply loop_top_sim. sim_open H. sim_states.
  - subst n2. pose proof (onsignal_sim n1 s1 s2 H) as Hs.
    destruct p; cbn [fst snd]; try (split; [reflexivity|exact Hs]).
    apply loop_top_sim. exact Hs.
Qed.

Lemma main_loop_sim pass sendres skip1 skip2 stdin1 stdin2 ins1 ins2 :
  Forall2 same_input ins1 ins2 ->
  forall p s1 s2, sim s1 s2 ->
  fst (main_loop pass sendres skip1 stdin1 (p, s1) ins1)
  = fst (main_loop pass sendres skip2 stdin2 (p, s2) ins2)
  /\ sim (snd (main_loop pass sendres skip1 stdin1 (p, s1) ins1))
         (snd (main_loop pass sendres skip2 stdin2 (p, s2) ins2)).
Proof.
  unfold main_loop.
  induction 1 as [|i1 i2 ins1 ins2 Hi Hins IH]; intros p s1 s2 H.
  - split; [reflexivity|exact H].
  - cbn [fold_left].
    destruct (main_step_sim pass sendres skip1 skip2 stdin1 stdin2 p s1 s2 i1 i2 Hi H) as [Hp Hs].
    destruct (main_step pass sendres skip1 stdin1 (p, s1) i1) as [p1 s1'].
    destruct (main_step pass sendres skip2 stdin2 (p, s2) i2) as [p2 s2'].
    cbn [fst snd] in Hp, Hs. subst p2. apply IH. exact Hs.
Qed.

Lemma init_state_sim x1 id1 x2 id2 : sim (init_state x1 id1) (init_state x2 id2).
Proof.
  split; [reflexivity|]. unfold config_ok, init_state. cbn [stop_writing result].
  split; [destruct x1|destruct x2]; intros H; try reflexivity; contradiction.
Qed.

Lemma wire_delivered t : wire t = delivered (attempts t).
Proof.
  induction t as [|a t IH]; [reflexivity|].
  destruct a; cbn [wire attempts delivered]; rewrite ?IH; reflexivity.
Qed.

(** C8.  Two instances of the program, started in the initial state and
    fed the same events in the same wake-ups while the remote side
    answers the [send] calls alike, make the same [send] calls with the
    same bytes in the same order, and the same packets go through.  The
    two may differ in what the command line and the X11 device list set
    ([-x], [-s], the device number) and in what the stack holds where
    [hidrep] is placed. *)
Theorem C8_two_run_determinism pass sendres skip1 skip2 stdin1 stdin2 x1 id1 x2 id2 ins1 ins2 :
  Forall2 same_input ins1 ins2 ->
  let r1 := main_loop pass sendres skip1 stdin1 (Idle, init_state x1 id1) ins1 in
  let r2 := main_loop pass sendres skip2 stdin2 (Idle, init_state x2 id2) ins2 in
  attempts (trace (snd r1)) = attempts (trace (snd r2))
  /\ wire (trace (snd r1)) = wire (trace (snd r2))
  /\ fst r1 = fst r2.
Proof.
  intros Hins r1 r2.
  destruct (main_loop_sim pass sendres skip1 skip2 stdin1 stdin2 ins1 ins2 Hins Idle
              (init_state x1 id1) (init_state x2 id2) (init_state_sim x1 id1 x2 id2))
    as [Hp (Hobs & _)].
  fold r1 in Hp, Hobs. fold r2 in Hp, Hobs.
  assert (Hat : attempts (trace (snd r1)) = attempts (trace (snd r2))).
  { unfold observable in Hobs. congruence. }
  split; [exact Hat|]. split; [|exact Hp].
  rewrite !wire_delivered, Hat. reflexivity.
Qed.

Lemma C8_witness :
  let r1 := main_loop [] all_sent false quiet_stdin (Idle, init_state true 7) run_one in
  let r2 := main_loop [] all_sent true quiet_stdin (Idle, init_state false 0) run_two in
  attempts (trace (snd r1)) = attempts (trace (snd r2))
  /\ wire (trace (snd r1)) = wire (trace (snd r2))
  /\ fst r1 = fst r2.
Proof.
  apply (C8_two_run_determinism [] all_sent false true quiet_stdin quiet_stdin true 7 false 0
           run_one run_two).
  unfold run_one, run_two, connect, typing_events. cbn [app map].
  repeat constructor.
Defined.

(** C1, what the code does.  With a [pass] whose first key is the usage
    0x1E, the keys A and 1 held, and the burst triggered while its first
    [send] fails: the burst has written 0x1E over slot 0, the report it
    assembles carries the usage 0x1E twice, and the early [return -1]
    leaves [pressedkey] with two equal entries. *)
Theorem C1_burst_duplicates :
  let pass := [(0, 0x1E)] in
  let before := main_loop pass (fails_at 5) false quiet_stdin (Idle, init_state false 0)
                  (removelast hold_a_1_type_pass) in
  let after := main_loop pass (fails_at 5) false quiet_stdin (Idle, init_state false 0)
                 hold_a_1_type_pass in
  fst before = Connected
  /\ pressedkey (snd before) = [0x18; 0x1E; 0; 0; 0; 0; 0; 0]
  /\ pressedkey (snd after) = [0x1E; 0x1E; 0; 0; 0; 0; 0; 0]
  /\ new_actions (snd before) (snd after)
     = [Report AtBurst [0xA1; 2; 0; 0x1E; 0x1E; 0; 0; 0; 0; 0; 0];
        Send AtBurst [0xA1; 2; 0; 0x1E; 0x1E; 0; 0; 0; 0; 0; 0] (-1);
        Close Sint; Close Sctl; Notice; Sleep 500000].
Proof. vm_compute. repeat split. Qed.

(** ** The pressed-key array under ordinary keys

    Outside the burst the array keeps the shape the specification gives
    it, in every run in which no [send] of the burst fails. *)

Lemma length_8 (pk : list Z) :
  length pk = 8%nat ->
  exists x0 x1 x2 x3 x4 x5 x6 x7, pk = [x0; x1; x2; x3; x4; x5; x6; x7].
Proof.
  intros H.
  do 8 (destruct pk as [|? pk]; [discriminate H|]).
  destruct pk; [|discriminate H]. repeat eexists.
Qed.

Lemma key_down_insert p pk :
  length pk = 8%nat -> fst (key_down 8 0 p pk) = insert_key p pk.
Proof.
  intros H. destruct (length_8 pk H) as (x0 & x1 & x2 & x3 & x4 & x5 & x6 & x7 & ->).
  cbn [key_down insert_key].
  change (rd [x0; x1; x2; x3; x4; x5; x6; x7] 0) with x0.
  destruct (x0 =? 0); [reflexivity|]. destruct (x0 =? p); [reflexivity|].
  change (rd [x0; x1; x2; x3; x4; x5; x6; x7] 1) with x1.
  destruct (x1 =? 0); [reflexivity|]. destruct (x1 =? p); [reflexivity|].
  change (rd [x0; x1; x2; x3; x4; x5; x6; x7] 2) with x2.
  destruct (x2 =? 0); [reflexivity|]. destruct (x2 =? p); [reflexivity|].
  change (rd [x0; x1; x2; x3; x4; x5; x6; x7] 3) with x3.
  destruct (x3 =? 0); [reflexivity|]. destruct (x3 =? p); [reflexivity|].
  change (rd [x0; x1; x2; x3; x4; x5; x6; x7] 4) with x4.
  destruct (x4 =? 0); [reflexivity|]. destruct (x4 =? p); [reflexivity|].
  change (rd [x0; x1; x2; x3; x4; x5; x6; x7] 5) with x5.
  destruct (x5 =? 0); [reflexivity|]. destruct (x5 =? p); [reflexivity|].
  change (rd [x0; x1; x2; x3; x4; x5; x6; x7] 6) with x6.
  destruct (x6 =? 0); [reflexivity|]. destruct (x6 =? p); [reflexivity|].
  change (rd [x0; x1; x2; x3; x4; x5; x6; x7] 7) with x7.
  destruct (x7 =? 0); [reflexivity|]. destruct (x7 =? p); reflexivity.
Qed.

Lemma key_up_remove p pk :
  length pk = 8%nat -> fst (key_up 8 0 p pk) = remove_key p pk.
Proof.
  intros H. destruct (length_8 pk H) as (x0 & x1 & x2 & x3 & x4 & x5 & x6 & x7 & ->).
  cbn [key_up remove_key].
  change (rd [x0; x1; x2; x3; x4; x5; x6; x7] 0) with x0.
  destruct (x0 =? p); [reflexivity|].
  change (rd [x0; x1; x2; x3; x4; x5; x6; x7] 1) with x1.
  destruct (x1 =? p); [reflexivity|].
  change (rd [x0; x1; x2; x3; x4; x5; x6; x7] 2) with x2.
  destruct (x2 =? p); [reflexivity|].
  change (rd [x0; x1; x2; x3; x4; x5; x6; x7] 3) with x3.
  destruct (x3 =? p); [reflexivity|].
  change (rd [x0; x1; x2; x3; x4; x5; x6; x7] 4) with x4.
  destruct (x4 =? p); [reflexivity|].
  change (rd [x0; x1; x2; x3; x4; x5; x6; x7] 5) with x5.
  destruct (x5 =? p); [reflexivity|].
  change (rd [x0; x1; x2; x3; x4; x5; x6; x7] 6) with x6.
  destruct (x6 =? p); [reflexivity|].
  change (rd [x0; x1; x2; x3; x4; x5; x6; x7] 7) with x7.
  destruct (x7 =? p); reflexivity.
Qed.

Lemma used_cons x pk : used (x :: pk) = if x =? 0 then used pk else x :: used pk.
Proof.
  unfold used. rewrite filter_cons.
  destruct (Z.eqb_spec x 0) as [E|E]; destruct (decide (x <> 0));
    first [reflexivity | contradiction].
Qed.

Lemma elem_of_used x pk : x ∈ used pk <-> x <> 0 /\ x ∈ pk.
Proof. unfold used. apply (list_elem_of_filter (fun x => x <> 0)). Qed.

Lemma filter_all (P : Z -> Prop) `{forall x, Decision (P x)} (l : list Z) :
  Forall P l -> filter P l = l.
Proof.
  induction 1 as [|x l Hx Hl IH]; [reflexivity|].
  rewrite filter_cons_True by exact Hx. rewrite IH. reflexivity.
Qed.

Lemma used_zeros pk : forallb (Z.eqb 0) pk = true -> used pk = [].
Proof.
  induction pk as [|x pk IH]; [reflexivity|].
  cbn [forallb]. intros H. apply andb_true_iff in H as [Hx H].
  apply Z.eqb_eq in Hx. subst x. rewrite used_cons. cbn. apply IH, H.
Qed.

Lemma zeros_compact pk : forallb (Z.eqb 0) pk = true -> compactb pk = true.
Proof.
  induction pk as [|x pk IH]; [reflexivity|].
  cbn [forallb compactb]. intros H. apply andb_true_iff in H as [Hx H].
  apply Z.eqb_eq in Hx. subst x. cbn. exact H.
Qed.

Lemma length_insert_key p pk : length (insert_key p pk) = length pk.
Proof.
  induction pk as [|x pk IH]; [reflexivity|]. cbn [insert_key].
  destruct (x =? 0); [reflexivity|]. destruct (x =? p); [reflexivity|].
  cbn [length]. rewrite IH. reflexivity.
Qed.

Lemma length_remove_key p pk : length (remove_key p pk) = length pk.
Proof.
  induction pk as [|x pk IH]; [reflexivity|]. cbn [remove_key].
  destruct (x =? p); cbn [length]; [rewrite length_app; cbn [length]; lia|].
  rewrite IH. reflexivity.
Qed.

(** A key that is already reported is not entered again. *)
Lemma insert_key_present p pk :
  compactb pk = true -> p ∈ used pk -> insert_key p pk = pk.
Proof.
  induction pk as [|x pk IH]; intros Hc Hin; [reflexivity|].
  cbn [insert_key compactb] in *. destruct (Z.eqb_spec x 0) as [E|E].
  - subst x. rewrite used_cons in Hin. cbn in Hin.
    rewrite used_zeros in Hin by exact Hc. inversion Hin.
  - destruct (Z.eqb_spec x p) as [Ep|Ep]; [reflexivity|].
    rewrite used_cons in Hin. destruct (Z.eqb_spec x 0); [contradiction|].
    apply elem_of_cons in Hin as [Hin|Hin]; [congruence|].
    rewrite IH by assumption. reflexivity.
Qed.

(** With all 8 slots taken a further key is dropped. *)
Lemma insert_key_full p pk : 0 ∉ pk -> p ∉ pk -> insert_key p pk = pk.
Proof.
  induction pk as [|x pk IH]; intros H0 Hp; [reflexivity|].
  cbn [insert_key]. apply not_elem_of_cons in H0 as [Hx0 H0].
  apply not_elem_of_cons in Hp as [Hxp Hp].
  destruct (Z.eqb_spec x 0); [congruence|].
  destruct (Z.eqb_spec x p); [reflexivity|]. rewrite IH by assumption. reflexivity.
Qed.

(** A new key goes behind the keys already reported. *)
Lemma insert_key_room p pk :
  compactb pk = true -> p <> 0 -> to_schar p = p -> p ∉ used pk -> 0 ∈ pk ->
  used (insert_key p pk) = used pk ++ [p]
  /\ compactb (insert_key p pk) = true.
Proof.
  intros Hc Hp0 Hps. induction pk as [|x pk IH]; intros Hnin H0; [inversion H0|].
  cbn [insert_key compactb] in *. rewrite used_cons in Hnin |- *.
  destruct (Z.eqb_spec x 0) as [E|E].
  - rewrite Hps, used_cons. destruct (Z.eqb_spec p 0); [contradiction|].
    rewrite used_zeros by exact Hc. split; [reflexivity|].
    cbn [compactb]. destruct (Z.eqb_spec p 0); [contradiction|].
    apply zeros_compact. exact Hc.
  - apply not_elem_of_cons in Hnin as [Hpx Hnin].
    destruct (Z.eqb_spec x p) as [Ep|Ep]; [congruence|].
    apply elem_of_cons in H0 as [H0|H0]; [congruence|].
    destruct (IH Hc Hnin H0) as [Hu Hcc].
    rewrite used_cons. destruct (Z.eqb_spec x 0); [contradiction|].
    rewrite Hu. split; [reflexivity|].
    cbn [compactb]. destruct (Z.eqb_spec x 0); [contradiction|]. exact Hcc.
Qed.

(** Releasing a key that is not reported changes nothing. *)
Lemma remove_key_absent p pk : p <> 0 -> p ∉ used pk -> remove_key p pk = pk.
Proof.
  intros Hp0. induction pk as [|x pk IH]; intros Hnin; [reflexivity|].
  cbn [remove_key]. rewrite used_cons in Hnin.
  destruct (Z.eqb_spec x p) as [Ep|Ep].
  - subst x. destruct (Z.eqb_spec p 0); [contradiction|].
    exfalso. apply Hnin. left.
  - rewrite IH; [reflexivity|]. destruct (x =? 0); [exact Hnin|].
    apply not_elem_of_cons in Hnin. apply Hnin.
Qed.

Lemma used_app_zero pk : used (pk ++ [0]) = used pk.
Proof.
  unfold used. rewrite filter_app.
  rewrite (filter_cons_False (fun x => x <> 0) 0 []) by (intros H; apply H; reflexivity).
  rewrite filter_nil. apply app_nil_r.
Qed.

Lemma compactb_app_zero pk : compactb pk = true -> compactb (pk ++ [0]) = true.
Proof.
  induction pk as [|x pk IH]; [reflexivity|]. cbn [app compactb].
  destruct (x =? 0); [|exact IH].
  intros H. rewrite forallb_app, H. reflexivity.
Qed.

(** Releasing a reported key takes it out and moves the later keys one
    slot down, in their order. *)
Lemma remove_key_present p pk :
  compactb pk = true -> NoDup (used pk) -> p <> 0 ->
  used (remove_key p pk) = filter (fun x => x <> p) (used pk)
  /\ compactb (remove_key p pk) = true.
Proof.
  intros Hc Hnd Hp0. induction pk as [|x pk IH]; [split; reflexivity|].
  cbn [remove_key compactb] in *. rewrite used_cons in Hnd |- *.
  destruct (Z.eqb_spec x p) as [Ep|Ep].
  - subst x. destruct (Z.eqb_spec p 0); [contradiction|].
    apply NoDup_cons in Hnd as [Hnin Hnd].
    rewrite used_app_zero.
    rewrite filter_cons_False by (intros H; apply H; reflexivity).
    split; [|apply compactb_app_zero; exact Hc].
    symmetry. apply filter_all.
    apply Forall_forall. intros y Hy ->. contradiction.
  - destruct (Z.eqb_spec x 0) as [E|E].
    + subst x. rewrite remove_key_absent.
      * rewrite used_cons. cbn. rewrite used_zeros by exact Hc.
        split; [reflexivity|]. cbn [compactb]. exact Hc.
      * exact Hp0.
      * rewrite used_zeros by exact Hc. inversion 1.
    + apply NoDup_cons in Hnd as [Hnin Hnd].
      destruct (IH Hc Hnd) as [Hu Hcc].
      rewrite used_cons. destruct (Z.eqb_spec x 0); [contradiction|].
      rewrite filter_cons_True by exact Ep. rewrite Hu.
      split; [reflexivity|]. cbn [compactb].
      destruct (Z.eqb_spec x 0); [contradiction|]. exact Hcc.
Qed.

Lemma pressedkey_ok_zeros8 : pressedkey_ok zeros8.
Proof.
  split; [reflexivity|]. split; [reflexivity|]. apply NoDup_nil_2.
Qed.

(** Every usage of [chars] fits a [char]. *)
Lemma chars_usage_bound u layer : 0 <= snd (chars_at u layer) < 128.
Proof.
  assert (Hall : Forall (fun row => Forall (fun e => 0 <= snd e < 128) row) chars).
  { assert (Hb : forallb (forallb (fun e => (0 <=? snd e) && (snd e <? 128))) chars = true)
      by (vm_compute; reflexivity).
    apply Forall_forall. intros row Hrow.
    rewrite forallb_forall in Hb. apply list_elem_of_In in Hrow.
    specialize (Hb row Hrow). apply Forall_forall. intros e He.
    rewrite forallb_forall in Hb. apply list_elem_of_In in He.
    specialize (Hb e He). apply andb_true_iff in Hb as [H1 H2].
    apply Z.leb_le in H1. apply Z.ltb_lt in H2. lia. }
  unfold chars_at.
  destruct (chars !! Z.to_nat u) as [row|] eqn:Erow.
  - change (default [] (Some row)) with row.
    destruct (row !! Z.to_nat layer) as [e|] eqn:Ee.
    + change (default (0, 0) (Some e)) with e.
      rewrite Forall_forall in Hall.
      specialize (Hall row (list_elem_of_lookup_2 _ _ _ Erow)).
      rewrite Forall_forall in Hall. apply Hall.
      apply (list_elem_of_lookup_2 _ _ _ Ee).
    + change (snd (default (0, 0) (@None (Z * Z)))) with 0. clear. lia.
  - change (default [] (@None (list (Z * Z)))) with (@nil (Z * Z)).
    rewrite lookup_nil.
    change (snd (default (0, 0) (@None (Z * Z)))) with 0. clear. lia.
Qed.

Lemma key_down_ok p pk :
  0 <= p < 128 -> pressedkey_ok pk -> pressedkey_ok (fst (key_down 8 0 p pk)).
Proof.
  intros Hp (Hlen & Hc & Hnd). rewrite key_down_insert by exact Hlen.
  destruct (Z.eq_dec p 0) as [->|Hp0].
  - rewrite <- key_down_insert by exact Hlen. rewrite key_down_zero.
    split; [|split]; assumption.
  - destruct (decide (p ∈ used pk)) as [Hin|Hnin].
    + rewrite insert_key_present by assumption. split; [|split]; assumption.
    + destruct (decide (0 ∈ pk)) as [H0|H0].
      * destruct (insert_key_room p pk Hc Hp0 (to_schar_small p ltac:(lia)) Hnin H0)
          as [Hu Hcc].
        split; [rewrite length_insert_key; exact Hlen|]. split; [exact Hcc|].
        rewrite Hu. apply NoDup_app. split; [exact Hnd|].
        split; [|apply NoDup_singleton].
        intros x Hx Hx'. apply list_elem_of_singleton in Hx'. subst x. contradiction.
      * rewrite insert_key_full; [split; [|split]; assumption|exact H0|].
        intros Hin. apply Hnin. apply elem_of_used. split; assumption.
Qed.

Lemma key_up_ok p pk : pressedkey_ok pk -> pressedkey_ok (fst (key_up 8 0 p pk)).
Proof.
  intros (Hlen & Hc & Hnd).
  destruct (Z.eq_dec p 0) as [->|Hp0].
  - rewrite key_up_zero; [split; [|split]; assumption|reflexivity|].
    apply compactb_spec. exact Hc.
  - rewrite key_up_remove by exact Hlen.
    destruct (remove_key_present p pk Hc Hnd Hp0) as [Hu Hcc].
    split; [rewrite length_remove_key; exact Hlen|]. split; [exact Hcc|].
    rewrite Hu. apply NoDup_filter. exact Hnd.
Qed.

Lemma update_keys_ok value p j pk :
  0 <= p < 128 -> pressedkey_ok pk -> pressedkey_ok (fst (update_keys value p j pk)).
Proof.
  intros Hp Hok. unfold update_keys.
  destruct (value =? 1); [apply key_down_ok; assumption|].
  destruct (value =? 0); [apply key_up_ok; assumption|exact Hok].
Qed.

Lemma key_common_pressedkey_ok sendres hidrep j m s u pressedmod value :
  pressedkey_ok (pressedkey s) ->
  pressedkey_ok (pressedkey (snd (fst (key_common sendres hidrep j m s u pressedmod value)))).
Proof.
  intros Hok.
  destruct (key_common_report sendres hidrep j m s u pressedmod value) as (_ & _ & Hpk).
  rewrite Hpk. apply update_keys_ok; [apply chars_usage_bound|exact Hok].
Qed.

Lemma keys_step_refl s : keys_step s s.
Proof. exists []. split; [symmetry; apply app_nil_r|]. auto. Qed.

Lemma keys_step_trans s s1 s2 : keys_step s s1 -> keys_step s1 s2 -> keys_step s s2.
Proof.
  intros (a1 & Ht1 & H1) (a2 & Ht2 & H2). exists (a1 ++ a2).
  split; [rewrite Ht2, Ht1, app_assoc; reflexivity|].
  rewrite existsb_app. intros Hq Hok. apply orb_false_iff in Hq as [Hq1 Hq2]. auto.
Qed.

Lemma step_ok_ext s s' f : step_ok s s' f -> exists acts, trace s' = trace s ++ acts.
Proof. intros (_ & _ & acts & Ht & _). exists acts. exact Ht. Qed.

Lemma keys_step_keep s s' f :
  step_ok s s' f ->
  (pressedkey_ok (pressedkey s) -> pressedkey_ok (pressedkey s')) ->
  keys_step s s'.
Proof.
  intros Hs Hk. destruct (step_ok_ext _ _ _ Hs) as [acts Ht].
  exists acts. split; [exact Ht|]. auto.
Qed.

Lemma mouse_button_pressedkey sendres hidrep s ev :
  pressedkey (snd (fst (mouse_button sendres hidrep s ev))) = pressedkey s.
Proof.
  unfold mouse_button. trace_norm.
  destruct (connectionok s =? 0); [reflexivity|].
  destruct (1 >? _); reflexivity.
Qed.

Lemma ev_rel_pressedkey sendres hidrep s ev :
  pressedkey (snd (fst (ev_rel sendres hidrep s ev))) = pressedkey s.
Proof.
  unfold ev_rel. destruct (is_axis (ev_code ev)); [|reflexivity]. trace_norm.
  destruct (connectionok s =? 0); [reflexivity|].
  destruct (1 >? _); reflexivity.
Qed.

(** The burst leaves the array as it was but for slot 0, and when it is
    left by [return] a [send] of the burst has failed. *)
Lemma burst_keys sendres l : forall hidrep j m s h' s' f,
  1 <= j ->
  burst sendres l hidrep j m s = (h', s', f) ->
  exists acts, trace s' = trace s ++ acts
    /\ match f with
       | Fall _ _ => <[0%nat := 0]> (pressedkey s') = <[0%nat := 0]> (pressedkey s)
       | Ret _ => existsb burst_fail acts = true
       | Halt => False
       end.
Proof.
  induction l as [|[modify k] rest IH]; intros hidrep j m s h' s' f Hj; cbn [burst].
  - intros [= <- <- <-]. exists []. split; [symmetry; apply app_nil_r|reflexivity].
  - trace_norm. destruct (connectionok s =? 0).
    + intros [= <- <- <-]. trace_norm. eexists. split; [reflexivity|].
      apply list_insert_insert_eq.
    + assert (Hrec : forall hb jb mb sb a1,
                1 <= jb ->
                trace sb = trace s ++ a1 ->
                <[0%nat := 0]> (pressedkey sb) = <[0%nat := 0]> (pressedkey s) ->
                burst sendres rest hb jb mb sb = (h', s', f) ->
                exists acts, trace s' = trace s ++ acts
                  /\ match f with
                     | Fall _ _ => <[0%nat := 0]> (pressedkey s') = <[0%nat := 0]> (pressedkey s)
                     | Ret _ => existsb burst_fail acts = true
                     | Halt => False
                     end).
      { intros hb jb mb sb a1 Hjb Hta Hpa Hb.
        destruct (IH hb jb mb sb h' s' f Hjb Hb) as (a2 & Ht2 & H2).
        exists (a1 ++ a2). split; [rewrite Ht2, Hta, app_assoc; reflexivity|].
        destruct f; [congruence| |exact H2].
        rewrite existsb_app, H2. apply orb_true_r. }
      destruct (on s =? 0).
      * assert (Hg : (1 >? j) = false) by (rewrite Z.gtb_ltb; apply Z.ltb_ge; exact Hj).
        rewrite Hg. apply Hrec with (a1 := [Report AtBurst
          (peek_bytes (put_keyb hidrep modify
             (key_bytes (<[0%nat := to_schar k]> (pressedkey s)))) sizeof_keyb)]).
        -- exact Hj.
        -- reflexivity.
        -- apply list_insert_insert_eq.
      * trace_norm.
        match goal with
        | |- context [1 >? ?r] => destruct (1 >? r) eqn:Hr
        end.
        -- intros [= <- <- <-]. trace_norm. eexists. split; [reflexivity|].
           cbn [existsb burst_fail]. rewrite Hr. reflexivity.
        -- eapply Hrec.
           ++ apply gtb_false_le. exact Hr.
           ++ trace_norm. reflexivity.
           ++ apply list_insert_insert_eq.
Qed.

(** After a burst that went through, the common path closes slot 0. *)
Lemma key_up_after_burst pk :
  pressedkey_ok pk -> pressedkey_ok (fst (key_up 8 0 0 (<[0%nat := 0]> pk))).
Proof.
  intros (Hlen & Hc & Hnd).
  destruct (length_8 pk Hlen) as (x0 & x1 & x2 & x3 & x4 & x5 & x6 & x7 & ->).
  change (<[0%nat := 0]> [x0; x1; x2; x3; x4; x5; x6; x7])
    with [0; x1; x2; x3; x4; x5; x6; x7].
  rewrite key_up_remove by reflexivity.
  change (remove_key 0 [0; x1; x2; x3; x4; x5; x6; x7])
    with ([x1; x2; x3; x4; x5; x6; x7] ++ [0]).
  assert (Hct : compactb [x1; x2; x3; x4; x5; x6; x7] = true).
  { cbn [compactb] in Hc. destruct (x0 =? 0); [apply zeros_compact|]; exact Hc. }
  split; [reflexivity|]. split; [apply compactb_app_zero; exact Hct|].
  rewrite used_app_zero. rewrite used_cons in Hnd.
  destruct (x0 =? 0); [exact Hnd|]. apply NoDup_cons in Hnd. apply Hnd.
Qed.

Lemma sysrq_common_keys pass sendres hidrep s ev h' s' f :
  ev_code ev = KEY_SYSRQ ->
  match sysrq pass sendres hidrep s ev with
  | (hidrep, s, Fall j m) => key_common sendres hidrep j m s 1 0 (ev_value ev)
  | r => r
  end = (h', s', f) ->
  existsb burst_fail (new_actions s s') = false ->
  pressedkey_ok (pressedkey s) -> pressedkey_ok (pressedkey s').
Proof.
  intros Hcode. unfold sysrq. destruct (ev_value ev =? 0) eqn:Hv.
  2:{ intros H _ Hok.
      pose proof (key_common_pressedkey_ok sendres hidrep sizeof_input_event 0 s 1 0
                    (ev_value ev) Hok) as Hk.
      rewrite H in Hk. exact Hk. }
  apply Z.eqb_eq in Hv.
  destruct (Z.land (modifierkeys s) 1 =? 1).
  - (* exit *)
    destruct (connectionok s =? 0); trace_norm;
      destruct (result s); intros [= <- <- <-] _ Hok; exact Hok.
  - destruct (Z.land (modifierkeys s) 16 =? 16).
    + (* burst *)
      destruct (burst sendres pass hidrep sizeof_input_event 0 s) as [[hb sb] fb] eqn:Hb.
      apply burst_keys in Hb; [|unfold sizeof_input_event; lia].
      destruct Hb as (acts & Ht & Hb). destruct fb; [| |contradiction].
      * intros H _ Hok.
        destruct (key_common_report sendres hb j modify
                    (set_pressedkey (<[0%nat := 0]> (pressedkey sb)) sb) 1 0
                    (ev_value ev)) as (_ & _ & Hpk).
        rewrite H in Hpk. cbn [fst snd] in Hpk. rewrite Hpk.
        rewrite chars_at_1. cbn [snd]. trace_norm. rewrite Hb, Hv.
        unfold update_keys. change (0 =? 1) with false. change (0 =? 0) with true.
        cbn iota. apply key_up_after_burst. exact Hok.
      * intros [= <- <- <-] Hq. rewrite (new_actions_app _ _ _ Ht) in Hq. congruence.
    + (* toggle *)
      trace_norm.
      assert (Hcommon : forall hb sb,
                pressedkey sb = pressedkey s ->
                key_common sendres hb sizeof_input_event 0 sb 1 0 (ev_value ev) = (h', s', f) ->
                existsb burst_fail (new_actions s s') = false ->
                pressedkey_ok (pressedkey s) -> pressedkey_ok (pressedkey s')).
      { intros hb sb Hsame H _ Hok. rewrite <- Hsame in Hok.
        pose proof (key_common_pressedkey_ok sendres hb sizeof_input_event 0 sb 1 0
                      (ev_value ev) Hok) as Hk.
        rewrite H in Hk. exact Hk. }
      destruct (stop_writing s =? 0); [apply Hcommon; reflexivity|].
      destruct (id s =? 0); [apply Hcommon; reflexivity|].
      destruct (result s); [apply Hcommon; reflexivity|].
      intros [= <- <- <-] _ Hok. exact Hok.
Qed.

Lemma handle_event_keys pass sendres hidrep s ev h' s' f :
  handle_event pass sendres hidrep s ev = (h', s', f) -> keys_step s s'.
Proof.
  intros H. pose proof (handle_event_ok _ _ _ _ _ _ _ _ H) as Hs.
  destruct (step_ok_ext _ _ _ Hs) as [acts Ht].
  exists acts. split; [exact Ht|]. rewrite <- (new_actions_app _ _ _ Ht).
  clear Hs Ht acts. revert H. unfold handle_event.
  destruct (ev_type ev =? EV_KEY).
  - unfold ev_key. destruct (is_button (ev_code ev)).
    + pose proof (mouse_button_pressedkey sendres hidrep s ev) as Hmb.
      destruct (mouse_button sendres hidrep s ev) as [[h1 s1] f1].
      cbn [fst snd] in Hmb.
      destruct f1; [|intros [= <- <- <-] _ Hok; rewrite Hmb; exact Hok..].
      intros H _ Hok. rewrite <- Hmb in Hok.
      pose proof (key_common_pressedkey_ok sendres h1 j modify s1 1 0 (ev_value ev) Hok) as Hk.
      rewrite H in Hk. exact Hk.
    + destruct (ev_code ev =? KEY_SYSRQ) eqn:Hsys.
      * apply Z.eqb_eq in Hsys. apply sysrq_common_keys. exact Hsys.
      * intros H _ Hok.
        pose proof (key_common_pressedkey_ok sendres hidrep sizeof_input_event 0 s
                      (key_index (ev_code ev)) (pressedmod_of (ev_code ev))
                      (ev_value ev) Hok) as Hk.
        rewrite H in Hk. exact Hk.
  - destruct (ev_type ev =? EV_REL).
    + intros H _ Hok. pose proof (ev_rel_pressedkey sendres hidrep s ev) as Hk.
      rewrite H in Hk. cbn [fst snd] in Hk. rewrite Hk. exact Hok.
    + intros [= <- <- <-] _ Hok. exact Hok.
Qed.

Lemma parse_loop_keys pass sendres evs : forall hidrep s s' r,
  parse_loop pass sendres evs hidrep s = (s', r) -> keys_step s s'.
Proof.
  induction evs as [|ev evs IH]; intros hidrep s s' r; cbn [parse_loop].
  - intros [= <- <-]. apply keys_step_refl.
  - destruct (handle_event pass sendres hidrep s ev) as [[h1 s1] f1] eqn:Hh.
    apply handle_event_keys in Hh.
    destruct f1; [|intros [= <- <-]; exact Hh..].
    intros H. apply IH in H. eapply keys_step_trans; eassumption.
Qed.

(** State updates that send nothing and bring the array into shape or
    leave it. *)
Lemma keys_step_plain s s' acts :
  trace s' = trace s ++ acts ->
  (pressedkey s' = pressedkey s \/ pressedkey s' = zeros8) ->
  keys_step s s'.
Proof.
  intros Ht Hk. exists acts. split; [exact Ht|]. intros _ Hok.
  destruct Hk as [->| ->]; [exact Hok|apply pressedkey_ok_zeros8].
Qed.

Ltac plain_keys :=
  eapply keys_step_plain;
  [ trace_norm; first [reflexivity | symmetry; apply app_nil_r]
  | first [left; reflexivity | right; reflexivity] ].

Lemma drain_keys pass sendres w s : keys_step s (drain pass sendres w s).
Proof.
  unfold drain. destruct (parse_events pass sendres w s) as [s1 r] eqn:Hpe.
  apply parse_loop_keys in Hpe.
  destruct (running s1); [|exact Hpe].
  destruct (-1 >? r); [|exact Hpe].
  eapply keys_step_trans; [exact Hpe|]. plain_keys.
Qed.

Lemma pump_keys pass sendres w s : keys_step s (pump pass sendres w s).
Proof.
  unfold pump. destruct (parse_events pass sendres w s) as [s1 r] eqn:Hpe.
  apply parse_loop_keys in Hpe.
  destruct (running s1); [|exact Hpe].
  destruct (0 >? r); [|exact Hpe].
  eapply keys_step_trans; [exact Hpe|].
  destruct (r <? -1); plain_keys.
Qed.

Lemma loop_top_keys skipsdp stdin s : keys_step s (snd (loop_top skipsdp stdin s)).
Proof.
  unfold loop_top. destruct (prepareshutdown s =? 0); cbn [snd].
  - apply keys_step_refl.
  - unfold shutdown. destruct skipsdp, (cleanup_stdin false stdin); plain_keys.
Qed.

Lemma main_step_keys pass sendres skipsdp stdin p s i :
  keys_step s (snd (main_step pass sendres skipsdp stdin (p, s) i)).
Proof.
  unfold main_step. destruct (running s); [|apply keys_step_refl].
  destruct i as [w| | | |n].
  - destruct p.
    + pose proof (drain_keys pass sendres w s) as Hd.
      destruct (running (drain pass sendres w s)); [|exact Hd].
      eapply keys_step_trans; [exact Hd|apply loop_top_keys].
    + apply drain_keys.
    + pose proof (pump_keys pass sendres w s) as Hp.
      destruct (running (pump pass sendres w s)); [|exact Hp].
      destruct (connectionok (pump pass sendres w s) =? 0); [|exact Hp].
      eapply keys_step_trans; [exact Hp|].
      eapply keys_step_trans; [|apply loop_top_keys].
      unfold session_end. plain_keys.
  - destruct p; cbn [snd]; try apply keys_step_refl.
    destruct (prepareshutdown s =? 0); cbn [snd].
    + unfold session_start. plain_keys.
    + unfold shutdown. destruct skipsdp, (cleanup_stdin false stdin); plain_keys.
  - destruct p; cbn [snd]; try apply keys_step_refl. plain_keys.
  - destruct p; cbn [snd]; try apply keys_step_refl.
    eapply keys_step_trans; [|apply loop_top_keys]. plain_keys.
  - assert (Hs : keys_step s (onsignal n s)).
    { unfold onsignal. destruct (n =? SIGINT).
      - destruct (connectionok s =? 0); [plain_keys|apply keys_step_refl].
      - destruct ((n =? SIGTERM) || (n =? SIGHUP)); [plain_keys|apply keys_step_refl]. }
    destruct p; cbn [snd]; try exact Hs.
    eapply keys_step_trans; [exact Hs|apply loop_top_keys].
Qed.

(** In every run of the program in which no [send] of the burst fails,
    the pressed-key array has 8 slots, its used slots first, and no
    usage twice; a connection starts from the empty array. *)
Lemma pressedkey_ok_run pass sendres skipsdp stdin x11 id0 ins :
  let s := snd (main_loop pass sendres skipsdp stdin (Idle, init_state x11 id0) ins) in
  existsb burst_fail (trace s) = false -> pressedkey_ok (pressedkey s).
Proof.
  intros s.
  assert (H : keys_step (init_state x11 id0) s).
  { subst s. unfold main_loop.
    generalize (init_state x11 id0) as s0. generalize Idle as p.
    induction ins as [|i ins IH]; intros p s0; [apply keys_step_refl|].
    cbn [fold_left].
    pose proof (main_step_keys pass sendres skipsdp stdin p s0 i) as Hstep.
    destruct (main_step pass sendres skipsdp stdin (p, s0) i) as [p1 s1].
    eapply keys_step_trans; [exact Hstep|apply IH]. }
  destruct H as (acts & Ht & H). cbn [trace init_state app] in Ht.
  rewrite Ht. intros Hq. apply H; [exact Hq|apply pressedkey_ok_zeros8].
Qed.

Lemma session_start_pressedkey s : pressedkey (session_start s) = zeros8.
Proof. reflexivity. Qed.

(** * Further properties of the translator

    ** The pressed-key array, event by event *)

Lemma used_length_le pk : (length (used pk) <= length pk)%nat.
Proof.
  induction pk as [|x pk IH]; [reflexivity|]. rewrite used_cons.
  destruct (x =? 0); cbn [length]; lia.
Qed.

(** A slot is free exactly when fewer keys are reported than there are
    slots. *)
Lemma used_full pk : 0 ∈ pk <-> (length (used pk) < length pk)%nat.
Proof.
  induction pk as [|x pk IH].
  - split; [inversion 1|cbn; lia].
  - rewrite used_cons, elem_of_cons. pose proof (used_length_le pk) as Hle.
    destruct (Z.eqb_spec x 0) as [E|E]; cbn [length].
    + split; [lia|]. intros _. left. congruence.
    + rewrite IH. split; [intros [H|H]; [congruence|lia]|]. intros H. right. lia.
Qed.

Lemma zeros_snoc pk : forallb (Z.eqb 0) pk = true -> pk ++ [0] = 0 :: pk.
Proof.
  induction pk as [|x pk IH]; [reflexivity|]. cbn [forallb]. intros H.
  apply andb_true_iff in H as [Hx H]. apply Z.eqb_eq in Hx. subst x.
  cbn [app]. rewrite IH by exact H. reflexivity.
Qed.

Lemma remove_insert_key p pk :
  compactb pk = true -> to_schar p = p -> p ∉ used pk ->
  remove_key p (insert_key p pk) = pk.
Proof.
  intros Hc Hps. induction pk as [|x pk IH]; intros Hnin; [reflexivity|].
  cbn [insert_key compactb] in *. rewrite used_cons in Hnin.
  destruct (Z.eqb_spec x 0) as [E|E].
  - subst x. rewrite Hps. cbn [remove_key]. rewrite Z.eqb_refl.
    apply zeros_snoc. exact Hc.
  - apply not_elem_of_cons in Hnin as [Hpx Hnin].
    destruct (Z.eqb_spec x p) as [Ep|Ep]; [congruence|].
    cbn [remove_key]. destruct (Z.eqb_spec x p); [congruence|].
    rewrite IH by assumption. reflexivity.
Qed.

(** What an ordinary key event does to [modifierkeys] and [pressedkey]. *)
Lemma key_event_pressedkey pass sendres hidrep s code value :
  is_button code = false -> code <> KEY_SYSRQ ->
  let mk := update_modifiers (modifierkeys s) (pressedmod_of code) value in
  let p := snd (chars_at (key_index code) (neo_layer mk)) in
  let s' := snd (fst (handle_event pass sendres hidrep s (InputEvent EV_KEY code value))) in
  modifierkeys s' = mk
  /\ pressedkey s' = fst (update_keys value p sizeof_input_event (pressedkey s)).
Proof.
  intros Hbtn Hsys mk p s'. subst s'. rewrite handle_event_key by assumption.
  destruct (key_common_report sendres hidrep sizeof_input_event 0 s
              (key_index code) (pressedmod_of code) value) as (_ & Hmk & Hpk).
  split; assumption.
Qed.

(** Key down on a mapped entry (lines 1228-1244): a usage that is
    already reported is not entered again; otherwise it goes behind the
    usages reported so far when one of the 8 slots is free, and is
    dropped without a trace when all 8 are taken. *)
Theorem key_press_array pass sendres hidrep s code :
  is_button code = false -> code <> KEY_SYSRQ ->
  pressedkey_ok (pressedkey s) ->
  let mk := update_modifiers (modifierkeys s) (pressedmod_of code) 1 in
  let p := snd (chars_at (key_index code) (neo_layer mk)) in
  let s' := snd (fst (handle_event pass sendres hidrep s (InputEvent EV_KEY code 1))) in
  p <> 0 ->
  used (pressedkey s')
  = if decide (p ∈ used (pressedkey s)) then used (pressedkey s)
    else if decide (length (used (pressedkey s)) < 8)%nat
         then used (pressedkey s) ++ [p]
         else used (pressedkey s).
Proof.
  intros Hbtn Hsys (Hlen & Hc & Hnd) mk p s' Hp0.
  destruct (key_event_pressedkey pass sendres hidrep s code 1 Hbtn Hsys) as [_ Hpk].
  fold mk p s' in Hpk. rewrite Hpk. unfold update_keys. change (1 =? 1) with true.
  cbn iota. rewrite key_down_insert by exact Hlen.
  pose proof (chars_usage_bound (key_index code) (neo_layer mk)) as Hb. fold p in Hb.
  destruct (decide (p ∈ used (pressedkey s))) as [Hin|Hnin].
  - rewrite insert_key_present by assumption. reflexivity.
  - pose proof (used_full (pressedkey s)) as Hfull. rewrite Hlen in Hfull.
    destruct (decide (length (used (pressedkey s)) < 8)%nat) as [Hlt|Hge].
    + apply Hfull in Hlt.
      apply (insert_key_room p (pressedkey s) Hc Hp0); [|exact Hnin|exact Hlt].
      apply to_schar_small. clear -Hb. lia.
    + rewrite insert_key_full; [reflexivity| |].
      * intros H0. apply Hge, Hfull, H0.
      * intros Hin. apply Hnin, elem_of_used. split; assumption.
Qed.

Lemma key_press_array_witness :
  pressedkey_ok (pressedkey a_held_state)
  /\ used (pressedkey a_held_state) = [0x18]
  /\ used (pressedkey (snd (fst (handle_event [] all_sent no_junk a_held_state
                                   (InputEvent EV_KEY KEY_S 1)))))
     = [0x18; 0x0C]
  /\ used (pressedkey (snd (fst (handle_event [] all_sent no_junk eight_held_state
                                   (InputEvent EV_KEY KEY_L 1)))))
     = used (pressedkey eight_held_state).
Proof.
  assert (Hok : forall pk, length pk = 8%nat -> compactb pk = true ->
                  bool_decide (NoDup (used pk)) = true -> pressedkey_ok pk).
  { intros pk Hl Hc Hn. split; [exact Hl|]. split; [exact Hc|].
    apply (bool_decide_unpack _). rewrite Hn. exact I. }
  assert (H1 : pressedkey_ok (pressedkey a_held_state))
    by (apply Hok; vm_compute; reflexivity).
  assert (H8 : pressedkey_ok (pressedkey eight_held_state))
    by (apply Hok; vm_compute; reflexivity).
  split; [exact H1|]. split; [reflexivity|]. split.
  - rewrite (key_press_array [] all_sent no_junk a_held_state KEY_S);
      [reflexivity|reflexivity|vm_compute; discriminate|exact H1|vm_compute; discriminate].
  - rewrite (key_press_array [] all_sent no_junk eight_held_state KEY_L);
      [reflexivity|reflexivity|vm_compute; discriminate|exact H8|vm_compute; discriminate].
Defined.

(** Key up on a mapped entry (lines 1245-1260): the usage is taken out
    of the array, and the usages that remain keep their order and move
    down to close the gap; the array keeps its shape. *)
Theorem key_release_array pass sendres hidrep s code :
  is_button code = false -> code <> KEY_SYSRQ ->
  pressedkey_ok (pressedkey s) ->
  let mk := update_modifiers (modifierkeys s) (pressedmod_of code) 0 in
  let p := snd (chars_at (key_index code) (neo_layer mk)) in
  let s' := snd (fst (handle_event pass sendres hidrep s (InputEvent EV_KEY code 0))) in
  p <> 0 ->
  used (pressedkey s') = filter (fun x => x <> p) (used (pressedkey s))
  /\ pressedkey_ok (pressedkey s').
Proof.
  intros Hbtn Hsys Hok mk p s' Hp0.
  destruct (key_event_pressedkey pass sendres hidrep s code 0 Hbtn Hsys) as [_ Hpk].
  fold mk p s' in Hpk. rewrite Hpk.
  split; [|apply update_keys_ok; [apply chars_usage_bound|exact Hok]].
  destruct Hok as (Hlen & Hc & Hnd).
  unfold update_keys. change (0 =? 1) with false. change (0 =? 0) with true.
  cbn iota. rewrite key_up_remove by exact Hlen.
  apply remove_key_present; assumption.
Qed.

Lemma key_release_array_witness :
  used (pressedkey eight_held_state) = [0x18; 0x0C; 0x04; 0x08; 0x12; 0x16; 0x11; 0x15]
  /\ used (pressedkey (snd (fst (handle_event [] all_sent no_junk eight_held_state
                                   (InputEvent EV_KEY KEY_D 0)))))
     = [0x18; 0x0C; 0x08; 0x12; 0x16; 0x11; 0x15].
Proof.
  split; [reflexivity|].
  assert (H8 : pressedkey_ok (pressedkey eight_held_state)).
  { split; [reflexivity|]. split; [reflexivity|].
    apply (bool_decide_unpack _). vm_compute. exact I. }
  destruct (key_release_array [] all_sent no_junk eight_held_state KEY_D) as [H _];
    [reflexivity|vm_compute; discriminate|exact H8|vm_compute; discriminate|].
  rewrite H. reflexivity.
Defined.

Lemma update_modifiers_plain mk value :
  update_modifiers mk 0 value = Z.land mk 0xffff.
Proof.
  unfold update_modifiers. change (0xffff - 0) with 0xffff.
  destruct (value >=? 1); [apply Z.lor_0_r|reflexivity].
Qed.

Lemma land_ffff_idem mk : Z.land (Z.land mk 0xffff) 0xffff = Z.land mk 0xffff.
Proof. rewrite <- Z.land_assoc. reflexivity. Qed.

(** Round trip: pressing a key that is no modifier and releasing it
    again leaves [pressedkey] as it was before the press, whenever its
    usage was not reported already (also when the press found all slots
    taken and was dropped); the layer is the same at both events. *)
Theorem key_press_release_round_trip pass sendres h1 h2 s code :
  is_button code = false -> code <> KEY_SYSRQ -> pressedmod_of code = 0 ->
  pressedkey_ok (pressedkey s) ->
  let s1 := snd (fst (handle_event pass sendres h1 s (InputEvent EV_KEY code 1))) in
  let s2 := snd (fst (handle_event pass sendres h2 s1 (InputEvent EV_KEY code 0))) in
  let p := snd (chars_at (key_index code) (neo_layer (modifierkeys s1))) in
  p ∉ used (pressedkey s) ->
  pressedkey s2 = pressedkey s /\ modifierkeys s2 = modifierkeys s1.
Proof.
  intros Hbtn Hsys Hpm (Hlen & Hc & Hnd) s1 s2 p Hnin.
  destruct (key_event_pressedkey pass sendres h1 s code 1 Hbtn Hsys) as [Hmk1 Hpk1].
  destruct (key_event_pressedkey pass sendres h2 s1 code 0 Hbtn Hsys) as [Hmk2 Hpk2].
  fold s1 in Hmk1, Hpk1. fold s1 s2 in Hmk2, Hpk2.
  rewrite Hpm, update_modifiers_plain in *.
  assert (Hmk : modifierkeys s2 = modifierkeys s1).
  { rewrite Hmk2, Hmk1. apply land_ffff_idem. }
  split; [|exact Hmk].
  rewrite Hpk2, Hpk1. rewrite <- Hmk2, Hmk. rewrite <- Hmk1. fold p.
  pose proof (chars_usage_bound (key_index code) (neo_layer (modifierkeys s1))) as Hb.
  fold p in Hb.
  unfold update_keys. change (1 =? 1) with true. change (0 =? 1) with false.
  change (0 =? 0) with true. cbn iota.
  rewrite key_down_insert by exact Hlen.
  rewrite key_up_remove by (rewrite length_insert_key; exact Hlen).
  apply remove_insert_key; [exact Hc| |exact Hnin].
  apply to_schar_small. clear -Hb. lia.
Qed.

Lemma key_press_release_round_trip_witness :
  let s := a_held_state in
  let s1 := snd (fst (handle_event [] all_sent no_junk s (InputEvent EV_KEY KEY_S 1))) in
  let s2 := snd (fst (handle_event [] all_sent stale s1 (InputEvent EV_KEY KEY_S 0))) in
  pressedkey s1 = [0x18; 0x0C; 0; 0; 0; 0; 0; 0]
  /\ pressedkey s2 = pressedkey s /\ modifierkeys s2 = modifierkeys s1.
Proof.
  split; [reflexivity|].
  apply (key_press_release_round_trip [] all_sent no_junk stale a_held_state KEY_S).
  - reflexivity.
  - vm_compute. discriminate.
  - reflexivity.
  - split; [reflexivity|]. split; [reflexivity|].
    apply (bool_decide_unpack _). vm_compute. exact I.
  - apply (bool_decide_unpack _). vm_compute. exact I.
Defined.

(** The eleven codes that set [pressedmod] leave the inner [switch] by
    [break] before the ladder. *)
Lemma modifier_code_facts code :
  pressedmod_of code <> 0 ->
  key_index code = 1 /\ is_button code = false /\ code <> KEY_SYSRQ.
Proof.
  intros Hpm.
  assert (Hcases : code = KEY_RIGHTMETA \/ code = KEY_RIGHTCTRL \/ code = KEY_LEFTMETA
    \/ code = KEY_LEFTALT \/ code = KEY_LEFTCTRL \/ code = KEY_LEFTSHIFT
    \/ code = KEY_RIGHTALT \/ code = KEY_RIGHTSHIFT \/ code = KEY_CAPSLOCK
    \/ code = KEY_BACKSLASH \/ code = KEY_102ND).
  { unfold pressedmod_of in Hpm.
    repeat match type of Hpm with
    | (if ?c =? ?k then _ else _) <> _ =>
        destruct (Z.eqb_spec c k); [tauto|]
    end. contradiction. }
  repeat (destruct Hcases as [->|Hcases]); try subst code;
    (split; [vm_compute; reflexivity|split; [reflexivity|vm_compute; discriminate]]).
Qed.

(** A key held through a change of layer stays reported: [pressedkey]
    stores the usage sent, not the key, so when a key is pressed, a
    modifier or layer selector is pressed next, and the key is released
    on a layer where its entry differs, the release takes out the other
    usage (or none) and the usage entered at the press remains in the
    array. *)
Theorem layer_change_keeps_key pass sendres h1 h2 h3 s code sel :
  is_button code = false -> code <> KEY_SYSRQ ->
  pressedmod_of sel <> 0 ->
  pressedkey_ok (pressedkey s) ->
  let s1 := snd (fst (handle_event pass sendres h1 s (InputEvent EV_KEY code 1))) in
  let s2 := snd (fst (handle_event pass sendres h2 s1 (InputEvent EV_KEY sel 1))) in
  let s3 := snd (fst (handle_event pass sendres h3 s2 (InputEvent EV_KEY code 0))) in
  let p1 := snd (chars_at (key_index code) (neo_layer (modifierkeys s1))) in
  let p3 := snd (chars_at (key_index code) (neo_layer (modifierkeys s3))) in
  p1 <> 0 -> p3 <> p1 ->
  (length (used (pressedkey s)) < 8)%nat ->
  p1 ∈ used (pressedkey s3).
Proof.
  intros Hbtn Hsys Hsel Hok s1 s2 s3 p1 p3 Hp1 Hp3 Hroom.
  destruct (modifier_code_facts sel Hsel) as (Hidx & Hbtn' & Hsys').
  destruct (key_event_pressedkey pass sendres h1 s code 1 Hbtn Hsys) as [Hmk1 Hpk1].
  destruct (key_event_pressedkey pass sendres h2 s1 sel 1 Hbtn' Hsys') as [_ Hpk2].
  destruct (key_event_pressedkey pass sendres h3 s2 code 0 Hbtn Hsys) as [Hmk3 Hpk3].
  fold s1 in Hmk1, Hpk1. fold s1 s2 in Hpk2. fold s2 s3 in Hmk3, Hpk3.
  rewrite <- Hmk1 in Hpk1. rewrite <- Hmk3 in Hpk3.
  fold p1 in Hpk1. fold p3 in Hpk3.
  rewrite Hidx, chars_at_1 in Hpk2. cbn [snd] in Hpk2.
  pose proof (chars_usage_bound (key_index code) (neo_layer (modifierkeys s1))) as Hb1.
  fold p1 in Hb1.
  assert (Hok1 : pressedkey_ok (pressedkey s1)).
  { rewrite Hpk1. apply update_keys_ok; [exact Hb1|exact Hok]. }
  assert (Hin1 : p1 ∈ used (pressedkey s1)).
  { destruct Hok as (Hlen & Hc & Hnd).
    rewrite Hpk1. unfold update_keys. change (1 =? 1) with true. cbn iota.
    rewrite key_down_insert by exact Hlen.
    destruct (decide (p1 ∈ used (pressedkey s))) as [Hin|Hnin].
    - rewrite insert_key_present by assumption. exact Hin.
    - destruct (insert_key_room p1 (pressedkey s) Hc Hp1) as [Hu _].
      + apply to_schar_small. clear -Hb1. lia.
      + exact Hnin.
      + apply used_full. rewrite Hlen. exact Hroom.
      + rewrite Hu. apply elem_of_app. right. apply list_elem_of_singleton. reflexivity. }
  assert (Hpk12 : pressedkey s2 = pressedkey s1).
  { rewrite Hpk2. apply update_keys_zero. apply Hok1. }
  rewrite Hpk3, Hpk12.
  destruct Hok1 as (Hlen1 & Hc1 & Hnd1).
  unfold update_keys. change (0 =? 1) with false. change (0 =? 0) with true. cbn iota.
  destruct (Z.eq_dec p3 0) as [E|E].
  - rewrite E, key_up_zero; [exact Hin1|reflexivity|]. apply compactb_spec. exact Hc1.
  - rewrite key_up_remove by exact Hlen1.
    destruct (remove_key_present p3 (pressedkey s1) Hc1 Hnd1 E) as [Hu _].
    rewrite Hu. apply list_elem_of_filter. split; [congruence|exact Hin1].
Qed.

Lemma layer_change_keeps_key_witness :
  let s := typing_state in
  let s1 := snd (fst (handle_event [] all_sent no_junk s (InputEvent EV_KEY KEY_A 1))) in
  let s2 := snd (fst (handle_event [] all_sent no_junk s1 (InputEvent EV_KEY KEY_CAPSLOCK 1))) in
  let s3 := snd (fst (handle_event [] all_sent no_junk s2 (InputEvent EV_KEY KEY_A 0))) in
  snd (chars_at (key_index KEY_A) (neo_layer (modifierkeys s1))) = 0x18
  /\ snd (chars_at (key_index KEY_A) (neo_layer (modifierkeys s3))) = 0x24
  /\ 0x18 ∈ used (pressedkey s3).
Proof.
  split; [reflexivity|]. split; [reflexivity|].
  apply (layer_change_keeps_key [] all_sent no_junk no_junk no_junk typing_state
           KEY_A KEY_CAPSLOCK).
  - reflexivity.
  - vm_compute. discriminate.
  - vm_compute. discriminate.
  - apply pressedkey_ok_zeros8.
  - vm_compute. discriminate.
  - vm_compute. discriminate.
  - vm_compute. lia.
Defined.

(** The modifier keys and the layer selectors (both shifts, caps lock,
    backslash, the 102nd key, right alt) are never entered into
    [pressedkey]: their index is 1, a row of [chars] that is unmapped on
    every layer, so the event changes [modifierkeys] only. *)
Theorem modifier_key_not_reported pass sendres hidrep s code value :
  pressedmod_of code <> 0 ->
  compactb (pressedkey s) = true ->
  let s' := snd (fst (handle_event pass sendres hidrep s (InputEvent EV_KEY code value))) in
  key_index code = 1
  /\ pressedkey s' = pressedkey s
  /\ modifierkeys s' = update_modifiers (modifierkeys s) (pressedmod_of code) value.
Proof.
  intros Hpm Hc s'.
  destruct (modifier_code_facts code Hpm) as (Hidx & Hbtn & Hsys).
  destruct (key_event_pressedkey pass sendres hidrep s code value Hbtn Hsys) as [Hmk Hpk].
  fold s' in Hmk, Hpk. split; [exact Hidx|]. split; [|exact Hmk].
  rewrite Hpk, Hidx, chars_at_1. apply update_keys_zero. exact Hc.
Qed.

Lemma modifier_key_not_reported_witness :
  let s := a_held_state in
  let s' := snd (fst (handle_event [] all_sent no_junk s (InputEvent EV_KEY KEY_RIGHTALT 1))) in
  key_index KEY_RIGHTALT = 1
  /\ pressedkey s' = pressedkey s
  /\ modifierkeys s' = 0x0040.
Proof.
  apply (modifier_key_not_reported [] all_sent no_junk a_held_state KEY_RIGHTALT 1).
  - vm_compute. discriminate.
  - reflexivity.
Defined.

(** ** Bits and ranges of the globals *)

Lemma mask_sub pm : Z.land pm 0xffff = pm -> 0xffff - pm = Z.ldiff 0xffff pm.
Proof.
  intros H. apply Z.sub_nocarry_ldiff.
  apply Z.bits_inj'. intros n Hn. rewrite Z.ldiff_spec, Z.bits_0.
  rewrite <- H, Z.land_spec. destruct (Z.testbit pm n), (Z.testbit 0xffff n); reflexivity.
Qed.

Lemma testbit_ffff i : 0 <= i < 16 -> Z.testbit 0xffff i = true.
Proof. intros H. change 0xffff with (Z.ones 16). apply Z.ones_spec_low. exact H. Qed.

Lemma update_modifiers_bit mk pm value i :
  Z.land pm 0xffff = pm -> 0 <= i < 16 ->
  Z.testbit (update_modifiers mk pm value) i
  = if Z.testbit pm i then (value >=? 1) else Z.testbit mk i.
Proof.
  intros Hpm Hi. unfold update_modifiers. rewrite (mask_sub pm Hpm).
  destruct (value >=? 1).
  - rewrite Z.lor_spec, Z.land_spec, Z.ldiff_spec, testbit_ffff by exact Hi.
    destruct (Z.testbit pm i), (Z.testbit mk i); reflexivity.
  - rewrite Z.land_spec, Z.ldiff_spec, testbit_ffff by exact Hi.
    destruct (Z.testbit pm i), (Z.testbit mk i); reflexivity.
Qed.

Lemma update_modifiers_high mk pm value i :
  Z.land pm 0xffff = pm -> 16 <= i ->
  Z.testbit (update_modifiers mk pm value) i = false.
Proof.
  intros Hpm Hi. unfold update_modifiers. rewrite (mask_sub pm Hpm).
  assert (H16 : Z.testbit 0xffff i = false).
  { change 0xffff with (Z.ones 16). apply Z.ones_spec_high. lia. }
  assert (Hp : Z.testbit pm i = false).
  { rewrite <- Hpm, Z.land_spec, H16. apply andb_false_r. }
  destruct (value >=? 1).
  - rewrite Z.lor_spec, Z.land_spec, Z.ldiff_spec, H16, Hp.
    destruct (Z.testbit mk i); reflexivity.
  - rewrite Z.land_spec, Z.ldiff_spec, H16. destruct (Z.testbit mk i); reflexivity.
Qed.

Lemma pressedmod_of_mask code : Z.land (pressedmod_of code) 0xffff = pressedmod_of code.
Proof.
  unfold pressedmod_of.
  repeat match goal with
  | |- context [if ?c =? ?k then _ else _] => destruct (c =? k); [reflexivity|]
  end. reflexivity.
Qed.

Lemma update_modifiers_range mk pm value :
  Z.land pm 0xffff = pm -> 0 <= update_modifiers mk pm value <= 0xffff.
Proof.
  intros Hpm.
  assert (H : Z.land (update_modifiers mk pm value) 0xffff = update_modifiers mk pm value).
  { apply Z.bits_inj'. intros n Hn. rewrite Z.land_spec.
    destruct (Z_lt_le_dec n 16) as [Hlt|Hge].
    - rewrite testbit_ffff by lia. apply andb_true_r.
    - rewrite update_modifiers_high by assumption. reflexivity. }
  rewrite <- H. change 0xffff with (Z.ones 16). rewrite Z.land_ones by lia.
  pose proof (Z.mod_pos_bound (update_modifiers mk pm value) (2 ^ 16) ltac:(lia)).
  change (Z.ones 16) with (2 ^ 16 - 1). lia.
Qed.

Lemma to_schar_range z : -128 <= to_schar z <= 127.
Proof.
  unfold to_schar. pose proof (Z.mod_pos_bound (z + 128) 256 ltac:(lia)). lia.
Qed.

Lemma land_7_range mb : 0 <= Z.land mb 7 <= 7.
Proof.
  change 7 with (Z.ones 3). rewrite Z.land_ones by lia.
  pose proof (Z.mod_pos_bound mb (2 ^ 3) ltac:(lia)).
  change (2 ^ 3) with 8 in *. change (Z.ones 3) with 7. lia.
Qed.

Lemma small_cases x : 0 <= x <= 7 ->
  x = 0 \/ x = 1 \/ x = 2 \/ x = 3 \/ x = 4 \/ x = 5 \/ x = 6 \/ x = 7.
Proof. lia. Qed.

Lemma buttons_after_range mb ev :
  0 <= mb <= 7 -> 0 <= buttons_after mb ev <= 7.
Proof.
  intros Hmb. unfold buttons_after.
  destruct ((ev_type ev =? EV_KEY) && is_button (ev_code ev)) eqn:E; [|exact Hmb].
  apply andb_true_iff in E as [_ Hc]. apply is_button_cases in Hc.
  apply small_cases in Hmb.
  destruct Hc as [Hc|[Hc|Hc]]; rewrite Hc;
    destruct (ev_value ev =? 1);
    repeat (destruct Hmb as [Hmb|Hmb]; [rewrite Hmb; vm_compute; split; discriminate|]);
    rewrite Hmb; vm_compute; split; discriminate.
Qed.

Lemma testbit_small c n : 0 <= c <= 7 -> 3 <= n -> Z.testbit c n = false.
Proof.
  intros Hc Hn. destruct (Z.eq_dec c 0) as [->|Hc0]; [apply Z.bits_0|].
  apply Z.bits_above_log2; [lia|].
  assert (Z.log2 c < 3); [|lia]. apply Z.log2_lt_pow2; [lia|]. change (2 ^ 3) with 8. lia.
Qed.

Lemma buttons_after_bit mb code value k :
  is_button code = true -> 0 <= mb <= 7 -> 0 <= k ->
  Z.testbit (buttons_after mb (InputEvent EV_KEY code value)) k
  = if k =? code - BTN_LEFT then (value =? 1) else Z.testbit mb k.
Proof.
  intros Hc Hmb Hk.
  pose proof (buttons_after_range mb (InputEvent EV_KEY code value) Hmb) as Hr.
  destruct (Z_lt_le_dec k 3) as [Hlt|Hge].
  - assert (Hk3 : k = 0 \/ k = 1 \/ k = 2) by lia. clear Hr.
    unfold buttons_after. cbn [ev_type ev_code ev_value].
    change (EV_KEY =? EV_KEY) with true. rewrite Hc. cbn [andb].
    apply is_button_cases in Hc. apply small_cases in Hmb.
    destruct Hc as [Hc|[Hc|Hc]]; rewrite Hc;
      destruct (value =? 1);
      destruct Hk3 as [Hk3|[Hk3|Hk3]]; rewrite Hk3;
      repeat (destruct Hmb as [Hmb|Hmb]; [rewrite Hmb; reflexivity|]);
      rewrite Hmb; reflexivity.
  - rewrite testbit_small by assumption.
    apply is_button_cases in Hc.
    assert (Hne : (k =? code - BTN_LEFT) = false).
    { apply Z.eqb_neq. destruct Hc as [Hc|[Hc|Hc]]; rewrite Hc; vm_compute; lia. }
    rewrite Hne. symmetry. apply testbit_small; assumption.
Qed.

(** [modifierkeys] bit by bit (lines 1179-1183): a key event sets the
    bits of its own [pressedmod] when its value is at least 1 (a press or
    a repeat) and clears them otherwise, and leaves every other one of
    the low 16 bits as it was; a key that is no modifier changes none. *)
Theorem modifier_bits pass sendres hidrep s code value i :
  is_button code = false -> code <> KEY_SYSRQ ->
  0 <= i < 16 ->
  let s' := snd (fst (handle_event pass sendres hidrep s (InputEvent EV_KEY code value))) in
  Z.testbit (modifierkeys s') i
  = if Z.testbit (pressedmod_of code) i then (value >=? 1)
    else Z.testbit (modifierkeys s) i.
Proof.
  intros Hbtn Hsys Hi s'. subst s'. rewrite handle_event_key by assumption.
  destruct (key_common_report sendres hidrep sizeof_input_event 0 s
              (key_index code) (pressedmod_of code) value) as (_ & Hmk & _).
  rewrite Hmk. apply update_modifiers_bit; [apply pressedmod_of_mask|exact Hi].
Qed.

Lemma modifier_bits_witness :
  let s := muted_shift_state in
  let s' := snd (fst (handle_event [] all_sent no_junk s (InputEvent EV_KEY KEY_RIGHTCTRL 2))) in
  modifierkeys s = 0x0002
  /\ Z.testbit (modifierkeys s') 4 = true
  /\ Z.testbit (modifierkeys s') 1 = Z.testbit (modifierkeys s) 1.
Proof.
  split; [reflexivity|]. split.
  - apply (modifier_bits [] all_sent no_junk muted_shift_state KEY_RIGHTCTRL 2 4);
      [reflexivity|vm_compute; discriminate|lia].
  - apply (modifier_bits [] all_sent no_junk muted_shift_state KEY_RIGHTCTRL 2 1);
      [reflexivity|vm_compute; discriminate|lia].
Defined.

(** [mousebuttons] bit by bit (lines 941-947): the left, right and
    middle button own bits 0, 1 and 2; a button event sets the bit of its
    button when the value is 1 and clears it for any other value (also
    for a repeat, value 2), and leaves the other bits as they were; the
    mask stays below 8. *)
Theorem button_bits pass sendres hidrep s code value k :
  is_button code = true ->
  0 <= mousebuttons s <= 7 ->
  0 <= k ->
  let s' := snd (fst (handle_event pass sendres hidrep s (InputEvent EV_KEY code value))) in
  0 <= mousebuttons s' <= 7
  /\ Z.testbit (mousebuttons s') k
     = if k =? code - BTN_LEFT then (value =? 1) else Z.testbit (mousebuttons s) k.
Proof.
  intros Hc Hmb Hk s'.
  assert (Hm : is_mouse_event (InputEvent EV_KEY code value) = true).
  { unfold is_mouse_event. cbn [ev_type ev_code]. rewrite Hc. reflexivity. }
  destruct (mouse_event_actions pass sendres hidrep s _ Hm) as (Hs' & _).
  fold s' in Hs'. rewrite Hs'. split.
  - apply buttons_after_range. exact Hmb.
  - apply buttons_after_bit; assumption.
Qed.

Lemma button_bits_witness :
  let s := muted_mouse_state in
  let s' := snd (fst (handle_event [] all_sent no_junk s (InputEvent EV_KEY BTN_MIDDLE 1))) in
  mousebuttons s = 1
  /\ 0 <= mousebuttons s' <= 7
  /\ Z.testbit (mousebuttons s') 2 = true.
Proof.
  split; [reflexivity|].
  apply (button_bits [] all_sent no_junk muted_mouse_state BTN_MIDDLE 1 2).
  - reflexivity.
  - vm_compute. split; discriminate.
  - lia.
Defined.

(** ** The table and the ladder *)

Lemma neo_layer_range mk : 0 <= neo_layer mk <= 5.
Proof.
  rewrite neo_layer_table.
  destruct (group1 mk), (group2 mk), (group3 mk); cbn [layer_table]; lia.
Qed.

(** The lookup [chars[u][layer]] of line 1220 never leaves the array:
    [chars] has 100 rows of 6 entries, the index the inner [switch]
    computes is below 100 for every key code, and the layer is below 6
    for every modifier state. *)
Theorem chars_lookup_in_bounds code mk :
  length chars = 100%nat
  /\ Forall (fun row => length row = 6%nat) chars
  /\ 0 <= key_index code < 100
  /\ 0 <= neo_layer mk < 6
  /\ exists row, chars !! Z.to_nat (key_index code) = Some row
       /\ row !! Z.to_nat (neo_layer mk)
          = Some (chars_at (key_index code) (neo_layer mk)).
Proof.
  assert (Hrows : Forall (fun row : list (Z * Z) => length row = 6%nat) chars).
  { apply Forall_forall. intros row Hrow.
    assert (Hb : forallb (fun row : list (Z * Z) => (length row =? 6)%nat) chars = true)
      by (vm_compute; reflexivity).
    rewrite forallb_forall in Hb. apply list_elem_of_In in Hrow.
    apply Nat.eqb_eq. apply Hb. exact Hrow. }
  assert (Hlen : length chars = 100%nat) by reflexivity.
  assert (Hu : 0 <= key_index code < 100).
  { destruct (key_index_range code) as [-> | H]; lia. }
  pose proof (neo_layer_range mk) as Hl.
  split; [exact Hlen|]. split; [exact Hrows|]. split; [exact Hu|]. split; [lia|].
  destruct (lookup_lt_is_Some_2 chars (Z.to_nat (key_index code))) as [row Hrow].
  { rewrite Hlen. lia. }
  exists row. split; [exact Hrow|].
  assert (Hr6 : length row = 6%nat).
  { rewrite Forall_forall in Hrows. apply Hrows.
    apply (list_elem_of_lookup_2 _ _ _ Hrow). }
  destruct (lookup_lt_is_Some_2 row (Z.to_nat (neo_layer mk))) as [e He].
  { rewrite Hr6. lia. }
  unfold chars_at. rewrite Hrow. change (default [] (Some row)) with row.
  rewrite He. reflexivity.
Qed.

Lemma fall_through_label code l n :
  fall_through code l = Some n -> code ∈ omap fst l.
Proof.
  induction l as [|[lbl k] l IH]; [discriminate|]. cbn [fall_through omap fst].
  destruct lbl as [c|]; cbn.
  - destruct (Z.eqb_spec code c) as [->|Hne]; [intros _; left|].
    intros H. right. apply IH. exact H.
  - exact IH.
Qed.

Lemma NoDup_map_inj (f : Z -> Z) l x y :
  NoDup (map f l) -> x ∈ l -> y ∈ l -> f x = f y -> x = y.
Proof.
  induction l as [|a l IH]; intros Hnd Hx Hy Hf; [inversion Hx|].
  cbn [map] in Hnd. apply NoDup_cons in Hnd as [Hnin Hnd].
  apply elem_of_cons in Hx as [->|Hx]; apply elem_of_cons in Hy as [->|Hy].
  - reflexivity.
  - exfalso. apply Hnin. rewrite Hf. apply list_elem_of_In, in_map, list_elem_of_In, Hy.
  - exfalso. apply Hnin. rewrite <- Hf. apply list_elem_of_In, in_map, list_elem_of_In, Hx.
  - apply IH; assumption.
Qed.

(** The ladder gives every key it knows a row of [chars] of its own: a
    code whose index is not 1 (the index of the keys the ladder does not
    know) shares its index with no other code. *)
Theorem key_index_injective c1 c2 :
  key_index c1 <> 1 -> c1 <> c2 -> key_index c1 <> key_index c2.
Proof.
  intros H1 Hne Heq. apply Hne.
  assert (Hin : forall c, key_index c <> 1 -> c ∈ ladder_labels).
  { intros c Hc. unfold key_index in Hc.
    destruct (fall_through c key_ladder) as [n|] eqn:E; [|contradiction].
    apply (fall_through_label c key_ladder n E). }
  assert (Hnd : NoDup (map key_index ladder_labels)).
  { apply (bool_decide_unpack _). vm_compute. exact I. }
  apply (NoDup_map_inj key_index ladder_labels); [exact Hnd| | |exact Heq].
  - apply Hin. exact H1.
  - apply Hin. congruence.
Qed.

Lemma key_index_injective_witness :
  key_index KEY_Z = 29 /\ key_index KEY_Z <> key_index KEY_Y.
Proof.
  split; [reflexivity|].
  apply (key_index_injective KEY_Z KEY_Y); vm_compute; discriminate.
Defined.

(** ** The globals keep to their types *)

Lemma button_mask_range mb code value :
  is_button code = true -> 0 <= mb <= 7 ->
  0 <= (if value =? 1
        then Z.lor (Z.land mb (0x07 - Z.shiftl 1 (Z.land code 0x03)))
                   (Z.shiftl 1 (Z.land code 0x03))
        else Z.land mb (0x07 - Z.shiftl 1 (Z.land code 0x03))) <= 7.
Proof.
  intros Hc Hmb.
  pose proof (buttons_after_range mb (InputEvent EV_KEY code value) Hmb) as H.
  unfold buttons_after in H. cbn [ev_type ev_code ev_value] in H.
  change (EV_KEY =? EV_KEY) with true in H. rewrite Hc in H. exact H.
Qed.

Lemma mouse_button_regs sendres hidrep s ev h' s' f :
  is_button (ev_code ev) = true ->
  mouse_button sendres hidrep s ev = (h', s', f) -> regs_ok s -> regs_ok s'.
Proof.
  intros Hc. unfold mouse_button. trace_norm.
  intros H (Hmb & Hrest).
  pose proof (button_mask_range (mousebuttons s) (ev_code ev) (ev_value ev) Hc Hmb) as Hr.
  destruct (connectionok s =? 0).
  - injection H as <- <- <-. split; [exact Hr|exact Hrest].
  - destruct (1 >? _); injection H as <- <- <-; (split; [exact Hr|exact Hrest]).
Qed.

Lemma Forall_insert_schar pk j x :
  Forall schar_ok pk -> schar_ok x -> Forall schar_ok (<[j := x]> pk).
Proof. intros H Hx. apply Forall_insert; assumption. Qed.

Lemma rd_schar pk j : Forall schar_ok pk -> schar_ok (rd pk j).
Proof.
  intros H. unfold rd. destruct (pk !! j) as [v|] eqn:E.
  - change (default 0 (Some v)) with v. rewrite Forall_forall in H.
    apply H. apply (list_elem_of_lookup_2 _ _ _ E).
  - change (default 0 (@None Z)) with 0. unfold schar_ok. lia.
Qed.

Lemma key_down_chars n j p pk : chars_ok pk -> chars_ok (fst (key_down n j p pk)).
Proof.
  revert j. induction n as [|n IH]; intros j H; [exact H|]. cbn [key_down].
  destruct (rd pk j =? 0).
  - cbn [fst]. destruct H as [Hl Hf]. split; [rewrite length_insert; exact Hl|].
    apply Forall_insert_schar; [exact Hf|apply to_schar_range].
  - destruct (rd pk j =? p); [exact H|apply IH; exact H].
Qed.

Lemma shift_left_chars n j pk : chars_ok pk -> chars_ok (shift_left n j pk).
Proof.
  revert j pk. induction n as [|n IH]; intros j pk H; [exact H|]. cbn [shift_left].
  apply IH. destruct H as [Hl Hf]. split; [rewrite length_insert; exact Hl|].
  apply Forall_insert_schar; [exact Hf|apply rd_schar; exact Hf].
Qed.

Lemma key_up_chars n j p pk : chars_ok pk -> chars_ok (fst (key_up n j p pk)).
Proof.
  revert j. induction n as [|n IH]; intros j H; [exact H|]. cbn [key_up].
  destruct (rd pk j =? p); [|apply IH; exact H]. cbn [fst].
  destruct (shift_left_chars (7 - j) j pk H) as [Hl Hf].
  split; [rewrite length_insert; exact Hl|].
  apply Forall_insert_schar; [exact Hf|unfold schar_ok; lia].
Qed.

Lemma update_keys_chars value p j pk :
  chars_ok pk -> chars_ok (fst (update_keys value p j pk)).
Proof.
  intros H. unfold update_keys.
  destruct (value =? 1); [apply key_down_chars; exact H|].
  destruct (value =? 0); [apply key_up_chars; exact H|exact H].
Qed.

Lemma key_common_regs sendres hidrep j m s u pressedmod value :
  Z.land pressedmod 0xffff = pressedmod ->
  regs_ok s ->
  regs_ok (snd (fst (key_common sendres hidrep j m s u pressedmod value))).
Proof.
  intros Hpm (Hmb & Hmk & Hpk).
  destruct (key_common_report sendres hidrep j m s u pressedmod value) as (_ & Hmk' & Hpk').
  assert (Hmb' : mousebuttons (snd (fst (key_common sendres hidrep j m s u pressedmod value)))
                 = mousebuttons s).
  { unfold key_common. destruct (update_keys _ _ _ _) as [pk j']. trace_norm.
    destruct (connectionok s =? 0); [reflexivity|].
    destruct (on s =? 0); [destruct (1 >? j'); reflexivity|].
    trace_norm. destruct (1 >? _); reflexivity. }
  split; [rewrite Hmb'; exact Hmb|]. split.
  - rewrite Hmk'. apply update_modifiers_range. exact Hpm.
  - rewrite Hpk'. apply update_keys_chars. exact Hpk.
Qed.

Lemma burst_regs sendres l : forall hidrep j m s h' s' f,
  burst sendres l hidrep j m s = (h', s', f) -> regs_ok s -> regs_ok s'.
Proof.
  induction l as [|[modify k] rest IH]; intros hidrep j m s h' s' f; cbn [burst].
  - intros [= <- <- <-] H. exact H.
  - trace_norm. intros H (Hmb & Hmk & Hl & Hf).
    assert (Hpk : chars_ok (<[0%nat := to_schar k]> (pressedkey s))).
    { split; [rewrite length_insert; exact Hl|].
      apply Forall_insert_schar; [exact Hf|apply to_schar_range]. }
    destruct (connectionok s =? 0).
    + injection H as <- <- <-. split; [exact Hmb|]. split; [exact Hmk|exact Hpk].
    + destruct (on s =? 0).
      * destruct (1 >? j).
        -- injection H as <- <- <-. split; [exact Hmb|]. split; [exact Hmk|exact Hpk].
        -- apply IH in H; [exact H|]. split; [exact Hmb|]. split; [exact Hmk|exact Hpk].
      * trace_norm. destruct (1 >? _).
        -- injection H as <- <- <-. split; [exact Hmb|]. split; [exact Hmk|exact Hpk].
        -- apply IH in H; [exact H|]. split; [exact Hmb|]. split; [exact Hmk|exact Hpk].
Qed.

Lemma regs_ok_ext s s' :
  mousebuttons s' = mousebuttons s -> modifierkeys s' = modifierkeys s ->
  pressedkey s' = pressedkey s -> regs_ok s -> regs_ok s'.
Proof. unfold regs_ok. intros -> -> ->. auto. Qed.

Lemma sysrq_regs pass sendres hidrep s ev h' s' f :
  sysrq pass sendres hidrep s ev = (h', s', f) -> regs_ok s -> regs_ok s'.
Proof.
  unfold sysrq.
  destruct (ev_value ev =? 0); [|intros [= <- <- <-] H; exact H].
  destruct (Z.land (modifierkeys s) 1 =? 1).
  - destruct (connectionok s =? 0); trace_norm;
      destruct (result s); intros [= <- <- <-]; apply regs_ok_ext; reflexivity.
  - destruct (Z.land (modifierkeys s) 16 =? 16).
    + destruct (burst sendres pass hidrep sizeof_input_event 0 s) as [[h1 s1] f1] eqn:Hb.
      intros H Hs. apply (burst_regs _ _ _ _ _ _ _ _ _ Hb) in Hs.
      destruct f1; injection H as <- <- <-; try exact Hs.
      destruct Hs as (Hmb & Hmk & Hl & Hf). split; [exact Hmb|]. split; [exact Hmk|].
      trace_norm. split; [rewrite length_insert; exact Hl|].
      apply Forall_insert_schar; [exact Hf|unfold schar_ok; lia].
    + trace_norm. destruct (stop_writing s =? 0);
        [intros [= <- <- <-]; apply regs_ok_ext; reflexivity|].
      destruct (id s =? 0); [intros [= <- <- <-]; apply regs_ok_ext; reflexivity|].
      destruct (result s); intros [= <- <- <-]; apply regs_ok_ext; reflexivity.
Qed.

Lemma handle_event_regs pass sendres hidrep s ev h' s' f :
  handle_event pass sendres hidrep s ev = (h', s', f) -> regs_ok s -> regs_ok s'.
Proof.
  unfold handle_event. destruct (ev_type ev =? EV_KEY).
  - unfold ev_key. destruct (is_button (ev_code ev)) eqn:Hc.
    + destruct (mouse_button sendres hidrep s ev) as [[h1 s1] f1] eqn:Hb.
      intros H Hs. apply (mouse_button_regs _ _ _ _ _ _ _ Hc Hb) in Hs.
      destruct f1; [|injection H as <- <- <-; exact Hs..].
      pose proof (key_common_regs sendres h1 j modify s1 1 0 (ev_value ev) eq_refl Hs) as Hk.
      rewrite H in Hk. exact Hk.
    + destruct (ev_code ev =? KEY_SYSRQ).
      * destruct (sysrq pass sendres hidrep s ev) as [[h1 s1] f1] eqn:Hb.
        intros H Hs. apply (sysrq_regs _ _ _ _ _ _ _ _ Hb) in Hs.
        destruct f1; [|injection H as <- <- <-; exact Hs..].
        pose proof (key_common_regs sendres h1 j modify s1 1 0 (ev_value ev) eq_refl Hs) as Hk.
        rewrite H in Hk. exact Hk.
      * intros H Hs.
        pose proof (key_common_regs sendres hidrep sizeof_input_event 0 s
          (key_index (ev_code ev)) (pressedmod_of (ev_code ev)) (ev_value ev)
          (pressedmod_of_mask _) Hs) as Hk.
        rewrite H in Hk. exact Hk.
  - destruct (ev_type ev =? EV_REL); [|intros [= <- <- <-] H; exact H].
    unfold ev_rel. destruct (is_axis (ev_code ev)); [|intros [= <- <- <-] H; exact H].
    trace_norm. destruct (connectionok s =? 0);
      [intros [= <- <- <-]; apply regs_ok_ext; reflexivity|].
    destruct (1 >? _); intros [= <- <- <-]; apply regs_ok_ext; reflexivity.
Qed.

Lemma parse_loop_regs pass sendres evs : forall hidrep s s' r,
  parse_loop pass sendres evs hidrep s = (s', r) -> regs_ok s -> regs_ok s'.
Proof.
  induction evs as [|ev evs IH]; intros hidrep s s' r; cbn [parse_loop].
  - intros [= <- <-] H. exact H.
  - destruct (handle_event pass sendres hidrep s ev) as [[h1 s1] f1] eqn:Hh.
    intros H Hs. apply (handle_event_regs _ _ _ _ _ _ _ _ Hh) in Hs.
    destruct f1; [apply IH in H; auto|injection H as <- <-; exact Hs..].
Qed.

(** ** What goes over the wire *)

Lemma is_byte_to_uchar z : is_byte (to_uchar z) = true.
Proof.
  unfold is_byte. pose proof (to_uchar_range z) as H.
  apply andb_true_iff. split; [apply Z.leb_le|apply Z.ltb_lt]; lia.
Qed.

Lemma key_bytes_bytes pk : forallb is_byte (key_bytes pk) = true.
Proof.
  unfold key_bytes. apply forallb_forall. intros x Hx.
  apply in_map_iff in Hx as (i & <- & _). apply is_byte_to_uchar.
Qed.

Lemma wf_keyb_packet m pk :
  wf_packet (0xA1 :: REPORTID_KEYBD :: to_uchar m :: key_bytes pk) = true.
Proof.
  unfold wf_packet. cbn [forallb]. rewrite is_byte_to_uchar, key_bytes_bytes.
  reflexivity.
Qed.

Lemma wf_mouse_packet mb x y z :
  wf_packet [0xA1; REPORTID_MOUSE; to_uchar (Z.land mb 0x07);
             to_uchar x; to_uchar y; to_uchar z] = true.
Proof.
  unfold wf_packet. cbn [forallb]. rewrite !is_byte_to_uchar.
  pose proof (land_7_range mb) as H.
  rewrite (to_uchar_small (Z.land mb 7)) by (clear -H; lia).
  cbn [head]. change (default 0 (Some (Z.land mb 7))) with (Z.land mb 7).
  replace (Z.land mb 7 <=? 7) with true by (symmetry; apply Z.leb_le; clear -H; lia).
  reflexivity.
Qed.

Lemma wire_piece_trans s s1 s2 j m f :
  wire_piece s s1 (Fall j m) -> wire_piece s1 s2 f -> wire_piece s s2 f.
Proof.
  intros (Hc1 & a1 & Ht1 & Hw1 & Hn1 & _) (Hc2 & a2 & Ht2 & Hw2 & Hn2 & Hf).
  split; [congruence|]. exists (a1 ++ a2).
  split; [rewrite Ht2, Ht1, app_assoc; reflexivity|].
  split; [rewrite forallb_app, Hw1, Hw2; reflexivity|]. split.
  - intros H. rewrite attempts_app, Hn1, Hn2 by congruence. reflexivity.
  - destruct f; try exact I. rewrite existsb_app, Hf. apply orb_true_r.
Qed.

Lemma wire_piece_refl s j m : wire_piece s s (Fall j m).
Proof.
  split; [reflexivity|]. exists []. split; [symmetry; apply app_nil_r|].
  repeat split.
Qed.

(** Closes a goal [wire_piece] once the state updates are unfolded. *)
Ltac close_wire :=
  unfold wire_piece; trace_norm; split; [reflexivity|];
  eexists; split; [first [reflexivity | symmetry; apply app_nil_r]|];
  split;
  [ cbn [forallb translator_action andb];
    rewrite ?wf_keyb_packet, ?wf_mouse_packet; reflexivity
  | split;
    [ first [ intros _; reflexivity
            | intros Hzero;
              match goal with
              | H : (connectionok _ =? 0) = false |- _ =>
                  rewrite Hzero in H; discriminate H
              end ]
    | first [ exact I
            | cbn [existsb checked_fail orb];
              repeat match goal with H : (1 >? _) = true |- _ => rewrite H end;
              rewrite ?orb_true_r; reflexivity ] ] ].

Lemma mouse_button_wire sendres hidrep s ev h' s' f :
  mouse_button sendres hidrep s ev = (h', s', f) -> wire_piece s s' f.
Proof.
  unfold mouse_button. rewrite peek_put_mouse. trace_norm.
  destruct (connectionok s =? 0) eqn:Hcon.
  - intros [= <- <- <-]. close_wire.
  - match goal with
    | |- context [1 >? ?r] => destruct (1 >? r) eqn:Hr
    end; intros [= <- <- <-]; close_wire.
Qed.

Lemma key_common_wire sendres hidrep j m s u pressedmod value h' s' f :
  1 <= j ->
  key_common sendres hidrep j m s u pressedmod value = (h', s', f) -> wire_piece s s' f.
Proof.
  intros Hj. unfold key_common.
  pose proof (update_keys_j value (snd (chars_at u (neo_layer
    (update_modifiers (modifierkeys s) pressedmod value)))) j (pressedkey s) Hj) as Hj'.
  destruct (update_keys _ _ _ _) as [pk j']. cbn [snd] in Hj'.
  rewrite peek_put_keyb. trace_norm.
  assert (Hg : (1 >? j') = false) by (rewrite Z.gtb_ltb; apply Z.ltb_ge; exact Hj').
  destruct (connectionok s =? 0) eqn:Hcon.
  - intros [= <- <- <-]. close_wire.
  - destruct (on s =? 0).
    + rewrite Hg. intros [= <- <- <-]. close_wire.
    + trace_norm.
      match goal with
      | |- context [1 >? ?r] => destruct (1 >? r) eqn:Hr
      end; intros [= <- <- <-]; close_wire.
Qed.

Lemma burst_wire sendres l : forall hidrep j m s h' s' f,
  1 <= j ->
  burst sendres l hidrep j m s = (h', s', f) -> wire_piece s s' f.
Proof.
  induction l as [|[modify k] rest IH]; intros hidrep j m s h' s' f Hj; cbn [burst].
  - intros [= <- <- <-]. apply wire_piece_refl.
  - rewrite peek_put_keyb. trace_norm. destruct (connectionok s =? 0) eqn:Hcon.
    + intros [= <- <- <-]. close_wire.
    + destruct (on s =? 0) eqn:Hon.
      * assert (Hg : (1 >? j) = false) by (rewrite Z.gtb_ltb; apply Z.ltb_ge; exact Hj).
        rewrite Hg. intros H. apply IH in H; [|exact Hj].
        eapply (wire_piece_trans _ _ _ 0 0); [|exact H]. close_wire.
      * trace_norm.
        match goal with
        | |- context [1 >? ?r] => destruct (1 >? r) eqn:Hr
        end.
        -- intros [= <- <- <-]. close_wire.
        -- intros H. apply IH in H; [|apply gtb_false_le; exact Hr].
           eapply (wire_piece_trans _ _ _ 0 0); [|exact H]. close_wire.
Qed.

Lemma sysrq_wire pass sendres hidrep s ev h' s' f :
  sysrq pass sendres hidrep s ev = (h', s', f) -> wire_piece s s' f.
Proof.
  unfold sysrq. destruct (ev_value ev =? 0); [|intros [= <- <- <-]; close_wire].
  destruct (Z.land (modifierkeys s) 1 =? 1).
  - rewrite peek_put_keyb_zeros.
    destruct (connectionok s =? 0) eqn:Hcon; trace_norm;
      destruct (result s); intros [= <- <- <-]; close_wire.
  - destruct (Z.land (modifierkeys s) 16 =? 16).
    + destruct (burst sendres pass hidrep sizeof_input_event 0 s) as [[h1 s1] f1] eqn:Hb.
      apply burst_wire in Hb; [|unfold sizeof_input_event; lia].
      destruct f1; intros [= <- <- <-]; [|exact Hb|exact Hb].
      eapply wire_piece_trans; [exact Hb|]. close_wire.
    + trace_norm. destruct (stop_writing s =? 0); [intros [= <- <- <-]; close_wire|].
      destruct (id s =? 0); [intros [= <- <- <-]; close_wire|].
      destruct (result s); intros [= <- <- <-]; close_wire.
Qed.

Lemma ev_key_wire pass sendres hidrep s ev h' s' f :
  ev_key pass sendres hidrep s ev = (h', s', f) -> wire_piece s s' f.
Proof.
  unfold ev_key. destruct (is_button (ev_code ev)).
  - destruct (mouse_button sendres hidrep s ev) as [[h1 s1] f1] eqn:Hb.
    pose proof (mouse_button_ok _ _ _ _ _ _ _ Hb) as Hok.
    apply mouse_button_wire in Hb.
    destruct f1; [|intros [= <- <- <-]; exact Hb..].
    intros H. apply key_common_wire in H; [|apply (step_ok_fall_j _ _ _ _ Hok)].
    eapply wire_piece_trans; eassumption.
  - destruct (ev_code ev =? KEY_SYSRQ).
    + destruct (sysrq pass sendres hidrep s ev) as [[h1 s1] f1] eqn:Hb.
      pose proof (sysrq_ok _ _ _ _ _ _ _ _ Hb) as Hok.
      apply sysrq_wire in Hb.
      destruct f1; [|intros [= <- <- <-]; exact Hb..].
      intros H. apply key_common_wire in H; [|apply (step_ok_fall_j _ _ _ _ Hok)].
      eapply wire_piece_trans; eassumption.
    + apply key_common_wire. unfold sizeof_input_event. lia.
Qed.

Lemma ev_rel_wire sendres hidrep s ev h' s' f :
  ev_rel sendres hidrep s ev = (h', s', f) -> wire_piece s s' f.
Proof.
  unfold ev_rel. destruct (is_axis (ev_code ev)); [|intros [= <- <- <-]; close_wire].
  rewrite peek_put_mouse. trace_norm.
  destruct (connectionok s =? 0) eqn:Hcon; [intros [= <- <- <-]; close_wire|].
  match goal with
  | |- context [1 >? ?r] => destruct (1 >? r) eqn:Hr
  end; intros [= <- <- <-]; close_wire.
Qed.

Lemma handle_event_wire pass sendres hidrep s ev h' s' f :
  handle_event pass sendres hidrep s ev = (h', s', f) -> wire_piece s s' f.
Proof.
  unfold handle_event. destruct (ev_type ev =? EV_KEY); [apply ev_key_wire|].
  destruct (ev_type ev =? EV_REL); [apply ev_rel_wire|].
  intros [= <- <- <-]. close_wire.
Qed.

Lemma parse_loop_wire pass sendres evs : forall hidrep s s' r,
  parse_loop pass sendres evs hidrep s = (s', r) -> wire_run s s' r.
Proof.
  induction evs as [|ev evs IH]; intros hidrep s s' r; cbn [parse_loop].
  - intros [= <- <-]. split; [reflexivity|]. exists [].
    split; [symmetry; apply app_nil_r|]. repeat split. discriminate.
  - destruct (handle_event pass sendres hidrep s ev) as [[h1 s1] f1] eqn:Hh.
    apply handle_event_wire in Hh.
    destruct Hh as (Hc1 & a1 & Ht1 & Hw1 & Hn1 & Hf1).
    destruct f1.
    + intros H. apply IH in H. destruct H as (Hc2 & a2 & Ht2 & Hw2 & Hn2 & Hf2).
      split; [congruence|]. exists (a1 ++ a2).
      split; [rewrite Ht2, Ht1, app_assoc; reflexivity|].
      split; [rewrite forallb_app, Hw1, Hw2; reflexivity|]. split.
      * intros H. rewrite attempts_app, Hn1, Hn2 by congruence. reflexivity.
      * intros Hr. rewrite existsb_app, (Hf2 Hr). apply orb_true_r.
    + intros [= <- <-]. split; [exact Hc1|]. exists a1.
      split; [exact Ht1|]. split; [exact Hw1|]. split; [exact Hn1|].
      intros _. exact Hf1.
    + intros [= <- <-]. split; [exact Hc1|]. exists a1.
      split; [exact Ht1|]. split; [exact Hw1|]. split; [exact Hn1|]. discriminate.
Qed.

(** ** Invariants of the loop of [main] *)

Lemma parse_events_code pass sendres w s :
  snd (parse_events pass sendres w s) = 0 \/ snd (parse_events pass sendres w s) = -1.
Proof.
  destruct (parse_events pass sendres w s) as [s1 r] eqn:Hpe.
  unfold parse_events in Hpe. apply parse_loop_ok in Hpe.
  destruct Hpe as (_ & _ & acts & _ & [[_ ->]|[-> _]]); auto.
Qed.

Lemma drain_parse pass sendres w s :
  drain pass sendres w s = fst (parse_events pass sendres w s).
Proof.
  unfold drain. pose proof (parse_events_code pass sendres w s) as Hr.
  destruct (parse_events pass sendres w s) as [s1 r]. cbn [fst snd] in *.
  destruct (running s1); [|reflexivity].
  destruct Hr as [-> | ->]; reflexivity.
Qed.

Lemma pump_parse pass sendres w s :
  pump pass sendres w s
  = let s1 := fst (parse_events pass sendres w s) in
    if running s1 && (snd (parse_events pass sendres w s) =? -1)
    then set_connectionok 0 s1 else s1.
Proof.
  unfold pump. pose proof (parse_events_code pass sendres w s) as Hr.
  destruct (parse_events pass sendres w s) as [s1 r]. cbn [fst snd] in *.
  destruct (running s1); [|reflexivity].
  destruct Hr as [-> | ->]; reflexivity.
Qed.

Lemma wf_sent_translator acts :
  forallb translator_action acts = true -> forallb wf_sent acts = true.
Proof.
  induction acts as [|a acts IH]; [reflexivity|]. cbn [forallb].
  intros H. apply andb_true_iff in H as [Ha H]. rewrite IH by exact H.
  destruct a; cbn [translator_action] in Ha; try discriminate Ha;
    cbn [wf_sent]; rewrite ?Ha; reflexivity.
Qed.

(** What one call of [parse_events] does, for the loop of [main]. *)
Lemma parse_events_facts pass sendres w s :
  let s1 := fst (parse_events pass sendres w s) in
  let r := snd (parse_events pass sendres w s) in
  connectionok s1 = connectionok s
  /\ prepareshutdown s1 = prepareshutdown s
  /\ (regs_ok s -> regs_ok s1)
  /\ (r = 0 \/ r = -1 /\ proc s1 = proc s)
  /\ exists acts, trace s1 = trace s ++ acts
       /\ forallb translator_action acts = true
       /\ (connectionok s = 0 -> attempts acts = [])
       /\ (r = -1 <-> existsb checked_fail acts = true).
Proof.
  intros s1 r. subst s1 r.
  destruct (parse_events pass sendres w s) as [s1 r] eqn:Hpe. cbn [fst snd].
  unfold parse_events in Hpe.
  pose proof (parse_loop_ok _ _ _ _ _ _ _ Hpe) as (Hc & Hp & a1 & Ht1 & Hq).
  pose proof (parse_loop_wire _ _ _ _ _ _ _ Hpe) as (_ & a2 & Ht2 & Hw & Hn & Hf).
  pose proof (parse_loop_regs _ _ _ _ _ _ _ Hpe) as Hregs.
  assert (a1 = a2) by (rewrite Ht1 in Ht2; apply app_inv_head in Ht2; exact Ht2).
  subst a2.
  split; [exact Hc|]. split; [exact Hp|]. split; [exact Hregs|]. split.
  - destruct Hq as [[_ ->]|[-> Hr]]; auto.
  - exists a1. split; [exact Ht1|]. split; [exact Hw|]. split; [exact Hn|].
    split; [exact Hf|]. intros Hfail.
    destruct Hq as [[Hq _]|[-> _]]; [unfold quiet in Hq; congruence|reflexivity].
Qed.

Lemma run_piece_refl s : run_piece s s.
Proof.
  split; [auto|]. split; [auto|]. exists [].
  split; [symmetry; apply app_nil_r|]. split; reflexivity.
Qed.

(** State updates of [main] itself: no report, no [send]. *)
Lemma run_piece_plain s s' acts :
  trace s' = trace s ++ acts ->
  forallb wf_sent acts = true -> attempts acts = [] ->
  (mousebuttons s' = mousebuttons s /\ modifierkeys s' = modifierkeys s
   /\ pressedkey s' = pressedkey s
   \/ mousebuttons s' = 0 /\ modifierkeys s' = 0 /\ pressedkey s' = zeros8) ->
  (prepareshutdown s' = prepareshutdown s \/ prepareshutdown s' = 1) ->
  run_piece s s'.
Proof.
  intros Ht Hw Ha Hr Hp. split; [|split].
  - intros Hs. destruct Hr as [(H1 & H2 & H3)|(H1 & H2 & H3)].
    + apply (regs_ok_ext s s'); assumption.
    + unfold regs_ok. rewrite H1, H2, H3. split; [lia|]. split; [lia|].
      split; [reflexivity|]. repeat constructor; unfold schar_ok; lia.
  - intros H. destruct Hp as [Hp|Hp]; [rewrite Hp; exact H|auto].
  - exists acts. split; [exact Ht|]. split; [exact Hw|]. intros _. exact Ha.
Qed.

Lemma run_piece_trans s s1 s2 :
  connectionok s1 = connectionok s \/ connectionok s1 = 0 ->
  run_piece s s1 -> run_piece s1 s2 -> run_piece s s2.
Proof.
  intros Hc (Hr1 & Hp1 & a1 & Ht1 & Hw1 & Hn1) (Hr2 & Hp2 & a2 & Ht2 & Hw2 & Hn2).
  split; [auto|]. split; [auto|]. exists (a1 ++ a2).
  split; [rewrite Ht2, Ht1, app_assoc; reflexivity|].
  split; [rewrite forallb_app, Hw1, Hw2; reflexivity|].
  intros H. rewrite attempts_app, Hn1 by exact H. rewrite Hn2; [reflexivity|].
  destruct Hc as [Hc|Hc]; congruence.
Qed.

Ltac plain_run :=
  eapply run_piece_plain;
  [ trace_norm; first [reflexivity | symmetry; apply app_nil_r]
  | reflexivity
  | reflexivity
  | first [ left; repeat split; reflexivity | right; repeat split; reflexivity ]
  | first [ left; reflexivity | right; reflexivity ] ].

Lemma parse_events_run pass sendres w s :
  run_piece s (fst (parse_events pass sendres w s)).
Proof.
  destruct (parse_events_facts pass sendres w s)
    as (Hc & Hp & Hregs & _ & acts & Ht & Hw & Hn & _).
  split; [exact Hregs|]. split; [rewrite Hp; auto|].
  exists acts. split; [exact Ht|]. split; [apply wf_sent_translator; exact Hw|exact Hn].
Qed.

Lemma loop_top_run skipsdp stdin s : run_piece s (snd (loop_top skipsdp stdin s)).
Proof.
  unfold loop_top. destruct (prepareshutdown s =? 0); cbn [snd].
  - apply run_piece_refl.
  - unfold shutdown. destruct skipsdp, (cleanup_stdin false stdin); plain_run.
Qed.

Lemma onsignal_run n s : run_piece s (onsignal n s).
Proof.
  unfold onsignal. destruct (n =? SIGINT).
  - destruct (connectionok s =? 0); [plain_run|apply run_piece_refl].
  - destruct ((n =? SIGTERM) || (n =? SIGHUP)); [plain_run|apply run_piece_refl].
Qed.

Lemma main_step_run pass sendres skipsdp stdin p s i :
  run_piece s (snd (main_step pass sendres skipsdp stdin (p, s) i)).
Proof.
  unfold main_step. destruct (running s); [|apply run_piece_refl].
  destruct i as [w| | | |n].
  - destruct p.
    + rewrite drain_parse.
      pose proof (parse_events_run pass sendres w s) as Hd.
      destruct (parse_events_facts pass sendres w s) as (Hc & _).
      destruct (running _); [|exact Hd].
      eapply run_piece_trans; [left; exact Hc|exact Hd|apply loop_top_run].
    + rewrite drain_parse. apply parse_events_run.
    + rewrite pump_parse.
      pose proof (parse_events_run pass sendres w s) as Hd.
      destruct (parse_events_facts pass sendres w s) as (Hc & _).
      cbv zeta. set (s1 := fst (parse_events pass sendres w s)) in *.
      destruct (running s1) eqn:Hrun; cbn [andb].
      * destruct (snd (parse_events pass sendres w s) =? -1).
        -- unfold running at 1. cbn [proc set_connectionok].
           fold (running s1). rewrite Hrun. cbn [connectionok set_connectionok].
           change (0 =? 0) with true. cbn iota.
           eapply run_piece_trans; [left; exact Hc|exact Hd|].
           eapply (run_piece_trans _ (session_end (set_connectionok 0 s1)));
             [right; reflexivity| |apply loop_top_run].
           unfold session_end. plain_run.
        -- rewrite Hrun.
           destruct (connectionok s1 =? 0) eqn:Hz; [|exact Hd].
           eapply run_piece_trans; [left; exact Hc|exact Hd|].
           eapply (run_piece_trans _ (session_end s1));
             [right; reflexivity| |apply loop_top_run].
           unfold session_end. plain_run.
      * rewrite Hrun. exact Hd.
  - destruct p; cbn [snd]; try apply run_piece_refl.
    destruct (prepareshutdown s =? 0); cbn [snd].
    + unfold session_start. plain_run.
    + unfold shutdown. destruct skipsdp, (cleanup_stdin false stdin); plain_run.
  - destruct p; cbn [snd]; try apply run_piece_refl. plain_run.
  - destruct p; cbn [snd]; try apply run_piece_refl.
    eapply (run_piece_trans _ (emit (Close Sctl) (set_connectionok 0 s)));
      [right; reflexivity| |apply loop_top_run]. plain_run.
  - pose proof (onsignal_run n s) as Hs.
    destruct p; cbn [snd]; try exact Hs.
    eapply run_piece_trans; [left|exact Hs|apply loop_top_run].
    unfold onsignal. destruct (n =? SIGINT).
    + destruct (connectionok s =? 0); reflexivity.
    + destruct ((n =? SIGTERM) || (n =? SIGHUP)); reflexivity.
Qed.

Lemma loop_top_flag skipsdp stdin s :
  connectionok s = 0 ->
  connectionok (snd (loop_top skipsdp stdin s)) = session_flag (fst (loop_top skipsdp stdin s)).
Proof.
  intros H. unfold loop_top. destruct (prepareshutdown s =? 0); cbn [fst snd];
    [exact H|]. unfold shutdown. destruct skipsdp, (cleanup_stdin false stdin); trace_norm; exact H.
Qed.

Lemma onsignal_connectionok n s : connectionok (onsignal n s) = connectionok s.
Proof.
  unfold onsignal. destruct (n =? SIGINT).
  - destruct (connectionok s =? 0); reflexivity.
  - destruct ((n =? SIGTERM) || (n =? SIGHUP)); reflexivity.
Qed.

(** [connectionok] is 1 exactly in the connected phase. *)
Lemma main_step_flag pass sendres skipsdp stdin p s i :
  connectionok s = session_flag p ->
  let ps' := main_step pass sendres skipsdp stdin (p, s) i in
  connectionok (snd ps') = session_flag (fst ps').
Proof.
  intros Hf. cbv zeta. unfold main_step. destruct (running s); [|exact Hf].
  destruct i as [w| | | |n].
  - destruct (parse_events_facts pass sendres w s) as (Hc & _).
    destruct p; cbn [session_flag] in Hf.
    + rewrite drain_parse. destruct (running _).
      * apply loop_top_flag. congruence.
      * cbn [fst snd session_flag]. congruence.
    + rewrite drain_parse. cbn [fst snd session_flag]. congruence.
    + rewrite pump_parse. cbv zeta.
      set (s1 := fst (parse_events pass sendres w s)) in *.
      destruct (running s1) eqn:Hrun; cbn [andb].
      * destruct (snd (parse_events pass sendres w s) =? -1).
        -- change (running (set_connectionok 0 s1)) with (running s1).
           rewrite Hrun. cbn [connectionok set_connectionok].
           change (0 =? 0) with true. cbn iota. apply loop_top_flag. reflexivity.
        -- rewrite Hrun. rewrite Hc, Hf. change (1 =? 0) with false. cbn iota.
           cbn [fst snd session_flag]. congruence.
      * rewrite Hrun. cbn [fst snd session_flag]. congruence.
  - destruct p; cbn [fst snd session_flag] in *; try exact Hf.
    destruct (prepareshutdown s =? 0); cbn [fst snd session_flag]; [reflexivity|].
    unfold shutdown. destruct skipsdp, (cleanup_stdin false stdin); trace_norm; exact Hf.
  - destruct p; cbn [fst snd session_flag] in *; try exact Hf. reflexivity.
  - destruct p; cbn [fst snd session_flag] in *; try exact Hf.
    apply loop_top_flag. reflexivity.
  - pose proof (onsignal_connectionok n s) as Hs.
    destruct p; cbn [fst snd session_flag] in *; try congruence.
    apply loop_top_flag. congruence.
Qed.

Lemma main_loop_run pass sendres skipsdp stdin ins : forall p s,
  connectionok s = session_flag p ->
  let ps' := main_loop pass sendres skipsdp stdin (p, s) ins in
  connectionok (snd ps') = session_flag (fst ps')
  /\ (regs_ok s -> regs_ok (snd ps'))
  /\ (prepareshutdown s = 0 \/ prepareshutdown s = 1 ->
      prepareshutdown (snd ps') = 0 \/ prepareshutdown (snd ps') = 1)
  /\ (forallb wf_sent (trace s) = true -> forallb wf_sent (trace (snd ps')) = true).
Proof.
  unfold main_loop. induction ins as [|i ins IH]; intros p s Hf; cbn [fold_left].
  - cbn [fst snd]. auto.
  - pose proof (main_step_flag pass sendres skipsdp stdin p s i Hf) as Hf1.
    pose proof (main_step_run pass sendres skipsdp stdin p s i) as (Hr & Hp & acts & Ht & Hw & _).
    cbv zeta in Hf1.
    destruct (main_step pass sendres skipsdp stdin (p, s) i) as [p1 s1]. cbn [fst snd] in *.
    destruct (IH p1 s1 Hf1) as (H1 & H2 & H3 & H4).
    split; [exact H1|]. split; [auto|]. split; [auto|].
    intros Hs. apply H4. rewrite Ht, forallb_app, Hs, Hw. reflexivity.
Qed.

Lemma init_state_regs x11 id0 : regs_ok (init_state x11 id0).
Proof.
  unfold regs_ok, init_state. cbn [mousebuttons modifierkeys pressedkey].
  split; [lia|]. split; [lia|]. split; [reflexivity|].
  repeat constructor; unfold schar_ok; lia.
Qed.

(** In every run of the program the globals stay within their C types
    and their intended values: [mousebuttons] is a 3-bit mask,
    [modifierkeys] a 16-bit mask, [pressedkey] eight values of type
    [char], and [on], [connectionok] and [prepareshutdown] are 0 or 1
    (the 2 that [onsignal] stores at line 1660 is overwritten before
    anything reads it).  No conversion in the embedding wraps around
    unnoticed. *)
Theorem globals_in_range pass sendres skipsdp stdin x11 id0 ins :
  let s := snd (main_loop pass sendres skipsdp stdin (Idle, init_state x11 id0) ins) in
  0 <= mousebuttons s <= 7
  /\ 0 <= modifierkeys s <= 0xffff
  /\ length (pressedkey s) = 8%nat
  /\ Forall schar_ok (pressedkey s)
  /\ (on s = 0 \/ on s = 1)
  /\ (connectionok s = 0 \/ connectionok s = 1)
  /\ (prepareshutdown s = 0 \/ prepareshutdown s = 1).
Proof.
  intros s.
  destruct (main_loop_run pass sendres skipsdp stdin ins Idle (init_state x11 id0) eq_refl)
    as (Hf & Hr & Hp & _).
  fold s in Hf, Hr, Hp.
  destruct (Hr (init_state_regs x11 id0)) as (Hmb & Hmk & Hl & Hc).
  split; [exact Hmb|]. split; [exact Hmk|]. split; [exact Hl|]. split; [exact Hc|].
  split; [|split].
  - destruct (main_loop_mute pass sendres skipsdp stdin ins Idle (init_state x11 id0)
                (init_state_mute_inv x11 id0)) as [_ Hon].
    fold s in Hon. rewrite Hon. destruct (toggled false (trace s)); auto.
  - rewrite Hf. destruct (fst _); cbn [session_flag]; auto.
  - apply Hp. left. reflexivity.
Qed.

(** Outside the connected phase nothing is sent: in every run,
    [connectionok] is 0 whenever [main] is not in its connected phase, and
    a step taken there (input drained while waiting for a host or right
    after accepting one) makes no [send] call, whatever the events are. *)
Theorem no_send_unless_connected pass sendres skipsdp stdin x11 id0 ins i :
  let ps := main_loop pass sendres skipsdp stdin (Idle, init_state x11 id0) ins in
  fst ps <> Connected ->
  connectionok (snd ps) = 0
  /\ attempts (new_actions (snd ps) (snd (main_step pass sendres skipsdp stdin ps i))) = [].
Proof.
  intros ps Hp.
  destruct (main_loop_run pass sendres skipsdp stdin ins Idle (init_state x11 id0) eq_refl)
    as (Hf & _).
  fold ps in Hf.
  assert (Hz : connectionok (snd ps) = 0).
  { rewrite Hf. destruct (fst ps); try reflexivity. contradiction. }
  split; [exact Hz|].
  destruct ps as [p s]. cbn [fst snd] in *.
  destruct (main_step_run pass sendres skipsdp stdin p s i) as (_ & _ & acts & Ht & _ & Hn).
  rewrite (new_actions_app _ _ _ Ht). apply Hn. exact Hz.
Qed.

Lemma no_send_unless_connected_witness :
  let ps := main_loop [] all_sent false quiet_stdin (Idle, init_state false 0)
              (unmute ++ [Accepted]) in
  fst ps = Negotiated
  /\ on (snd ps) = 1
  /\ connectionok (snd ps) = 0
  /\ attempts (new_actions (snd ps)
                 (snd (main_step [] all_sent false quiet_stdin ps (key KEY_A 1)))) = [].
Proof.
  split; [reflexivity|]. split; [reflexivity|].
  apply (no_send_unless_connected [] all_sent false quiet_stdin false 0 (unmute ++ [Accepted])
           (key KEY_A 1)).
  vm_compute. discriminate.
Defined.

Lemma wf_sent_attempts t :
  forallb wf_sent t = true ->
  Forall (fun a => wf_packet (snd (fst a)) = true) (attempts t).
Proof.
  induction t as [|a t IH]; intros H; [constructor|].
  cbn [forallb] in H. apply andb_true_iff in H as [Ha H].
  destruct a; cbn [attempts]; try (apply IH; exact H).
  constructor; [exact Ha|apply IH; exact H].
Qed.

(** Every packet handed to [send] in any run, whatever [pass] holds and
    whatever was on the stack where [hidrep] lies, is a complete report:
    6 bytes A1 01 with a button byte of at most 7, or 11 bytes A1 02,
    every byte between 0 and 255. *)
Theorem sent_packets_well_formed pass sendres skipsdp stdin x11 id0 ins :
  let s := snd (main_loop pass sendres skipsdp stdin (Idle, init_state x11 id0) ins) in
  Forall (fun a => wf_packet (snd (fst a)) = true) (attempts (trace s)).
Proof.
  intros s. apply wf_sent_attempts.
  destruct (main_loop_run pass sendres skipsdp stdin ins Idle (init_state x11 id0) eq_refl)
    as (_ & _ & _ & H).
  apply H. reflexivity.
Qed.

(** A session ends only on a failed transmission: a wake-up of the
    connected phase in which no tested [send] fails leaves [main] in the
    connected phase with the state [parse_events] returned; no key and no
    mouse event closes the session, sets the shutdown flag or closes a
    descriptor (the process may have exited through the reserved key with
    left control). *)
Theorem session_survives_wakeup pass sendres skipsdp stdin w s :
  running s = true ->
  connectionok s <> 0 ->
  let s1 := fst (parse_events pass sendres w s) in
  existsb checked_fail (new_actions s s1) = false ->
  main_step pass sendres skipsdp stdin (Connected, s) (Wake w) = (Connected, s1)
  /\ connectionok s1 = connectionok s
  /\ prepareshutdown s1 = prepareshutdown s
  /\ forallb translator_action (new_actions s s1) = true.
Proof.
  intros Hrun Hcon s1 Hq.
  destruct (parse_events_facts pass sendres w s)
    as (Hc & Hp & _ & _ & acts & Ht & Hw & _ & Hf).
  fold s1 in Hc, Hp, Ht. rewrite (new_actions_app _ _ _ Ht) in Hq |- *.
  assert (Hr : (snd (parse_events pass sendres w s) =? -1) = false).
  { apply Z.eqb_neq. intros E. apply Hf in E. congruence. }
  split; [|split; [exact Hc|split; [exact Hp|exact Hw]]].
  unfold main_step. rewrite Hrun, pump_parse. cbv zeta. fold s1.
  rewrite Hr, andb_false_r.
  destruct (running s1); [|reflexivity].
  rewrite Hc. apply Z.eqb_neq in Hcon. rewrite Hcon. reflexivity.
Qed.

Lemma session_survives_wakeup_witness :
  let w := (no_junk, [InputEvent EV_KEY KEY_A 1; InputEvent EV_REL ABS_X 5]) in
  let s1 := fst (parse_events [] all_sent w typing_state) in
  length (attempts (new_actions typing_state s1)) = 2%nat
  /\ main_step [] all_sent false quiet_stdin (Connected, typing_state) (Wake w) = (Connected, s1)
  /\ connectionok s1 = connectionok typing_state
  /\ prepareshutdown s1 = prepareshutdown typing_state
  /\ forallb translator_action (new_actions typing_state s1) = true.
Proof.
  split; [reflexivity|].
  apply (session_survives_wakeup [] all_sent false quiet_stdin
           (no_junk, [InputEvent EV_KEY KEY_A 1; InputEvent EV_REL ABS_X 5])
           typing_state).
  - reflexivity.
  - vm_compute. discriminate.
  - reflexivity.
Defined.

(** ** Signals and the end of the program *)

Lemma shutdown_actions skipsdp stdin s :
  trace (shutdown skipsdp stdin s) = trace s ++ teardown_actions skipsdp stdin
  /\ proc (shutdown skipsdp stdin s)
     = (if cleanup_stdin false stdin then Exited 0 else Stuck)
  /\ prepareshutdown (shutdown skipsdp stdin s) = prepareshutdown s
  /\ connectionok (shutdown skipsdp stdin s) = connectionok s.
Proof.
  unfold shutdown, teardown_actions.
  destruct skipsdp, (cleanup_stdin false stdin); trace_norm; repeat split.
Qed.

(** [cleanup_stdin] returns at once when the first [select] reports
    nothing. *)
Lemma cleanup_stdin_nothing_pending r rest :
  r <= 0 -> cleanup_stdin false (r :: rest) = true.
Proof.
  intros H. cbn [cleanup_stdin].
  replace (0 <? r) with false by (symmetry; apply Z.ltb_ge; exact H).
  reflexivity.
Qed.

(** The inner loop is left only by a [read] that returns 0. *)
Lemma cleanup_stdin_reading rest :
  Forall (fun x => x <> 0) rest -> cleanup_stdin true rest = false.
Proof.
  induction 1 as [|x rest Hx _ IH]; [reflexivity|]. cbn [cleanup_stdin].
  apply Z.eqb_neq in Hx. rewrite Hx. exact IH.
Qed.

Lemma cleanup_stdin_pending r rest :
  0 < r -> Forall (fun x => x <> 0) rest -> cleanup_stdin false (r :: rest) = false.
Proof.
  intros H Hrest. cbn [cleanup_stdin].
  replace (0 <? r) with true by (symmetry; apply Z.ltb_lt; exact H).
  apply cleanup_stdin_reading. exact Hrest.
Qed.

Lemma translator_no_teardown acts :
  forallb translator_action acts = true -> existsb teardown_action acts = false.
Proof.
  induction acts as [|a acts IH]; [reflexivity|]. cbn [forallb existsb].
  intros H. apply andb_true_iff in H as [Ha H]. rewrite IH by exact H.
  destruct a as [| | | |d| | | | |]; try discriminate Ha; reflexivity.
Qed.

(** One wake-up of the connected phase: the session goes on unless a
    tested [send] failed. *)
Lemma connected_wakeup pass sendres skipsdp stdin w s :
  running s = true ->
  connectionok s <> 0 ->
  let s1 := fst (parse_events pass sendres w s) in
  main_step pass sendres skipsdp stdin (Connected, s) (Wake w)
  = if existsb checked_fail (new_actions s s1)
    then loop_top skipsdp stdin (session_end (set_connectionok 0 s1))
    else (Connected, s1).
Proof.
  intros Hrun Hcon s1.
  destruct (parse_events_facts pass sendres w s)
    as (Hc & _ & _ & Hcode & acts & Ht & _ & _ & Hf).
  fold s1 in Hc, Ht, Hcode. rewrite (new_actions_app _ _ _ Ht).
  unfold main_step. rewrite Hrun, pump_parse. cbv zeta. fold s1.
  destruct (existsb checked_fail acts) eqn:Hq.
  - assert (Hm : snd (parse_events pass sendres w s) = -1) by (apply Hf; reflexivity).
    destruct Hcode as [E|[_ Hproc]]; [congruence|].
    assert (Hrun1 : running s1 = true) by (unfold running; rewrite Hproc; exact Hrun).
    rewrite Hrun1, Hm. change (-1 =? -1) with true. cbn [andb].
    change (running (set_connectionok 0 s1)) with (running s1). rewrite Hrun1.
    cbn [connectionok set_connectionok]. change (0 =? 0) with true. reflexivity.
  - assert (Hr : (snd (parse_events pass sendres w s) =? -1) = false).
    { apply Z.eqb_neq. intros E. apply Hf in E. discriminate E. }
    rewrite Hr, andb_false_r.
    destruct (running s1); [|reflexivity].
    rewrite Hc. apply Z.eqb_neq in Hcon. rewrite Hcon. reflexivity.
Qed.

Lemma main_loop_trace pass sendres skipsdp stdin ins : forall p s,
  exists acts,
    trace (snd (main_loop pass sendres skipsdp stdin (p, s) ins)) = trace s ++ acts.
Proof.
  unfold main_loop. induction ins as [|i ins IH]; intros p s; cbn [fold_left].
  - exists []. symmetry. apply app_nil_r.
  - destruct (main_step_run pass sendres skipsdp stdin p s i) as (_ & _ & a1 & Ht1 & _).
    destruct (main_step pass sendres skipsdp stdin (p, s) i) as [p1 s1].
    cbn [snd] in Ht1. destruct (IH p1 s1) as (a2 & Ht2).
    exists (a1 ++ a2). rewrite Ht2, Ht1, app_assoc. reflexivity.
Qed.

(** Any number of wake-ups of the connected phase: as long as no tested
    [send] fails the session goes on, whatever the shutdown flag says. *)
Lemma connected_wakeups pass sendres skipsdp stdin ws : forall s,
  connectionok s <> 0 ->
  let ps := main_loop pass sendres skipsdp stdin (Connected, s) (map Wake ws) in
  exists acts,
    trace (snd ps) = trace s ++ acts
    /\ (existsb checked_fail acts = false ->
        fst ps = Connected
        /\ prepareshutdown (snd ps) = prepareshutdown s
        /\ connectionok (snd ps) = connectionok s
        /\ existsb teardown_action acts = false).
Proof.
  induction ws as [|w ws IH]; intros s Hcon; cbv zeta.
  - exists []. split; [symmetry; apply app_nil_r|]. intros _. repeat split.
  - cbn [map]. unfold main_loop in *. cbn [fold_left]. cbv zeta in IH.
    destruct (running s) eqn:Hrun.
    + rewrite (connected_wakeup pass sendres skipsdp stdin w s Hrun Hcon). cbv zeta.
      destruct (parse_events_facts pass sendres w s)
        as (Hc & Hp & _ & _ & a1 & Ht1 & Hw1 & _).
      set (s1 := fst (parse_events pass sendres w s)) in *.
      rewrite (new_actions_app _ _ _ Ht1).
      destruct (existsb checked_fail a1) eqn:Hq.
      * destruct (loop_top_run skipsdp stdin (session_end (set_connectionok 0 s1)))
          as (_ & _ & a2 & Ht2 & _).
        destruct (loop_top skipsdp stdin (session_end (set_connectionok 0 s1)))
          as [p2 s2].
        cbn [snd] in Ht2.
        destruct (main_loop_trace pass sendres skipsdp stdin (map Wake ws) p2 s2)
          as (a3 & Ht3).
        unfold main_loop in Ht3.
        exists (a1 ++ [Close Sint; Close Sctl; Notice; Sleep 500000] ++ a2 ++ a3).
        split.
        -- rewrite Ht3, Ht2. unfold session_end. trace_norm. rewrite Ht1.
           rewrite <- !app_assoc. reflexivity.
        -- rewrite existsb_app, Hq. discriminate.
      * assert (Hcon1 : connectionok s1 <> 0) by congruence.
        destruct (IH s1 Hcon1) as (a2 & Ht2 & H2).
        exists (a1 ++ a2). split; [rewrite Ht2, Ht1, app_assoc; reflexivity|].
        rewrite !existsb_app, Hq. cbn [orb]. intros Hq2.
        destruct (H2 Hq2) as (Hph & Hps & Hco & Htd).
        split; [exact Hph|]. split; [congruence|]. split; [congruence|].
        rewrite (translator_no_teardown a1 Hw1). exact Htd.
    + replace (main_step pass sendres skipsdp stdin (Connected, s) (Wake w))
        with (Connected, s) by (unfold main_step; rewrite Hrun; reflexivity).
      apply IH. exact Hcon.
Qed.

(** A hangup, interrupt or termination signal that arrives while no
    session is connected starts the teardown of [main]: the two listening
    sockets are closed, the SDP record is removed unless [-s] was given,
    the inputs are closed and [cleanup_stdin] is entered.  The process
    exits with status 0 when [cleanup_stdin] returns and stays inside it
    otherwise.  This holds in the idle phase at the signal, and in the
    negotiated phase when the draining loop finds no more input.
    [cleanup_stdin] returns at once when nothing is pending on the
    standard input, and does not return when input is pending and no
    [read] returns 0.  The shutdown flag is 1 after every one of the
    three signals. *)
Theorem shutdown_signal_when_idle pass sendres skipsdp stdin s n :
  running s = true ->
  connectionok s = 0 ->
  n = SIGHUP \/ n = SIGINT \/ n = SIGTERM ->
  let ps' := main_step pass sendres skipsdp stdin (Idle, s) (Signal n) in
  prepareshutdown (snd ps') = 1
  /\ new_actions s (snd ps') = teardown_actions skipsdp stdin
  /\ proc (snd ps') = (if cleanup_stdin false stdin then Exited 0 else Stuck)
  /\ main_loop pass sendres skipsdp stdin (Negotiated, s) [Signal n; Quiet] = ps'
  /\ (forall r rest, stdin = r :: rest -> r <= 0 -> proc (snd ps') = Exited 0)
  /\ (forall r rest, stdin = r :: rest -> 0 < r -> Forall (fun x => x <> 0) rest ->
      proc (snd ps') = Stuck).
Proof.
  intros Hrun Hcon Hn ps'.
  assert (Hs : exists t, onsignal n s = t /\ prepareshutdown t = 1
                         /\ trace t = trace s /\ running t = true).
  { unfold onsignal. destruct Hn as [-> | [-> | ->]].
    - eexists. split; [reflexivity|]. repeat split. exact Hrun.
    - change (SIGINT =? SIGINT) with true. cbn iota. rewrite Hcon.
      change (0 =? 0) with true. cbn iota.
      eexists. split; [reflexivity|]. repeat split. exact Hrun.
    - eexists. split; [reflexivity|]. repeat split. exact Hrun. }
  destruct Hs as (t & Ht & Hflag & Htr & Hrt).
  assert (Hps : ps' = (Idle, shutdown skipsdp stdin t)).
  { subst ps'. unfold main_step. rewrite Hrun, Ht. unfold loop_top.
    rewrite Hflag. reflexivity. }
  destruct (shutdown_actions skipsdp stdin t) as (Hta & Hp & Hf & _).
  assert (Hproc : proc (snd ps') = (if cleanup_stdin false stdin then Exited 0 else Stuck))
    by (rewrite Hps; exact Hp).
  split; [rewrite Hps; cbn [snd]; congruence|].
  split; [rewrite Hps; cbn [snd]; apply new_actions_app; rewrite Hta, Htr; reflexivity|].
  split; [exact Hproc|]. split.
  - rewrite Hps. unfold main_loop. cbn [fold_left]. unfold main_step at 2.
    rewrite Hrun, Ht. unfold main_step. rewrite Hrt, Hflag. reflexivity.
  - split.
    + intros r rest -> Hr. rewrite Hproc, cleanup_stdin_nothing_pending by exact Hr.
      reflexivity.
    + intros r rest -> Hr Hrest.
      rewrite Hproc, cleanup_stdin_pending by assumption. reflexivity.
Qed.

Lemma shutdown_signal_when_idle_witness :
  let ps' := main_step [] all_sent false quiet_stdin (Idle, init_state false 0)
               (Signal SIGINT) in
  let ps'' := main_step [] all_sent false [1; 3; -1] (Idle, init_state false 0)
                (Signal SIGINT) in
  (prepareshutdown (snd ps') = 1
   /\ new_actions (init_state false 0) (snd ps')
      = [Close Sockint; Close Sockctl; SdpUnregister; CloseInputs; CleanupStdin]
   /\ proc (snd ps') = Exited 0)
  /\ (new_actions (init_state false 0) (snd ps'')
      = [Close Sockint; Close Sockctl; SdpUnregister; CloseInputs]
      /\ proc (snd ps'') = Stuck).
Proof.
  split.
  - destruct (shutdown_signal_when_idle [] all_sent false quiet_stdin
                (init_state false 0) SIGINT) as (H1 & H2 & H3 & _);
      [reflexivity|reflexivity|right; left; reflexivity|].
    split; [exact H1|]. split; [exact H2|exact H3].
  - destruct (shutdown_signal_when_idle [] all_sent false [1; 3; -1]
                (init_state false 0) SIGINT) as (_ & H2 & H3 & _);
      [reflexivity|reflexivity|right; left; reflexivity|].
    split; [exact H2|exact H3].
Defined.

(** Signals during a session.  An interrupt signal is ignored while a
    session is connected.  A termination or hangup signal only sets the
    shutdown flag: through any number of wake-ups that follow, as long as
    no tested [send] fails, [main] stays in the connected phase, events
    are still translated and sent and nothing of the teardown is run.  In
    the wake-up in which a tested [send] fails the session teardown is
    followed by the teardown of [main]; the process exits with status 0
    when [cleanup_stdin] returns and stays inside it otherwise. *)
Theorem termination_signal_during_session pass sendres skipsdp stdin s :
  running s = true ->
  connectionok s <> 0 ->
  main_step pass sendres skipsdp stdin (Connected, s) (Signal SIGINT) = (Connected, s)
  /\ forall n ws, n = SIGTERM \/ n = SIGHUP ->
     let ps := main_loop pass sendres skipsdp stdin (Connected, s)
                 (Signal n :: map Wake ws) in
     existsb checked_fail (new_actions s (snd ps)) = false ->
     fst ps = Connected
     /\ prepareshutdown (snd ps) = 1
     /\ connectionok (snd ps) = connectionok s
     /\ existsb teardown_action (new_actions s (snd ps)) = false
     /\ forall w,
          running (snd ps) = true ->
          let s1 := fst (parse_events pass sendres w (snd ps)) in
          let ps' := main_step pass sendres skipsdp stdin ps (Wake w) in
          existsb checked_fail (new_actions (snd ps) s1) = true ->
          fst ps' = Idle
          /\ proc (snd ps') = (if cleanup_stdin false stdin then Exited 0 else Stuck)
          /\ new_actions s1 (snd ps')
             = [Close Sint; Close Sctl; Notice; Sleep 500000]
               ++ teardown_actions skipsdp stdin.
Proof.
  intros Hrun Hcon. split.
  - unfold main_step. rewrite Hrun. unfold onsignal.
    change (SIGINT =? SIGINT) with true. cbn iota.
    apply Z.eqb_neq in Hcon. rewrite Hcon. reflexivity.
  - intros n ws Hn. cbv zeta.
    set (s0 := set_prepareshutdown 1 s).
    assert (Hstep : main_step pass sendres skipsdp stdin (Connected, s) (Signal n)
                    = (Connected, s0)).
    { unfold main_step. rewrite Hrun. unfold onsignal.
      destruct Hn as [-> | ->]; reflexivity. }
    unfold main_loop. cbn [fold_left]. rewrite Hstep.
    assert (Hcon0 : connectionok s0 <> 0) by exact Hcon.
    destruct (connected_wakeups pass sendres skipsdp stdin ws s0 Hcon0)
      as (acts & Ht & H).
    unfold main_loop in Ht, H.
    destruct (fold_left (main_step pass sendres skipsdp stdin) (map Wake ws)
                (Connected, s0)) as [p1 t] eqn:Hml.
    cbn [fst snd] in *.
    assert (Hta : trace t = trace s ++ acts) by exact Ht.
    rewrite (new_actions_app _ _ _ Hta). intros Hq.
    destruct (H Hq) as (Hph & Hps & Hco & Htd). subst p1.
    split; [reflexivity|]. split; [exact Hps|]. split; [exact Hco|].
    split; [exact Htd|].
    intros w Hrt Hfail.
    assert (Hct : connectionok t <> 0) by (rewrite Hco; exact Hcon).
    rewrite (connected_wakeup pass sendres skipsdp stdin w t Hrt Hct).
    cbv zeta. rewrite Hfail.
    destruct (parse_events_facts pass sendres w t) as (_ & Hp & _).
    set (s1 := fst (parse_events pass sendres w t)) in *.
    unfold loop_top.
    assert (Hp1 : prepareshutdown (session_end (set_connectionok 0 s1)) = 1).
    { unfold session_end. trace_norm. rewrite Hp. exact Hps. }
    rewrite Hp1. change (1 =? 0) with false. cbn iota. cbn [fst snd].
    destruct (shutdown_actions skipsdp stdin (session_end (set_connectionok 0 s1)))
      as (Hts & Hps' & _).
    split; [reflexivity|]. split; [exact Hps'|].
    apply new_actions_app. rewrite Hts. unfold session_end. trace_norm.
    reflexivity.
Qed.

Lemma termination_signal_during_session_witness :
  let s := typing_state in
  let ps := main_loop [] (fails_at 3) true quiet_stdin (Connected, s)
              [Signal SIGTERM; key KEY_A 1; key KEY_A 0] in
  let w := (no_junk, [InputEvent EV_REL ABS_X 5]) in
  let ps' := main_step [] (fails_at 3) true quiet_stdin ps (Wake w) in
  main_step [] (fails_at 3) true quiet_stdin (Connected, s) (Signal SIGINT) = (Connected, s)
  /\ length (attempts (new_actions s (snd ps))) = 2%nat
  /\ fst ps = Connected
  /\ prepareshutdown (snd ps) = 1
  /\ fst ps' = Idle
  /\ proc (snd ps') = Exited 0
  /\ new_actions (fst (parse_events [] (fails_at 3) w (snd ps))) (snd ps')
     = [Close Sint; Close Sctl; Notice; Sleep 500000;
        Close Sockint; Close Sockctl; CloseInputs; CleanupStdin].
Proof.
  destruct (termination_signal_during_session [] (fails_at 3) true quiet_stdin typing_state)
    as [H1 H2]; [reflexivity|vm_compute; discriminate|].
  split; [exact H1|]. split; [reflexivity|].
  destruct (H2 SIGTERM [(no_junk, [InputEvent EV_KEY KEY_A 1]);
                        (no_junk, [InputEvent EV_KEY KEY_A 0])]
              (or_introl eq_refl) eq_refl) as (Ha & Hb & _ & _ & Hc).
  split; [exact Ha|]. split; [exact Hb|].
  apply (Hc (no_junk, [InputEvent EV_REL ABS_X 5])); reflexivity.
Defined.

Lemma parse_events_unrequested pass sendres w s :
  unrequested s -> unrequested (fst (parse_events pass sendres w s)).
Proof.
  intros [Hp Ht].
  destruct (parse_events_facts pass sendres w s)
    as (_ & Hp1 & _ & _ & acts & Ht1 & Hw & _).
  split; [congruence|].
  rewrite Ht1, existsb_app, Ht, (translator_no_teardown acts Hw). reflexivity.
Qed.

Lemma unrequested_plain s s' acts :
  trace s' = trace s ++ acts -> existsb teardown_action acts = false ->
  prepareshutdown s' = prepareshutdown s ->
  unrequested s -> unrequested s'.
Proof.
  intros Ht Ha Hp [Hp0 Ht0]. split; [congruence|].
  rewrite Ht, existsb_app, Ht0, Ha. reflexivity.
Qed.

Ltac plain_unrequested :=
  eapply unrequested_plain;
  [ trace_norm; first [reflexivity | symmetry; apply app_nil_r]
  | reflexivity | reflexivity ].

Lemma loop_top_unrequested skipsdp stdin s :
  unrequested s -> loop_top skipsdp stdin s = (Idle, s).
Proof. intros [Hp _]. unfold loop_top. rewrite Hp. reflexivity. Qed.

Lemma main_step_unrequested pass sendres skipsdp stdin p s i :
  is_signal i = false ->
  unrequested s -> unrequested (snd (main_step pass sendres skipsdp stdin (p, s) i)).
Proof.
  intros Hi Hs. unfold main_step. destruct (running s); [|exact Hs].
  destruct i as [w| | | |n]; [| | | |discriminate Hi].
  - pose proof (parse_events_unrequested pass sendres w s Hs) as H1.
    destruct p.
    + rewrite drain_parse. destruct (running _); [|exact H1].
      rewrite loop_top_unrequested by exact H1. exact H1.
    + rewrite drain_parse. exact H1.
    + rewrite pump_parse. cbv zeta.
      set (s1 := fst (parse_events pass sendres w s)) in *.
      assert (H2 : unrequested (session_end (set_connectionok 0 s1))).
      { revert H1. unfold session_end. plain_unrequested. }
      assert (H3 : unrequested (session_end s1)).
      { revert H1. unfold session_end. plain_unrequested. }
      destruct (running s1) eqn:Hrun; cbn [andb].
      * destruct (snd (parse_events pass sendres w s) =? -1).
        -- change (running (set_connectionok 0 s1)) with (running s1).
           rewrite Hrun. cbn [connectionok set_connectionok].
           change (0 =? 0) with true. cbn iota.
           rewrite loop_top_unrequested by exact H2. exact H2.
        -- rewrite Hrun. destruct (connectionok s1 =? 0); [|exact H1].
           rewrite loop_top_unrequested by exact H3. exact H3.
      * rewrite Hrun. exact H1.
  - destruct p; cbn [snd]; try exact Hs.
    destruct Hs as [Hp Ht]. rewrite Hp. change (0 =? 0) with true. cbn iota.
    cbn [snd]. unfold session_start. split; [exact Hp|exact Ht].
  - destruct p; cbn [snd]; exact Hs.
  - destruct p; cbn [snd]; try exact Hs.
    assert (H1 : unrequested (emit (Close Sctl) (set_connectionok 0 s))).
    { revert Hs. plain_unrequested. }
    rewrite loop_top_unrequested by exact H1. exact H1.
Qed.

(** Without a signal the program never shuts down: in a run whose inputs
    hold no signal the shutdown flag stays 0 and no action of the teardown
    of [main] is ever taken.  [parse_events] returns 0 or -1 only, so the
    branches of [main] for a return value below -1 are never entered, and
    the one way left to end the program from the keyboard is the [exit]
    of the reserved key with left control. *)
Theorem no_teardown_without_signal pass sendres skipsdp stdin x11 id0 ins :
  existsb is_signal ins = false ->
  let s := snd (main_loop pass sendres skipsdp stdin (Idle, init_state x11 id0) ins) in
  prepareshutdown s = 0
  /\ existsb teardown_action (trace s) = false.
Proof.
  intros Hins s.
  assert (H : forall p s0, unrequested s0 ->
            unrequested (snd (main_loop pass sendres skipsdp stdin (p, s0) ins))).
  { clear s. unfold main_loop. induction ins as [|i ins IH]; intros p s0 H0; [exact H0|].
    cbn [existsb] in Hins. apply orb_false_iff in Hins as [Hi Hins].
    cbn [fold_left].
    pose proof (main_step_unrequested pass sendres skipsdp stdin p s0 i Hi H0) as H1.
    destruct (main_step pass sendres skipsdp stdin (p, s0) i) as [p1 s1].
    apply IH; assumption. }
  apply H. split; reflexivity.
Qed.

Lemma no_teardown_without_signal_witness :
  let s := snd (main_loop [(0, 0x1E)] (fails_at 5) false quiet_stdin (Idle, init_state false 0)
                  (hold_a_1_type_pass ++ connect ++ [key KEY_A 0])) in
  existsb failed_send (trace s) = true
  /\ prepareshutdown s = 0
  /\ existsb teardown_action (trace s) = false.
Proof.
  split; [reflexivity|].
  apply (no_teardown_without_signal [(0, 0x1E)] (fails_at 5) false quiet_stdin false 0
           (hold_a_1_type_pass ++ connect ++ [key KEY_A 0])).
  reflexivity.
Defined.

(** ** The burst of [pass] *)

Lemma burst_sends_cons sendres n0 pk e l :
  burst_sends sendres n0 pk (e :: l)
  = (AtBurst, burst_packet pk e, sendres n0) :: burst_sends sendres (S n0) pk l.
Proof.
  unfold burst_sends. rewrite imap_cons. rewrite Nat.add_0_r. f_equal.
  apply imap_ext. intros i x _. cbn. f_equal. f_equal. lia.
Qed.

Lemma burst_packet_insert pk x e :
  burst_packet (<[0%nat := x]> pk) e = burst_packet pk e.
Proof. unfold burst_packet. rewrite list_insert_insert. reflexivity. Qed.

Lemma burst_sends_insert sendres n0 pk x l :
  burst_sends sendres n0 (<[0%nat := x]> pk) l = burst_sends sendres n0 pk l.
Proof.
  unfold burst_sends. apply imap_ext. intros i e _. cbn.
  rewrite burst_packet_insert. reflexivity.
Qed.

Lemma last_modifier_cons m e l : last_modifier m (e :: l) = last_modifier (fst e) l.
Proof.
  unfold last_modifier. destruct l as [|e' l]; [reflexivity|].
  rewrite last_cons. destruct (last (e' :: l)) eqn:E; [reflexivity|].
  apply last_None in E. discriminate E.
Qed.

Lemma new_actions_trans s s1 s' a1 a2 :
  trace s1 = trace s ++ a1 -> trace s' = trace s1 ++ a2 ->
  new_actions s s' = a1 ++ new_actions s1 s'.
Proof.
  intros H1 H2. rewrite (new_actions_app s1 s' a2 H2).
  apply new_actions_app. rewrite H2, H1, app_assoc. reflexivity.
Qed.

Lemma burst_complete sendres l : forall hidrep j m s,
  connectionok s <> 0 -> on s <> 0 -> 1 <= j ->
  (forall k, (length (attempts (trace s)) <= k < length (attempts (trace s)) + length l)%nat ->
             1 <= sendres k) ->
  exists h' s' j',
    burst sendres l hidrep j m s = (h', s', Fall j' (last_modifier m l))
    /\ 1 <= j'
    /\ attempts (new_actions s s')
       = burst_sends sendres (length (attempts (trace s))) (pressedkey s) l
    /\ <[0%nat := 0]> (pressedkey s') = <[0%nat := 0]> (pressedkey s)
    /\ connectionok s' = connectionok s /\ on s' = on s
    /\ modifierkeys s' = modifierkeys s.
Proof.
  induction l as [|[modify k] rest IH]; intros hidrep j m s Hcon Hon Hj Hall.
  - exists hidrep, s, j. cbn [burst]. split; [reflexivity|]. split; [exact Hj|].
    rewrite new_actions_nil. repeat split.
  - cbn [burst]. rewrite peek_put_keyb. trace_norm.
    pose proof Hcon as Hcon'. pose proof Hon as Hon'.
    apply Z.eqb_neq in Hcon', Hon'. rewrite Hcon', Hon'. trace_norm.
    rewrite attempts_app, length_app. cbn [attempts length]. rewrite Nat.add_0_r.
    assert (Hr : 1 <= sendres (length (attempts (trace s)))).
    { apply Hall. cbn [length]. lia. }
    assert (Hg : (1 >? sendres (length (attempts (trace s)))) = false).
    { rewrite Z.gtb_ltb. apply Z.ltb_ge. exact Hr. }
    rewrite Hg.
    match goal with
    | |- context [burst sendres rest ?h ?jj modify ?st] =>
        set (s1 := st);
        destruct (IH h jj modify s1) as (h' & s' & j' & Hb & Hj' & Hat & Hpk & Hc' & Ho' & Hmk)
    end.
    + exact Hcon.
    + exact Hon.
    + exact Hr.
    + intros i Hi. apply Hall. subst s1. trace_norm.
      rewrite !attempts_app, !length_app in Hi. cbn [attempts length] in Hi.
      cbn [length]. lia.
    + exists h', s', j'. rewrite Hb. rewrite last_modifier_cons. cbn [fst].
      split; [reflexivity|]. split; [exact Hj'|].
      pose proof (burst_ok _ _ _ _ _ _ _ _ _ Hr Hb) as (_ & _ & acts & Ht & _).
      assert (Ht1 : trace s1 = trace s ++ [Report AtBurst
                (burst_packet (pressedkey s) (modify, k));
              Send AtBurst (burst_packet (pressedkey s) (modify, k))
                (sendres (length (attempts (trace s))))]).
      { subst s1. trace_norm. reflexivity. }
      rewrite (new_actions_trans s s1 s' _ _ Ht1 Ht). cbn [app attempts].
      rewrite burst_sends_cons, Hat. subst s1. trace_norm.
      rewrite ?attempts_app, ?length_app. cbn [attempts length].
      rewrite ?Nat.add_0_r, ?burst_packet_insert, burst_sends_insert.
      replace (length (attempts (trace s)) + 1)%nat
        with (S (length (attempts (trace s)))) by lia.
      split; [reflexivity|].
      split; [rewrite Hpk; trace_norm; rewrite list_insert_insert; reflexivity|].
      split; [exact Hc'|]. split; [exact Ho'|exact Hmk].
Qed.

Lemma key_common_sent sendres hidrep j m s u pressedmod value :
  connectionok s <> 0 -> on s <> 0 ->
  let mk := update_modifiers (modifierkeys s) pressedmod value in
  let entry := chars_at u (neo_layer mk) in
  let modify :=
    if snd entry =? 0
    then (if Z.land pressedmod 0x8000 =? 0 then m else to_uchar (to_schar mk))
    else fst entry in
  let pk := fst (update_keys value (snd entry) j (pressedkey s)) in
  let s' := snd (fst (key_common sendres hidrep j m s u pressedmod value)) in
  let pkt := 0xA1 :: REPORTID_KEYBD :: to_uchar modify :: key_bytes pk in
  new_actions s s'
  = [Report AtKeyb pkt; Send AtKeyb pkt (sendres (length (attempts (trace s))))]
  /\ pressedkey s' = pk /\ on s' = on s /\ modifierkeys s' = mk.
Proof.
  intros Hcon Hon mk entry modify pk s' pkt. subst s' pkt pk modify.
  unfold key_common. fold mk. fold entry.
  destruct (update_keys value (snd entry) j (pressedkey s)) as [pk j'].
  rewrite peek_put_keyb. trace_norm.
  apply Z.eqb_neq in Hcon, Hon. rewrite Hcon, Hon. trace_norm.
  rewrite attempts_app, length_app. cbn [attempts length]. rewrite Nat.add_0_r.
  destruct (1 >? _); trace_norm; (split; [|repeat split]);
    (erewrite new_actions_app by (trace_norm; reflexivity)); reflexivity.
Qed.

Lemma burst_sends_length sendres n0 pk l : length (burst_sends sendres n0 pk l) = length l.
Proof. unfold burst_sends. apply length_imap. Qed.

Lemma release_slot_0 pk :
  length pk = 8%nat ->
  fst (key_up 8 0 0 (<[0%nat := 0]> pk)) = drop 1 pk ++ [0].
Proof.
  intros H. rewrite key_up_remove by (rewrite length_insert; exact H).
  destruct pk as [|x tl]; [discriminate H|]. reflexivity.
Qed.

(** The stored string is typed: when the reserved key is released with
    right control held (and left control not), in a connected and unmuted
    session in which every [send] succeeds, one report per pair of [pass]
    is sent, in order, each with the modifier of its pair and the key of
    its pair in slot 0 and the keys held in slots 1 to 7 behind it, with
    no report in between that releases the key; then the report of the
    common path follows, which carries the modifier of the last pair and
    the array with slot 0 taken out.  The key that was held in slot 0 is
    no longer reported afterwards. *)
Theorem burst_types_pass pass sendres hidrep s :
  connectionok s <> 0 -> on s <> 0 ->
  Z.land (modifierkeys s) 0x1 <> 0x1 ->
  Z.land (modifierkeys s) 0x10 = 0x10 ->
  length (pressedkey s) = 8%nat ->
  let n0 := length (attempts (trace s)) in
  (forall k, (n0 <= k <= n0 + length pass)%nat -> 1 <= sendres k) ->
  let s' := snd (fst (handle_event pass sendres hidrep s sysrq_release)) in
  let released := drop 1 (pressedkey s) ++ [0] in
  attempts (new_actions s s')
  = burst_sends sendres n0 (pressedkey s) pass
    ++ [(AtKeyb,
         0xA1 :: REPORTID_KEYBD :: to_uchar (last_modifier 0 pass) :: key_bytes released,
         sendres (n0 + length pass)%nat)]
  /\ pressedkey s' = released
  /\ on s' = on s.
Proof.
  intros Hcon Hon Hl Hr Hlen n0 Hall s' released. subst s'.
  unfold sysrq_release. rewrite handle_event_sysrq. unfold sysrq.
  cbn [ev_value]. change (0 =? 0) with true. cbn iota.
  apply Z.eqb_neq in Hl. rewrite Hl. rewrite Hr. change (16 =? 16) with true. cbn iota.
  destruct (burst_complete sendres pass hidrep sizeof_input_event 0 s Hcon Hon)
    as (h1 & s1 & j1 & Hb & Hj1 & Hat & Hpk & Hc1 & Ho1 & Hmk1).
  { unfold sizeof_input_event. lia. }
  { intros k Hk. apply Hall. fold n0 in Hk. lia. }
  rewrite Hb.
  assert (H24 : 1 <= sizeof_input_event) by (unfold sizeof_input_event; lia).
  pose proof (burst_ok _ _ _ _ _ _ _ _ _ H24 Hb) as (_ & _ & acts & Ht & _).
  rewrite (new_actions_app _ _ _ Ht) in Hat.
  set (s2 := set_pressedkey (<[0%nat := 0]> (pressedkey s1)) s1).
  assert (Hc2 : connectionok s2 <> 0) by (subst s2; trace_norm; congruence).
  assert (Ho2 : on s2 <> 0) by (subst s2; trace_norm; congruence).
  destruct (key_common_sent sendres h1 j1 (last_modifier 0 pass) s2 1 0 0 Hc2 Ho2)
    as (Hnew & Hpk' & Hon' & _).
  rewrite chars_at_1 in Hnew, Hpk'. cbn [fst snd] in Hnew, Hpk'.
  change (0 =? 0) with true in Hnew. change (Z.land 0 32768 =? 0) with true in Hnew.
  cbn iota in Hnew.
  assert (Hrel : fst (update_keys 0 0 j1 (pressedkey s2)) = released).
  { unfold update_keys. change (0 =? 1) with false. change (0 =? 0) with true.
    cbn iota. subst s2. trace_norm. rewrite Hpk. apply release_slot_0. exact Hlen. }
  rewrite Hrel in Hnew, Hpk'.
  assert (Ht2 : trace s2 = trace s ++ acts) by (subst s2; trace_norm; exact Ht).
  match goal with
  | |- context [key_common ?a ?b ?c ?d ?e ?f ?g ?h] =>
      set (s3 := snd (fst (key_common a b c d e f g h))) in *
  end.
  assert (Ht3 : trace s3 = trace s2 ++ new_actions s2 s3).
  { subst s3. pose proof (key_common_ok sendres h1 j1 (last_modifier 0 pass) s2 1 0 0) as H.
    destruct (key_common sendres h1 j1 (last_modifier 0 pass) s2 1 0 0) as [[h3 s3] f3].
    specialize (H h3 s3 f3 Hj1 eq_refl). destruct H as (_ & _ & a3 & Ha3 & _).
    cbn [fst snd]. rewrite (new_actions_app _ _ _ Ha3). exact Ha3. }
  split; [|split].
  - rewrite (new_actions_trans s s2 s3 _ _ Ht2 Ht3), attempts_app, Hat, Hnew.
    cbn [attempts]. rewrite Ht2, attempts_app, length_app, Hat, burst_sends_length.
    reflexivity.
  - exact Hpk'.
  - rewrite Hon'. subst s2. trace_norm. exact Ho1.
Qed.

Lemma burst_types_pass_witness :
  let s := burst_ready_state in
  let s' := snd (fst (handle_event greeting all_sent no_junk s sysrq_release)) in
  pressedkey s = [0x18; 0x1E; 0; 0; 0; 0; 0; 0]
  /\ attempts (new_actions s s')
     = [(AtBurst, [0xA1; 2; 0x02; 0x0B; 0x1E; 0; 0; 0; 0; 0; 0], 11);
        (AtBurst, [0xA1; 2; 0x00; 0x0C; 0x1E; 0; 0; 0; 0; 0; 0], 11);
        (AtKeyb, [0xA1; 2; 0x00; 0x1E; 0; 0; 0; 0; 0; 0; 0], 11)]
  /\ pressedkey s' = [0x1E; 0; 0; 0; 0; 0; 0; 0]
  /\ on s' = on s.
Proof.
  split; [reflexivity|].
  apply (burst_types_pass greeting all_sent no_junk burst_ready_state).
  - vm_compute. discriminate.
  - vm_compute. discriminate.
  - vm_compute. discriminate.
  - reflexivity.
  - reflexivity.
  - intros k _. unfold all_sent. lia.
Defined.

(** ** The command line *)

Lemma prefix_2 (c1 c2 : Ascii.ascii) a :
  String.prefix (String.String c1 (String.String c2 String.EmptyString)) a = true ->
  exists r, a = String.String c1 (String.String c2 r).
Proof.
  destruct a as [|b1 [|b2 r]]; cbn [String.prefix].
  - discriminate.
  - destruct (Ascii.ascii_dec c1 b1); discriminate.
  - destruct (Ascii.ascii_dec c1 b1) as [<-|]; [|discriminate].
    destruct (Ascii.ascii_dec c2 b2) as [<-|]; [|discriminate].
    intros _. exists r. reflexivity.
Qed.

Lemma parse_args_app atoi malloc_ok l1 l2 : forall o n,
  parse_args atoi malloc_ok (l1 ++ l2) o n
  = match parse_args atoi malloc_ok l1 o n with
    | Proceed o' n' => parse_args atoi malloc_ok l2 o' n'
    | r => r
    end.
Proof.
  induction l1 as [|a l1 IH]; intros o n; [reflexivity|].
  cbn [app parse_args].
  repeat match goal with
  | |- context [if ?c then _ else _] => destruct c; try reflexivity; try apply IH
  end.
Qed.

(** The arguments are read left to right and the first one that asks for
    help, asks for the device list or is not known decides: [main]
    returns there, with the help text and status 0, with the device list,
    or with status 1, and nothing behind that argument is looked at. *)
Theorem command_line_stops_at_first atoi malloc_ok pre a post o n :
  parse_args atoi malloc_ok pre default_options 0 = Proceed o n ->
  is_terminal a = true ->
  parse_args atoi malloc_ok (pre ++ a :: post) default_options 0
  = if is_help a then ShowHelp
    else if String.eqb a "-l"%string then ListDevices
    else Abort 1.
Proof.
  intros Hpre Ha. rewrite parse_args_app, Hpre. cbn [parse_args].
  unfold is_terminal, is_skipsdp in Ha.
  destruct (is_help a); [reflexivity|]. cbn [orb] in Ha.
  apply negb_true_iff in Ha.
  repeat (apply orb_false_iff in Ha as [Ha ?]).
  repeat match goal with H : _ = false |- _ => rewrite H; clear H end.
  cbn [orb]. destruct (String.eqb a "-l"); reflexivity.
Qed.

Lemma command_line_stops_at_first_witness :
  parse_args decimal (fun _ => true) ["-x"; "-e3"; "-q"; "--help"]%string default_options 0
  = Abort 1.
Proof.
  apply (command_line_stops_at_first decimal (fun _ => true) ["-x"; "-e3"]%string
           "-q"%string ["--help"]%string
           (Options false 3 true None 0 1 true) 1);
    reflexivity.
Defined.

Lemma prefix_empty x : String.prefix "" x = true.
Proof. destruct x; reflexivity. Qed.

Ltac class_facts a :=
  repeat match goal with
  | H : (_ || _) = true |- _ => apply orb_true_iff in H as [H|H]
  | H : String.eqb a _ = true |- _ => apply String.eqb_eq in H; subst a
  | H : String.prefix _ a = true |- _ =>
      apply prefix_2 in H; destruct H as [? H]; subst a
  end;
  unfold class_of, is_terminal, is_help, is_skipsdp, is_e, is_d, is_x, is_f;
  cbn; rewrite ?prefix_empty.

Lemma parse_args_spec atoi malloc_ok args : forall o0 n0 o n,
  parse_args atoi malloc_ok args o0 n0 = Proceed o n ->
  opt_skipsdp o = opt_skipsdp o0 || existsb is_skipsdp args
  /\ opt_mutex11 o = opt_mutex11 o0 || existsb is_x args
  /\ opt_result o = opt_result o0 || existsb is_x args
  /\ opt_stop_writing o = (if existsb is_x args then 1 else opt_stop_writing o0)
  /\ opt_debugevents o = (if existsb is_d args then 0xffff else opt_debugevents o0)
  /\ opt_onlyoneevdev o
     = match last_with is_e args with
       | Some a => atoi (skip2 a)
       | None => opt_onlyoneevdev o0
       end
  /\ opt_fifoname o
     = match last_with is_f args with
       | Some a => Some (skip2 a)
       | None => opt_fifoname o0
       end
  /\ existsb is_terminal args = false.
Proof.
  induction args as [|a rest IH]; intros o0 n0 o n H.
  - injection H as <- <-. cbn [existsb last_with]. rewrite !orb_false_r. repeat split.
  - cbn [parse_args] in H.
    destruct (is_help a) eqn:Eh; [discriminate H|].
    assert (Hcl : forall c, class_of a = c ->
              existsb is_terminal (a :: rest) = snd c || existsb is_terminal rest
              /\ existsb is_skipsdp (a :: rest) = fst (fst (fst (fst (fst c)))) || existsb is_skipsdp rest
              /\ existsb is_x (a :: rest) = snd (fst (fst c)) || existsb is_x rest
              /\ existsb is_d (a :: rest) = snd (fst (fst (fst c))) || existsb is_d rest
              /\ last_with is_e (a :: rest)
                 = match last_with is_e rest with
                   | Some b => Some b
                   | None => if snd (fst (fst (fst (fst c)))) then Some a else None
                   end
              /\ last_with is_f (a :: rest)
                 = match last_with is_f rest with
                   | Some b => Some b
                   | None => if snd (fst c) then Some a else None
                   end).
    { intros c <-. cbn [class_of fst snd existsb last_with]. repeat split. }
    destruct (String.eqb a "-s" || String.eqb a "--skipsdp") eqn:E1.
    { apply IH in H. destruct H as (H1 & H2 & H3 & H4 & H5 & H6 & H7 & H8).
      cbn [opt_skipsdp opt_onlyoneevdev opt_mutex11 opt_fifoname opt_debugevents
           opt_stop_writing opt_result] in *.
      destruct (Hcl (true, false, false, false, false, false)) as (C1 & C2 & C3 & C4 & C5 & C6).
      { class_facts a; reflexivity. }
      cbn [fst snd] in *.
      rewrite C1, C2, C3, C4, C5, C6, H1, H2, H3, H4, H5, H6, H7, H8.
      cbn [orb]. rewrite !orb_true_r.
      destruct (last_with is_e rest), (last_with is_f rest); repeat split. }
    destruct (String.prefix "-e" a) eqn:E2.
    { apply IH in H. destruct H as (H1 & H2 & H3 & H4 & H5 & H6 & H7 & H8).
      cbn [opt_skipsdp opt_onlyoneevdev opt_mutex11 opt_fifoname opt_debugevents
           opt_stop_writing opt_result] in *.
      destruct (Hcl (false, true, false, false, false, false)) as (C1 & C2 & C3 & C4 & C5 & C6).
      { class_facts a; reflexivity. }
      cbn [fst snd] in *.
      rewrite C1, C2, C3, C4, C5, C6, H1, H2, H3, H4, H5, H6, H7, H8.
      cbn [orb].
      destruct (last_with is_e rest), (last_with is_f rest); repeat split. }
    destruct (String.eqb a "-l") eqn:E3; [discriminate H|].
    destruct (String.eqb a "-d") eqn:E4.
    { apply IH in H. destruct H as (H1 & H2 & H3 & H4 & H5 & H6 & H7 & H8).
      cbn [opt_skipsdp opt_onlyoneevdev opt_mutex11 opt_fifoname opt_debugevents
           opt_stop_writing opt_result] in *.
      destruct (Hcl (false, false, true, false, false, false)) as (C1 & C2 & C3 & C4 & C5 & C6).
      { class_facts a; reflexivity. }
      cbn [fst snd] in *.
      rewrite C1, C2, C3, C4, C5, C6, H1, H2, H3, H4, H5, H6, H7, H8.
      cbn [orb].
      destruct (existsb is_d rest), (last_with is_e rest), (last_with is_f rest);
        repeat split. }
    destruct (String.eqb a "-x") eqn:E5.
    { destruct (malloc_ok n0); [|discriminate H].
      apply IH in H. destruct H as (H1 & H2 & H3 & H4 & H5 & H6 & H7 & H8).
      cbn [opt_skipsdp opt_onlyoneevdev opt_mutex11 opt_fifoname opt_debugevents
           opt_stop_writing opt_result] in *.
      destruct (Hcl (false, false, false, true, false, false)) as (C1 & C2 & C3 & C4 & C5 & C6).
      { class_facts a; reflexivity. }
      cbn [fst snd] in *.
      rewrite C1, C2, C3, C4, C5, C6, H1, H2, H3, H4, H5, H6, H7, H8.
      cbn [orb]. rewrite !orb_true_r.
      destruct (existsb is_x rest), (last_with is_e rest), (last_with is_f rest);
        repeat split. }
    destruct (String.prefix "-f" a) eqn:E6; [|discriminate H].
    apply IH in H. destruct H as (H1 & H2 & H3 & H4 & H5 & H6 & H7 & H8).
    cbn [opt_skipsdp opt_onlyoneevdev opt_mutex11 opt_fifoname opt_debugevents
         opt_stop_writing opt_result] in *.
    destruct (Hcl (false, false, false, false, true, false)) as (C1 & C2 & C3 & C4 & C5 & C6).
    { class_facts a; reflexivity. }
    cbn [fst snd] in *.
    rewrite C1, C2, C3, C4, C5, C6, H1, H2, H3, H4, H5, H6, H7, H8.
    cbn [orb].
    destruct (last_with is_e rest), (last_with is_f rest); repeat split.
Qed.

(** When the loop over [argv] runs through, the options are these:
    [skipsdp] is set exactly when [-s] or [--skipsdp] occurs; [-x] sets
    [mutex11] and [stop_writing] and allocates [result], all three
    together, as [init_state] has them; [-d] sets [debugevents] to
    0xffff; the device number is [atoi] of the last [-e] argument, or -1;
    the fifo name is taken from the last [-f] argument; and no argument
    is one that leaves [main]. *)
Theorem command_line_options atoi malloc_ok args o n :
  parse_args atoi malloc_ok args default_options 0 = Proceed o n ->
  opt_skipsdp o = existsb is_skipsdp args
  /\ opt_mutex11 o = existsb is_x args
  /\ opt_result o = opt_mutex11 o
  /\ opt_stop_writing o = (if opt_mutex11 o then 1 else 0)
  /\ opt_debugevents o = (if existsb is_d args then 0xffff else 0)
  /\ opt_onlyoneevdev o
     = match last_with is_e args with Some a => atoi (skip2 a) | None => -1 end
  /\ opt_fifoname o = option_map skip2 (last_with is_f args)
  /\ existsb is_terminal args = false
  /\ forall id0,
       stop_writing (init_state (opt_mutex11 o) id0) = opt_stop_writing o
       /\ result (init_state (opt_mutex11 o) id0) = opt_result o.
Proof.
  intros H. apply parse_args_spec in H.
  destruct H as (H1 & H2 & H3 & H4 & H5 & H6 & H7 & H8).
  cbn [default_options opt_skipsdp opt_onlyoneevdev opt_mutex11 opt_fifoname
       opt_debugevents opt_stop_writing opt_result orb] in *.
  split; [exact H1|]. split; [exact H2|]. split; [congruence|].
  split; [rewrite H4, H2; reflexivity|]. split; [exact H5|]. split; [exact H6|].
  split; [rewrite H7; destruct (last_with is_f args); reflexivity|].
  split; [exact H8|].
  intros id0. unfold init_state. cbn [stop_writing result].
  rewrite H4, H3, H2. split; reflexivity.
Qed.

Lemma command_line_options_witness :
  let o := Options true 7 true (Some "keys"%string) 0 1 true in
  opt_skipsdp o = true
  /\ opt_mutex11 o = true
  /\ opt_result o = opt_mutex11 o
  /\ opt_stop_writing o = 1
  /\ opt_debugevents o = 0
  /\ opt_onlyoneevdev o = 7
  /\ opt_fifoname o = Some "keys"%string
  /\ existsb is_terminal ["-e3"; "-x"; "-fkeys"; "-e7"; "--skipsdp"]%string = false
  /\ forall id0,
       stop_writing (init_state (opt_mutex11 o) id0) = opt_stop_writing o
       /\ result (init_state (opt_mutex11 o) id0) = opt_result o.
Proof.
  apply (command_line_options decimal (fun _ => true)
           ["-e3"; "-x"; "-fkeys"; "-e7"; "--skipsdp"]%string
           (Options true 7 true (Some "keys"%string) 0 1 true) 1).
  reflexivity.
Defined.

(** ** The tables of input devices *)

Lemma add_fds_loop_spec evs : forall fds j,
  let r := add_fds_loop evs fds j in
  fst r = fds ++ filter (fun e => 0 <= e) evs
  /\ j <= snd r
  /\ (forall e, e ∈ evs -> 0 <= e -> e <= snd r)
  /\ (snd r = j \/ snd r ∈ evs /\ 0 <= snd r).
Proof.
  induction evs as [|e rest IH]; intros fds j; cbn [add_fds_loop].
  - cbn [fst snd]. rewrite filter_nil, app_nil_r.
    split; [reflexivity|]. split; [lia|]. split; [intros e He; inversion He|auto].
  - destruct (Z.geb_spec e 0) as [Hge|Hlt].
    + specialize (IH (fds ++ [e]) (if e >? j then e else j)).
      destruct IH as (H1 & H2 & H3 & H4).
      rewrite filter_cons_True by lia.
      split; [rewrite H1, <- app_assoc; reflexivity|].
      assert (Hm : j <= (if e >? j then e else j) /\ e <= (if e >? j then e else j)).
      { destruct (Z.gtb_spec e j); lia. }
      split; [lia|]. split.
      * intros x Hx Hx0. apply elem_of_cons in Hx as [->|Hx]; [lia|auto].
      * destruct H4 as [H4|[H4 H5]].
        -- rewrite H4. destruct (Z.gtb_spec e j); [right; split; [left|lia]|left; reflexivity].
        -- right. split; [right; exact H4|exact H5].
    + specialize (IH fds j). destruct IH as (H1 & H2 & H3 & H4).
      rewrite filter_cons_False by lia.
      split; [exact H1|]. split; [exact H2|]. split.
      * intros x Hx Hx0. apply elem_of_cons in Hx as [->|Hx]; [lia|auto].
      * destruct H4 as [H4|[H4 H5]]; [left; exact H4|right; split; [right; exact H4|exact H5]].
Qed.

Lemma add_filedescriptors_spec d :
  fst (add_filedescriptors d) = filter (fun e => 0 <= e) (eventdevs d)
  /\ (forall e, e ∈ eventdevs d -> 0 <= e -> e <= snd (add_filedescriptors d))
  /\ (snd (add_filedescriptors d) = -1
      \/ snd (add_filedescriptors d) ∈ eventdevs d /\ 0 <= snd (add_filedescriptors d)).
Proof.
  unfold add_filedescriptors.
  destruct (add_fds_loop_spec (eventdevs d) [] (-1)) as (H1 & _ & H3 & H4).
  cbn [app] in H1. auto.
Qed.

(** [add_filedescriptors] puts exactly the descriptors of the table that
    are not negative into the set and returns the largest of them, -1
    when there is none; every member of the set is at most the value
    returned, so [select] with that value plus 1 watches them all. *)
Theorem add_filedescriptors_max d :
  let fds := fst (add_filedescriptors d) in
  let top := snd (add_filedescriptors d) in
  fds = filter (fun e => 0 <= e) (eventdevs d)
  /\ (forall fd, fd ∈ fds -> fd <= top)
  /\ (fds = [] -> top = -1)
  /\ (fds <> [] -> top ∈ fds).
Proof.
  intros fds top. subst fds top.
  destruct (add_filedescriptors_spec d) as (H1 & H3 & H4).
  split; [exact H1|]. rewrite H1. split; [|split].
  - intros fd Hfd. apply list_elem_of_filter in Hfd as [H0 Hin]. auto.
  - intros Hnil. destruct H4 as [H4|[H4 H5]]; [exact H4|].
    exfalso. assert (Hin : snd (add_filedescriptors d)
                           ∈ filter (fun e => 0 <= e) (eventdevs d)).
    { apply list_elem_of_filter. split; assumption. }
    rewrite Hnil in Hin. inversion Hin.
  - intros Hne. destruct H4 as [H4|[H4 H5]].
    + exfalso. destruct (filter (fun e => 0 <= e) (eventdevs d)) as [|x l] eqn:E;
        [apply Hne; reflexivity|].
      assert (Hx : x ∈ filter (fun e => 0 <= e) (eventdevs d)) by (rewrite E; left).
      apply list_elem_of_filter in Hx as [Hx0 Hx].
      specialize (H3 x Hx Hx0). lia.
    + apply list_elem_of_filter. split; assumption.
Qed.

Lemma tried_S useonlyone j n :
  tried useonlyone j (S n)
  = (if (useonlyone >=? 0) && negb (useonlyone =? j) then [] else [j])
    ++ tried useonlyone (j + 1) n.
Proof.
  unfold tried. rewrite seqZ_cons by lia.
  replace (Z.pred (Z.of_nat (S n))) with (Z.of_nat n) by lia.
  replace (Z.succ j) with (j + 1) by lia.
  destruct (Z.geb_spec useonlyone 0) as [Hge|Hlt]; cbn [andb].
  - destruct (Z.eqb_spec useonlyone j) as [->|Hne]; cbn [negb].
    + rewrite filter_cons_True by (right; reflexivity). reflexivity.
    + rewrite filter_cons_False by lia. reflexivity.
  - rewrite filter_cons_True by (left; lia). reflexivity.
Qed.

Lemma opened_S open_dev useonlyone j n :
  opened open_dev useonlyone j (S n)
  = (if (useonlyone >=? 0) && negb (useonlyone =? j) then []
     else if 0 <=? open_dev j then [open_dev j] else [])
    ++ opened open_dev useonlyone (j + 1) n.
Proof.
  unfold opened. rewrite tried_S.
  destruct ((useonlyone >=? 0) && negb (useonlyone =? j)); [reflexivity|].
  cbn [app fmap list_fmap].
  destruct (Z.leb_spec 0 (open_dev j)).
  - rewrite filter_cons_True by assumption. reflexivity.
  - rewrite filter_cons_False by lia. reflexivity.
Qed.

Lemma rd_insert evs i x : (i < length evs)%nat -> rd (<[i := x]> evs) i = x.
Proof. intros H. unfold rd. rewrite list_lookup_insert_eq by exact H. reflexivity. Qed.

Lemma initevents_loop_spec open_dev x11_id useonlyone scan n : forall j i evs id0,
  (i + n <= length evs)%nat ->
  Forall (fun fd => fd < 0) (drop i evs) ->
  let r := initevents_loop open_dev x11_id useonlyone scan n j i evs id0 in
  let i' := fst (fst r) in
  let evs' := snd (fst r) in
  i' = (i + length (opened open_dev useonlyone j n))%nat
  /\ take i' evs' = take i evs ++ opened open_dev useonlyone j n
  /\ Forall (fun fd => fd < 0) (drop i' evs')
  /\ length evs' = length evs.
Proof.
  induction n as [|n IH]; intros j i evs id0 Hlen Hneg; cbn [initevents_loop].
  - cbn [fst snd]. unfold opened, tried. cbn. rewrite Nat.add_0_r, app_nil_r. auto.
  - rewrite opened_S.
    destruct ((useonlyone >=? 0) && negb (useonlyone =? j)).
    + cbn [app]. apply IH; [lia|exact Hneg].
    + assert (Hi : (i < length evs)%nat) by lia.
      rewrite rd_insert by exact Hi.
      destruct (Z.leb_spec 0 (open_dev j)) as [Hfd|Hfd]; cbn [app].
      * match goal with
        | |- context [initevents_loop _ _ _ _ n (j + 1) (S i) ?e ?d] =>
            destruct (IH (j + 1) (S i) e d) as (H1 & H2 & H3 & H4)
        end.
        { rewrite length_insert. lia. }
        { rewrite drop_insert_lt by lia.
          destruct (lookup_lt_is_Some_2 evs i Hi) as [v Hv].
          rewrite (drop_S evs v i Hv) in Hneg.
          apply Forall_cons in Hneg as [_ Hneg]. exact Hneg. }
        cbv zeta in H1, H2, H3, H4 |- *.
        split; [rewrite H1; cbn [length]; lia|]. split; [|split; [exact H3|]].
        -- rewrite H2. rewrite (take_S_r _ _ (open_dev j))
             by (apply list_lookup_insert_eq; exact Hi).
           rewrite take_insert_ge by lia. rewrite <- app_assoc. reflexivity.
        -- rewrite H4. apply length_insert.
      * match goal with
        | |- context [initevents_loop _ _ _ _ n (j + 1) i ?e ?d] =>
            destruct (IH (j + 1) i e d) as (H1 & H2 & H3 & H4)
        end.
        { rewrite length_insert. lia. }
        { destruct (lookup_lt_is_Some_2 evs i Hi) as [v Hv].
          rewrite (drop_S evs v i Hv) in Hneg.
          rewrite (drop_S _ (open_dev j) i) by (apply list_lookup_insert_eq; exact Hi).
          rewrite drop_insert_lt by lia.
          apply Forall_cons in Hneg as [_ Hneg]. constructor; [exact Hfd|exact Hneg]. }
        cbv zeta in H1, H2, H3, H4 |- *.
        split; [exact H1|]. split; [|split; [exact H3|]].
        -- rewrite H2. rewrite take_insert_ge by lia. reflexivity.
        -- rewrite H4. apply length_insert.
Qed.

Lemma opened_nonneg open_dev useonlyone j n :
  Forall (fun fd => 0 <= fd) (opened open_dev useonlyone j n).
Proof.
  unfold opened. apply Forall_forall. intros fd Hfd.
  apply list_elem_of_filter in Hfd as [H _]. exact H.
Qed.

Lemma filter_negatives (l : list Z) :
  Forall (fun fd => fd < 0) l -> filter (fun e => 0 <= e) l = [].
Proof.
  induction 1 as [|x l Hx Hl IH]; [reflexivity|].
  rewrite filter_cons_False by lia. exact IH.
Qed.

Lemma filter_nonneg (l : list Z) :
  Forall (fun fd => 0 <= fd) l -> filter (fun e => 0 <= e) l = l.
Proof.
  induction 1 as [|x l Hx Hl IH]; [reflexivity|].
  rewrite filter_cons_True by exact Hx. rewrite IH. reflexivity.
Qed.

Lemma closeevents_loop_unmarked evs : forall n,
  length evs = n ->
  closeevents_loop evs (replicate n (-1)) = SysClose <$> filter (fun e => 0 <= e) evs.
Proof.
  induction evs as [|e evs IH]; intros n Hn; [reflexivity|].
  destruct n as [|n]; [discriminate Hn|]. cbn [replicate closeevents_loop].
  change (-1 >=? 0) with false. cbn iota.
  rewrite (IH n) by (injection Hn; auto).
  destruct (Z.geb_spec e 0).
  - rewrite filter_cons_True by lia. reflexivity.
  - rewrite filter_cons_False by lia. reflexivity.
Qed.

Lemma tried_only useonlyone n :
  0 <= useonlyone ->
  tried useonlyone 0 n
  = if useonlyone <? Z.of_nat n then [useonlyone] else [].
Proof.
  intros Hu. unfold tried.
  assert (Hgen : forall m j, 0 <= j ->
    filter (fun k => useonlyone < 0 \/ useonlyone = k) (seqZ j (Z.of_nat m))
    = if (j <=? useonlyone) && (useonlyone <? j + Z.of_nat m) then [useonlyone] else []).
  { induction m as [|m IH]; intros j Hj.
    - change (Z.of_nat 0) with 0. rewrite Z.add_0_r.
      change (seqZ j 0) with (@nil Z). rewrite filter_nil.
      destruct (Z.leb_spec j useonlyone), (Z.ltb_spec useonlyone j); cbn [andb];
        try reflexivity. exfalso. lia.
    - rewrite seqZ_cons by lia.
      replace (Z.pred (Z.of_nat (S m))) with (Z.of_nat m) by lia.
      rewrite <- Z.add_1_r.
      destruct (Z.eq_dec useonlyone j) as [->|Hne].
      + rewrite filter_cons_True by (right; reflexivity).
        rewrite IH by lia.
        destruct (Z.leb_spec (j + 1) j); [exfalso; lia|]. cbn [andb].
        destruct (Z.leb_spec j j); [|exfalso; lia].
        destruct (Z.ltb_spec j (j + Z.of_nat (S m))); [reflexivity|exfalso; lia].
      + rewrite filter_cons_False by lia. rewrite IH by lia.
        destruct (Z.leb_spec (j + 1) useonlyone), (Z.leb_spec j useonlyone),
          (Z.ltb_spec useonlyone (j + 1 + Z.of_nat m)),
          (Z.ltb_spec useonlyone (j + Z.of_nat (S m))); cbn [andb]; try reflexivity;
          exfalso; lia. }
  rewrite Hgen by lia. destruct (Z.leb_spec 0 useonlyone); [|exfalso; lia].
  cbn [andb]. rewrite Z.add_0_l. reflexivity.
Qed.

Lemma initevents_shape open_dev x11_id useonlyone mutex11 listed d id0 :
  let r := initevents open_dev x11_id useonlyone mutex11 true listed d id0 in
  let d' := snd (fst r) in
  let fds := opened open_dev useonlyone 0 MAXEVDEVS in
  fst (fst r) = Z.of_nat (length fds)
  /\ take (length fds) (eventdevs d') = fds
  /\ Forall (fun fd => fd < 0) (drop (length fds) (eventdevs d'))
  /\ length (eventdevs d') = MAXEVDEVS
  /\ x11handles d' = replicate MAXEVDEVS (-1).
Proof.
  intros r d' fds. subst r d'. unfold initevents.
  rewrite andb_false_r.
  pose proof (initevents_loop_spec open_dev x11_id useonlyone
    (negb (mutex11 =? 0) && listed && (mutex11 >? 0)) MAXEVDEVS 0 0
    (replicate MAXEVDEVS (-1)) id0) as H.
  destruct (initevents_loop _ _ _ _ _ _ _ _ _) as [[i evs] id1].
  cbn [fst snd] in H |- *. cbn [eventdevs x11handles].
  destruct H as (H1 & H2 & H3 & H4).
  { rewrite length_replicate. lia. }
  { cbn. repeat constructor. }
  fold fds in H1, H2. cbn [Nat.add take app] in H1, H2. subst i.
  split; [reflexivity|]. split; [exact H2|]. split; [exact H3|].
  split; [rewrite H4; apply length_replicate|reflexivity].
Qed.

Lemma initevents_open_descriptors open_dev x11_id useonlyone mutex11 listed d id0 :
  let d' := snd (fst (initevents open_dev x11_id useonlyone mutex11 true listed d id0)) in
  filter (fun e => 0 <= e) (eventdevs d') = opened open_dev useonlyone 0 MAXEVDEVS.
Proof.
  intros d'.
  destruct (initevents_shape open_dev x11_id useonlyone mutex11 listed d id0)
    as (_ & H2 & H3 & _).
  fold d' in H2, H3.
  rewrite <- (take_drop (length (opened open_dev useonlyone 0 MAXEVDEVS)) (eventdevs d')).
  rewrite filter_app, H2, (filter_negatives _ H3), app_nil_r.
  apply filter_nonneg, opened_nonneg.
Qed.

(** After [initevents] the table [eventdevs] holds the descriptors of
    the devices that could be opened, in device order and without gaps,
    followed by negative entries up to its 16 slots, and the value
    returned is their number.  With [-e<n>] only device [n] is tried, and
    none at all when [n] is 16 or more. *)
Theorem initevents_table open_dev x11_id useonlyone mutex11 listed d id0 :
  let r := initevents open_dev x11_id useonlyone mutex11 true listed d id0 in
  let d' := snd (fst r) in
  let fds := opened open_dev useonlyone 0 MAXEVDEVS in
  fst (fst r) = Z.of_nat (length fds)
  /\ eventdevs d' = fds ++ drop (length fds) (eventdevs d')
  /\ Forall (fun fd => fd < 0) (drop (length fds) (eventdevs d'))
  /\ length (eventdevs d') = MAXEVDEVS
  /\ (0 <= useonlyone ->
      tried useonlyone 0 MAXEVDEVS = if useonlyone <? 16 then [useonlyone] else []).
Proof.
  intros r d' fds.
  destruct (initevents_shape open_dev x11_id useonlyone mutex11 listed d id0)
    as (H1 & H2 & H3 & H4 & _).
  fold r d' fds in H1, H2, H3, H4.
  split; [exact H1|].
  split; [rewrite <- H2 at 1; symmetry; apply take_drop|].
  split; [exact H3|]. split; [exact H4|].
  intros Hu. apply (tried_only useonlyone MAXEVDEVS Hu).
Qed.

(** [closeevents] after [initevents] closes exactly the descriptors that
    were opened, each once and in order, and runs no [xinput] command:
    [x11handles] holds -1 throughout, since the assignment at line 706 is
    commented out, so the teardown of [main] never re-enables a device in
    X11.  The same descriptors are the ones [add_filedescriptors] has
    [select] watch. *)
Theorem closeevents_after_initevents open_dev x11_id useonlyone mutex11 listed d id0 :
  let d' := snd (fst (initevents open_dev x11_id useonlyone mutex11 true listed d id0)) in
  closeevents d' = SysClose <$> opened open_dev useonlyone 0 MAXEVDEVS
  /\ fst (add_filedescriptors d') = opened open_dev useonlyone 0 MAXEVDEVS.
Proof.
  intros d'.
  destruct (initevents_shape open_dev x11_id useonlyone mutex11 listed d id0)
    as (_ & _ & _ & H4 & H5).
  pose proof (initevents_open_descriptors open_dev x11_id useonlyone mutex11 listed d id0)
    as Hf.
  fold d' in H4, H5, Hf.
  split.
  - unfold closeevents. rewrite H5.
    rewrite (closeevents_loop_unmarked (eventdevs d') MAXEVDEVS H4), Hf. reflexivity.
  - destruct (add_filedescriptors_spec d') as (H & _). rewrite H. exact Hf.
Qed.

Lemma initfifo_ok st made fd d :
  fst (initfifo true st made fd d) = 1 ->
  0 <= fd
  /\ snd (initfifo true st made fd d)
     = Devices (<[0%nat := fd]> (eventdevs d)) (x11handles d).
Proof.
  unfold initfifo. cbn [negb].
  assert (Hgo : fst (if 0 >? fd then 0 else 1,
                     Devices (<[0%nat := fd]> (eventdevs d)) (x11handles d)) = 1 ->
                0 <= fd).
  { cbn [fst]. destruct (Z.gtb_spec 0 fd); [discriminate|lia]. }
  destruct st as [[|]|]; [|discriminate|destruct made; [|discriminate]];
    intros H; (split; [exact (Hgo H)|reflexivity]).
Qed.

(** With [-f], when [initfifo] succeeds, only slot 0 of [eventdevs] is
    written; the other 15 slots keep the 0 of static storage, which
    [add_filedescriptors] takes for open descriptors: descriptor 0, the
    standard input, is put into the set that [select] watches and
    [parse_events] reads.  [closefifo] closes the fifo alone. *)
Theorem fifo_mode_polls_stdin st made fd :
  let r := initfifo true st made fd devices_init in
  fst r = 1 ->
  eventdevs (snd r) = fd :: replicate 15 0
  /\ fst (add_filedescriptors (snd r)) = fd :: replicate 15 0
  /\ snd (add_filedescriptors (snd r)) = fd
  /\ closefifo (snd r) = [SysClose fd].
Proof.
  intros r Hr. subst r. apply initfifo_ok in Hr as [Hfd ->].
  set (d' := Devices (<[0%nat := fd]> (eventdevs devices_init))
               (x11handles devices_init)).
  assert (Hev : eventdevs d' = fd :: replicate 15 0) by reflexivity.
  destruct (add_filedescriptors_spec d') as (H1 & H3 & H4).
  assert (Hf : fst (add_filedescriptors d') = fd :: replicate 15 0).
  { rewrite H1, Hev. apply filter_nonneg.
    constructor; [exact Hfd|]. apply Forall_replicate. lia. }
  split; [exact Hev|]. split; [exact Hf|]. split.
  - rewrite Hev in H3, H4.
    assert (Hle : fd <= snd (add_filedescriptors d')) by (apply H3; [left|exact Hfd]).
    destruct H4 as [H4|[H4 _]]; [lia|].
    apply elem_of_cons in H4 as [H4|H4]; [exact H4|].
    apply elem_of_replicate in H4 as [H4 _]. lia.
  - unfold closefifo. rewrite Hev. change (rd (fd :: replicate 15 0) 0) with fd.
    assert (Hge : (fd >=? 0) = true) by (apply Z.geb_le; lia).
    rewrite Hge. reflexivity.
Qed.

Lemma fifo_mode_polls_stdin_witness :
  let r := initfifo true None true 5 devices_init in
  eventdevs (snd r) = [5; 0; 0; 0; 0; 0; 0; 0; 0; 0; 0; 0; 0; 0; 0; 0]
  /\ fst (add_filedescriptors (snd r)) = [5; 0; 0; 0; 0; 0; 0; 0; 0; 0; 0; 0; 0; 0; 0; 0]
  /\ snd (add_filedescriptors (snd r)) = 5
  /\ closefifo (snd r) = [SysClose 5].
Proof.
  apply (fifo_mode_polls_stdin None true 5). reflexivity.
Defined.

(** ** The pressed-key array over whole runs *)

Lemma pressedkey_ok_run_witness :
  let s := snd (main_loop [(0, 0x1E)] all_sent false quiet_stdin (Idle, init_state false 0)
                  hold_a_1_type_pass) in
  existsb burst_fail (trace s) = false
  /\ pressedkey s = [0x1E; 0; 0; 0; 0; 0; 0; 0]
  /\ pressedkey_ok (pressedkey s).
Proof.
  split; [reflexivity|]. split; [reflexivity|].
  apply (pressedkey_ok_run [(0, 0x1E)] all_sent false quiet_stdin false 0 hold_a_1_type_pass).
  reflexivity.
Defined.

(** ** The X11 device and the toggle *)

Lemma x11_enabled_app b t t' :
  x11_enabled b (t ++ t') = x11_enabled (x11_enabled b t) t'.
Proof.
  revert b. induction t as [|a t IH]; intros b; [reflexivity|].
  destruct a; cbn [app x11_enabled]; apply IH.
Qed.

Lemma x11_enabled_quiet t : existsb is_xinput t = false -> forall b, x11_enabled b t = b.
Proof.
  induction t as [|a t IH]; intros H b; [reflexivity|].
  destruct a; cbn [existsb is_xinput orb] in H; try discriminate H;
    cbn [x11_enabled]; apply IH; exact H.
Qed.

Lemma x11_active_config s s' : config s' = config s -> x11_active s -> x11_active s'.
Proof. unfold config, x11_active. intros [= -> -> ->]. auto. Qed.

Lemma x11_piece_trans s s1 s2 j m f :
  x11_piece s s1 (Fall j m) -> x11_piece s1 s2 f -> x11_piece s s2 f.
Proof.
  intros (Hc1 & a1 & Ht1 & Hd1 & Hq1 & Hp1 & Hx1) (Hc2 & a2 & Ht2 & Hd2 & Hq2 & H2).
  assert (Hres : result s1 = result s) by (injection Hc1; auto).
  split; [congruence|]. exists (a1 ++ a2).
  split; [rewrite Ht2, Ht1, app_assoc; reflexivity|].
  split; [rewrite existsb_app, Hd1, Hd2; reflexivity|].
  split; [intros Hr; rewrite existsb_app, Hq1, Hq2 by congruence; reflexivity|].
  destruct f.
  - destruct H2 as (Hp2 & Hx2). split; [congruence|].
    intros Ha. rewrite x11_enabled_app, (Hx1 Ha).
    apply Hx2. apply (x11_active_config s s1 Hc1 Ha).
  - destruct H2 as (Hp2 & Hx2). split; [congruence|].
    intros Ha. rewrite x11_enabled_app, (Hx1 Ha).
    apply Hx2. apply (x11_active_config s s1 Hc1 Ha).
  - destruct H2 as (H2 & H3). split.
    + intros Hr. rewrite <- Hres in Hr. destruct (H2 Hr) as [Hp Hb].
      split; [exact Hp|]. intros b. rewrite x11_enabled_app. apply Hb.
    + intros Hr. apply H3. congruence.
Qed.

(** Closes a goal [x11_piece] for a piece that calls no [xinput], leaves
    the toggle alone and does not end the process. *)
Ltac close_x11 :=
  unfold x11_piece, config; trace_norm; split; [reflexivity|];
  eexists; split; [first [reflexivity | symmetry; apply app_nil_r]|];
  split; [reflexivity|]; split; [intros _; reflexivity|];
  split; [reflexivity|intros _; reflexivity].

Lemma mouse_button_x11 sendres hidrep s ev h' s' f :
  mouse_button sendres hidrep s ev = (h', s', f) -> x11_piece s s' f.
Proof.
  unfold mouse_button. trace_norm.
  destruct (connectionok s =? 0).
  - intros [= <- <- <-]. close_x11.
  - destruct (1 >? _); intros [= <- <- <-]; close_x11.
Qed.

Lemma key_common_x11 sendres hidrep j m s u pressedmod value h' s' f :
  key_common sendres hidrep j m s u pressedmod value = (h', s', f) -> x11_piece s s' f.
Proof.
  unfold key_common. destruct (update_keys _ _ _ _) as [pk j']. trace_norm.
  destruct (connectionok s =? 0).
  - intros [= <- <- <-]. close_x11.
  - destruct (on s =? 0) eqn:Hon.
    + destruct (1 >? j'); intros [= <- <- <-]; close_x11.
    + trace_norm. destruct (1 >? _); intros [= <- <- <-]; close_x11.
Qed.

Lemma burst_x11 sendres l : forall hidrep j m s h' s' f,
  burst sendres l hidrep j m s = (h', s', f) -> x11_piece s s' f.
Proof.
  induction l as [|[modify k] rest IH]; intros hidrep j m s h' s' f; cbn [burst].
  - intros [= <- <- <-]. close_x11.
  - trace_norm. destruct (connectionok s =? 0).
    + intros [= <- <- <-]. close_x11.
    + destruct (on s =? 0) eqn:Hon.
      * destruct (1 >? j); [intros [= <- <- <-]; close_x11|].
        intros H. apply IH in H.
        eapply (x11_piece_trans _ _ _ 0 0); [|exact H]. close_x11.
      * trace_norm. destruct (1 >? _); [intros [= <- <- <-]; close_x11|].
        intros H. apply IH in H.
        eapply (x11_piece_trans _ _ _ 0 0); [|exact H]. close_x11.
Qed.

Lemma sysrq_x11 pass sendres hidrep s ev h' s' f :
  sysrq pass sendres hidrep s ev = (h', s', f) -> x11_piece s s' f.
Proof.
  unfold sysrq. destruct (ev_value ev =? 0); [|intros [= <- <- <-]; close_x11].
  destruct (Z.land (modifierkeys s) 1 =? 1).
  - destruct (connectionok s =? 0); trace_norm;
      destruct (result s) eqn:Hres; intros [= <- <- <-];
      unfold x11_piece, config; trace_norm;
      (split; [reflexivity|]);
      eexists; (split; [first [reflexivity | symmetry; apply app_nil_r]|]);
      (split; [reflexivity|]);
      (split; [intros Hr; first [reflexivity | congruence]|]);
      (split; intros Hr; [|first [reflexivity | congruence]]);
      first [congruence | split; [reflexivity|intros b; reflexivity]].
  - destruct (Z.land (modifierkeys s) 16 =? 16).
    + destruct (burst sendres pass hidrep sizeof_input_event 0 s) as [[h1 s1] f1] eqn:Hb.
      apply burst_x11 in Hb.
      destruct f1; intros [= <- <- <-]; [|exact Hb|exact Hb].
      eapply x11_piece_trans; [exact Hb|]. close_x11.
    + trace_norm.
      destruct (stop_writing s =? 0) eqn:Hsw.
      { intros [= <- <- <-]. unfold x11_piece, config; trace_norm.
        split; [reflexivity|]. eexists. split; [reflexivity|].
        split; [reflexivity|]. split; [intros _; reflexivity|].
        split; [reflexivity|]. intros (Ha & _). apply Z.eqb_eq in Hsw. contradiction. }
      destruct (id s =? 0) eqn:Hid.
      { intros [= <- <- <-]. unfold x11_piece, config; trace_norm.
        split; [reflexivity|]. eexists. split; [reflexivity|].
        split; [reflexivity|]. split; [intros _; reflexivity|].
        split; [reflexivity|]. intros (_ & Ha & _). apply Z.eqb_eq in Hid. contradiction. }
      destruct (result s) eqn:Hres; intros [= <- <- <-].
      * unfold x11_piece, config; trace_norm.
        split; [reflexivity|]. eexists. split; [reflexivity|].
        split; [reflexivity|]. split; [intros Hr; congruence|].
        split; [reflexivity|]. intros _. cbn [x11_enabled].
        destruct (on s =? 0); reflexivity.
      * unfold x11_piece, config; trace_norm.
        split; [reflexivity|]. eexists. split; [reflexivity|].
        split; [reflexivity|]. split; [intros _; reflexivity|].
        split; [intros Hr; congruence|intros _; reflexivity].
Qed.

Lemma ev_key_x11 pass sendres hidrep s ev h' s' f :
  ev_key pass sendres hidrep s ev = (h', s', f) -> x11_piece s s' f.
Proof.
  unfold ev_key. destruct (is_button (ev_code ev)).
  - destruct (mouse_button sendres hidrep s ev) as [[h1 s1] f1] eqn:Hb.
    apply mouse_button_x11 in Hb.
    destruct f1; [|intros [= <- <- <-]; exact Hb..].
    intros H. apply key_common_x11 in H. eapply x11_piece_trans; eassumption.
  - destruct (ev_code ev =? KEY_SYSRQ).
    + destruct (sysrq pass sendres hidrep s ev) as [[h1 s1] f1] eqn:Hb.
      apply sysrq_x11 in Hb.
      destruct f1; [|intros [= <- <- <-]; exact Hb..].
      intros H. apply key_common_x11 in H. eapply x11_piece_trans; eassumption.
    + apply key_common_x11.
Qed.

Lemma ev_rel_x11 sendres hidrep s ev h' s' f :
  ev_rel sendres hidrep s ev = (h', s', f) -> x11_piece s s' f.
Proof.
  unfold ev_rel. destruct (is_axis (ev_code ev)); [|intros [= <- <- <-]; close_x11].
  trace_norm.
  destruct (connectionok s =? 0); [intros [= <- <- <-]; close_x11|].
  destruct (1 >? _); intros [= <- <- <-]; close_x11.
Qed.

Lemma handle_event_x11 pass sendres hidrep s ev h' s' f :
  handle_event pass sendres hidrep s ev = (h', s', f) -> x11_piece s s' f.
Proof.
  unfold handle_event. destruct (ev_type ev =? EV_KEY); [apply ev_key_x11|].
  destruct (ev_type ev =? EV_REL); [apply ev_rel_x11|].
  intros [= <- <- <-]. close_x11.
Qed.

Lemma parse_loop_x11 pass sendres evs : forall hidrep s s' r,
  parse_loop pass sendres evs hidrep s = (s', r) ->
  exists f, x11_piece s s' f.
Proof.
  induction evs as [|ev evs IH]; intros hidrep s s' r; cbn [parse_loop].
  - intros [= <- <-]. exists (Ret 0). close_x11.
  - destruct (handle_event pass sendres hidrep s ev) as [[h1 s1] f1] eqn:Hh.
    apply handle_event_x11 in Hh. destruct f1.
    + intros H. apply IH in H as [f H]. exists f.
      eapply x11_piece_trans; eassumption.
    + intros [= <- <-]. eexists; exact Hh.
    + intros [= <- <-]. eexists; exact Hh.
Qed.

Lemma x11_seg_refl s : x11_seg s s.
Proof.
  split; [reflexivity|]. split; [|auto].
  exists []. split; [symmetry; apply app_nil_r|reflexivity].
Qed.

Lemma x11_seg_trans s s1 s2 : x11_seg s s1 -> x11_seg s1 s2 -> x11_seg s s2.
Proof.
  intros (Hc1 & (a1 & Ht1 & Hq1) & Hi1) (Hc2 & (a2 & Ht2 & Hq2) & Hi2).
  assert (Hres : result s1 = result s) by (injection Hc1; auto).
  split; [congruence|]. split.
  - exists (a1 ++ a2). split; [rewrite Ht2, Ht1, app_assoc; reflexivity|].
    intros Hr. rewrite existsb_app, Hq1, Hq2 by congruence. reflexivity.
  - intros Ha Hi. apply Hi2; [apply (x11_active_config s s1 Hc1 Ha)|auto].
Qed.

(** A stretch that calls no [xinput], runs no teardown and leaves the
    toggle and the process as they are. *)
Lemma x11_seg_quiet s s' acts :
  config s' = config s -> on s' = on s -> proc s' = proc s ->
  trace s' = trace s ++ acts ->
  existsb is_xinput acts = false -> existsb teardown_action acts = false ->
  x11_seg s s'.
Proof.
  intros Hc Ho Hp Ht Hq Hd. split; [exact Hc|]. split; [exists acts; auto|].
  intros _. unfold x11_inv, running.
  rewrite Hp, Ht, existsb_app, Hd, orb_false_r, x11_enabled_app, Ho,
    (x11_enabled_quiet acts Hq). auto.
Qed.

Ltac plain_x11 :=
  eapply x11_seg_quiet; trace_norm;
  [reflexivity|reflexivity|reflexivity
  |first [reflexivity | symmetry; apply app_nil_r]|reflexivity|reflexivity].

Lemma parse_events_x11 pass sendres w s :
  running s = true -> x11_seg s (fst (parse_events pass sendres w s)).
Proof.
  intros Hrun. destruct (parse_events pass sendres w s) as [s1 r] eqn:Hpe. cbn [fst].
  unfold parse_events in Hpe. apply parse_loop_x11 in Hpe as [f Hpe].
  destruct Hpe as (Hc & acts & Ht & Hd & Hq & Hf).
  split; [exact Hc|]. split; [exists acts; auto|].
  intros Ha. unfold x11_inv. rewrite Hrun. intros [Hno He].
  assert (Hres : result s = true) by apply Ha.
  rewrite Ht, existsb_app, Hno, Hd, x11_enabled_app, He. cbn [orb].
  assert (Hk : proc s1 = proc s
               /\ (x11_active s -> x11_enabled (on s =? 0) acts = (on s1 =? 0))
               -> if running s1
                  then false = false /\ x11_enabled (on s =? 0) acts = (on s1 =? 0)
                  else x11_enabled (on s =? 0) acts = true).
  { intros [Hp Hx]. unfold running in *. rewrite Hp.
    destruct (proc s); try discriminate Hrun. auto. }
  destruct f; [exact (Hk Hf)..|].
  destruct Hf as [Hf _]. destruct (Hf Hres) as [Hp Hb].
  unfold running. rewrite Hp. apply Hb.
Qed.

Lemma shutdown_x11 skipsdp stdin s :
  running s = true -> x11_seg s (shutdown skipsdp stdin s).
Proof.
  intros Hrun.
  destruct (shutdown_actions skipsdp stdin s) as (Ht & Hp & _).
  assert (Hq : existsb is_xinput (teardown_actions skipsdp stdin) = false)
    by (unfold teardown_actions;
        destruct skipsdp, (cleanup_stdin false stdin); reflexivity).
  assert (Hd : existsb teardown_action (teardown_actions skipsdp stdin) = true)
    by (unfold teardown_actions;
        destruct skipsdp, (cleanup_stdin false stdin); reflexivity).
  assert (Hon : on (shutdown skipsdp stdin s) = on s)
    by (unfold shutdown; destruct skipsdp, (cleanup_stdin false stdin); reflexivity).
  assert (Hnr : running (shutdown skipsdp stdin s) = false)
    by (unfold running; rewrite Hp; destruct (cleanup_stdin false stdin); reflexivity).
  split; [unfold shutdown; destruct skipsdp, (cleanup_stdin false stdin); reflexivity|].
  split; [exists (teardown_actions skipsdp stdin); split; [exact Ht|intros _; exact Hq]|].
  intros _. unfold x11_inv. rewrite Hrun, Hnr. intros [_ He].
  rewrite Ht, existsb_app, Hd, orb_true_r, x11_enabled_app, He, Hon.
  apply x11_enabled_quiet. exact Hq.
Qed.

Lemma loop_top_x11 skipsdp stdin s : running s = true -> x11_seg s (snd (loop_top skipsdp stdin s)).
Proof.
  intros Hrun. unfold loop_top. destruct (prepareshutdown s =? 0); cbn [snd].
  - apply x11_seg_refl.
  - apply shutdown_x11. exact Hrun.
Qed.

Lemma onsignal_x11 n s : x11_seg s (onsignal n s).
Proof.
  unfold onsignal. destruct (n =? SIGINT).
  - destruct (connectionok s =? 0); [plain_x11|apply x11_seg_refl].
  - destruct ((n =? SIGTERM) || (n =? SIGHUP)); [plain_x11|apply x11_seg_refl].
Qed.

Lemma onsignal_running n s : running (onsignal n s) = running s.
Proof.
  unfold onsignal. destruct (n =? SIGINT).
  - destruct (connectionok s =? 0); reflexivity.
  - destruct ((n =? SIGTERM) || (n =? SIGHUP)); reflexivity.
Qed.

Lemma main_step_x11 pass sendres skipsdp stdin p s i :
  x11_seg s (snd (main_step pass sendres skipsdp stdin (p, s) i)).
Proof.
  unfold main_step. destruct (running s) eqn:Hrun; [|apply x11_seg_refl].
  destruct i as [w| | | |n].
  - pose proof (parse_events_x11 pass sendres w s Hrun) as Hd.
    destruct p.
    + rewrite drain_parse. set (s1 := fst (parse_events pass sendres w s)) in *.
      destruct (running s1) eqn:Hr1; [|exact Hd].
      eapply x11_seg_trans; [exact Hd|apply loop_top_x11; exact Hr1].
    + rewrite drain_parse. exact Hd.
    + rewrite pump_parse. cbv zeta.
      set (s1 := fst (parse_events pass sendres w s)) in *.
      destruct (running s1) eqn:Hr1; cbn [andb].
      * destruct (snd (parse_events pass sendres w s) =? -1).
        -- change (running (set_connectionok 0 s1)) with (running s1).
           rewrite Hr1. cbn [connectionok set_connectionok].
           change (0 =? 0) with true. cbn iota.
           eapply x11_seg_trans; [exact Hd|].
           eapply (x11_seg_trans _ (session_end (set_connectionok 0 s1)));
             [unfold session_end; plain_x11|apply loop_top_x11; exact Hr1].
        -- rewrite Hr1. destruct (connectionok s1 =? 0); [|exact Hd].
           eapply x11_seg_trans; [exact Hd|].
           eapply (x11_seg_trans _ (session_end s1));
             [unfold session_end; plain_x11|apply loop_top_x11; exact Hr1].
      * rewrite Hr1. exact Hd.
  - destruct p; cbn [snd]; try apply x11_seg_refl.
    destruct (prepareshutdown s =? 0); cbn [snd].
    + unfold session_start. plain_x11.
    + apply shutdown_x11. exact Hrun.
  - destruct p; cbn [snd]; try apply x11_seg_refl. plain_x11.
  - destruct p; cbn [snd]; try apply x11_seg_refl.
    eapply (x11_seg_trans _ (emit (Close Sctl) (set_connectionok 0 s)));
      [plain_x11|apply loop_top_x11; exact Hrun].
  - pose proof (onsignal_x11 n s) as Hs.
    destruct p; cbn [snd]; try exact Hs.
    eapply x11_seg_trans; [exact Hs|].
    apply loop_top_x11. rewrite onsignal_running. exact Hrun.
Qed.

Lemma main_loop_x11 pass sendres skipsdp stdin ins : forall p s,
  x11_seg s (snd (main_loop pass sendres skipsdp stdin (p, s) ins)).
Proof.
  unfold main_loop. induction ins as [|i ins IH]; intros p s; cbn [fold_left].
  - apply x11_seg_refl.
  - pose proof (main_step_x11 pass sendres skipsdp stdin p s i) as H1.
    destruct (main_step pass sendres skipsdp stdin (p, s) i) as [p1 s1]. cbn [snd] in H1.
    eapply x11_seg_trans; [exact H1|apply IH].
Qed.

(** With [-x] and an X11 device found, the device is enabled exactly
    while the toggle is muted, as long as the process runs and after the
    teardown at the end of [main]: a program ended by a signal while
    unmuted leaves the device disabled. After the exit of the reserved
    key the device is enabled. *)
Theorem x11_device_follows_toggle pass sendres skipsdp stdin id0 ins :
  id0 <> 0 ->
  let s := snd (main_loop pass sendres skipsdp stdin (Idle, init_state true id0) ins) in
  let enabled := x11_enabled true (trace s) in
  let torn_down := existsb teardown_action (trace s) in
  (running s = true -> enabled = (on s =? 0))
  /\ (running s = false -> torn_down = true -> enabled = (on s =? 0))
  /\ (running s = false -> torn_down = false -> enabled = true).
Proof.
  intros Hid. cbv zeta.
  destruct (main_loop_x11 pass sendres skipsdp stdin ins Idle (init_state true id0))
    as (_ & _ & Hi).
  assert (Hinv : x11_inv (snd (main_loop pass sendres skipsdp stdin
                                 (Idle, init_state true id0) ins))).
  { apply Hi.
    - unfold x11_active, init_state. cbn. repeat split; [discriminate|exact Hid].
    - unfold x11_inv. cbn. auto. }
  unfold x11_inv in Hinv.
  destruct (running _).
  - destruct Hinv as [_ He]. repeat split; [auto|discriminate..].
  - destruct (existsb teardown_action _); repeat split; auto; discriminate.
Qed.

Lemma x11_device_follows_toggle_witness :
  let s := snd (main_loop [] all_sent false quiet_stdin (Idle, init_state true 9)
                  unmute_then_sigterm) in
  proc s = Exited 0
  /\ on s = 1
  /\ x11_enabled true (trace s) = false.
Proof.
  split; [reflexivity|]. split; [reflexivity|].
  destruct (x11_device_follows_toggle [] all_sent false quiet_stdin 9 unmute_then_sigterm)
    as (_ & H & _); [discriminate|].
  apply H; reflexivity.
Defined.

(** Without [-x] the program never calls [xinput]. *)
Theorem no_xinput_without_x pass sendres skipsdp stdin id0 ins :
  let s := snd (main_loop pass sendres skipsdp stdin (Idle, init_state false id0) ins) in
  existsb is_xinput (trace s) = false.
Proof.
  cbv zeta.
  destruct (main_loop_x11 pass sendres skipsdp stdin ins Idle (init_state false id0))
    as (_ & (acts & Ht & Hq) & _).
  rewrite Ht. cbn [init_state trace app]. apply Hq. reflexivity.
Qed.

(** Without [-x] the release of the reserved key with left control held
    ends the process in the [sprintf] through the null pointer [result],
    in every phase of [main]. *)
Theorem terminate_without_x_crashes pass sendres skipsdp stdin id0 ins h :
  let ps := main_loop pass sendres skipsdp stdin (Idle, init_state false id0) ins in
  running (snd ps) = true ->
  Z.land (modifierkeys (snd ps)) 1 = 1 ->
  proc (snd (main_step pass sendres skipsdp stdin ps (Wake (h, [sysrq_release])))) = Crashed.
Proof.
  cbv zeta. intros Hrun Hmk.
  destruct (main_loop_x11 pass sendres skipsdp stdin ins Idle (init_state false id0))
    as (Hc & _ & _).
  destruct (main_loop pass sendres skipsdp stdin (Idle, init_state false id0) ins)
    as [p s]. cbn [snd] in *.
  assert (Hres : result s = false) by (injection Hc; auto).
  assert (Hpe : proc (fst (parse_events pass sendres (h, [sysrq_release]) s)) = Crashed).
  { unfold parse_events, sysrq_release. cbn [fst snd parse_loop].
    unfold handle_event, ev_key. cbn [ev_type ev_code ev_value].
    change (EV_KEY =? EV_KEY) with true. cbn iota.
    change (is_button KEY_SYSRQ) with false. cbn iota.
    change (KEY_SYSRQ =? KEY_SYSRQ) with true. cbn iota.
    unfold sysrq. cbn [ev_value]. change (0 =? 0) with true. cbn iota.
    rewrite Hmk. change (1 =? 1) with true. cbn iota.
    destruct (connectionok s =? 0); trace_norm; rewrite Hres; reflexivity. }
  assert (Hnr : running (fst (parse_events pass sendres (h, [sysrq_release]) s)) = false)
    by (unfold running; rewrite Hpe; reflexivity).
  unfold main_step. rewrite Hrun. destruct p.
  - rewrite drain_parse, Hnr. exact Hpe.
  - rewrite drain_parse. exact Hpe.
  - rewrite pump_parse. cbv zeta. rewrite Hnr. cbn [andb]. rewrite Hnr. exact Hpe.
Qed.

Lemma terminate_without_x_crashes_witness :
  let ps := main_loop [] all_sent false quiet_stdin (Idle, init_state false 0)
              [key KEY_LEFTCTRL 1] in
  Z.land (modifierkeys (snd ps)) 1 = 1
  /\ proc (snd (main_step [] all_sent false quiet_stdin ps (Wake (no_junk, [sysrq_release]))))
     = Crashed.
Proof.
  split; [reflexivity|].
  apply (terminate_without_x_crashes [] all_sent false quiet_stdin 0 [key KEY_LEFTCTRL 1] no_junk);
    reflexivity.
Defined.
